(** * SAP Implementation Factory: the orchestration pipeline

    A shallow embedding of the configuration parser ([app/engine/parser.py]),
    the execution planner ([app/engine/planner.py]), the job executor
    ([app/engine/executor.py]) and the customizing and testing handlers
    ([app/plugins/customizing.py], [app/plugins/testing.py]), with the
    properties of the pipeline proved about them.

    Conventions of the embedding:
    - Python values of type [Any] are [pyval]; a [dict] is an association
      list in insertion order, as CPython iterates it.
    - a call that may raise returns an [outcome]; code that mutates objects
      threads their state explicitly.
    - wall-clock timestamps, durations and the floating point KPIs derived
      from them are left out of the records; the integer counters, statuses,
      messages, logs and artifact lists are kept. *)

From Stdlib Require Import ZArith NArith QArith Ascii String.
From stdpp Require Import base tactics option list gmap strings pretty.

Local Open Scope Z_scope.

(** ** Results of calls that may raise *)

Inductive outcome (A : Type) : Type :=
| Ret (a : A)
| Raise (msg : string).
Arguments Ret {A} a.
Arguments Raise {A} msg.

(** What a call returned, if it returned. *)
Definition returned {A : Type} (o : outcome A) : option A :=
  match o with
  | Ret a => Some a
  | Raise _ => None
  end.

(** ** Python values *)

#[warnings="-register-all"]
Inductive pyval : Type :=
| PNone
| PBool (b : bool)
| PInt (z : Z)
| PStr (s : string)
| PList (l : list pyval)
| PDict (d : list (string * pyval)).

(** Dictionaries keyed by strings, in insertion order. *)
Section PyDict.
Context {V : Type}.

Fixpoint dict_get (d : list (string * V)) (k : string) : option V :=
  match d with
  | [] => None
  | (k', v) :: rest => if String.eqb k' k then Some v else dict_get rest k
  end.

Definition dict_contains (d : list (string * V)) (k : string) : bool :=
  match dict_get d k with Some _ => true | None => false end.

(** [d[k] = v]: an existing key keeps its position, a new key goes last. *)
Fixpoint dict_set (d : list (string * V)) (k : string) (v : V)
  : list (string * V) :=
  match d with
  | [] => [(k, v)]
  | (k', v') :: rest =>
      if String.eqb k' k then (k', v) :: rest
      else (k', v') :: dict_set rest k v
  end.

Definition dict_keys (d : list (string * V)) : list string := map fst d.
End PyDict.

(** [d.get(k, default)] on a value that is statically a dict. *)
Definition get_default (d : list (string * pyval)) (k : string) (dflt : pyval)
  : pyval :=
  match dict_get d k with Some v => v | None => dflt end.

(** Python truthiness ([if x:], [not x]). *)
Definition truthy (v : pyval) : bool :=
  match v with
  | PNone => false
  | PBool b => b
  | PInt z => negb (z =? 0)
  | PStr s => negb (String.eqb s "")
  | PList l => match l with [] => false | _ => true end
  | PDict d => match d with [] => false | _ => true end
  end.

(** [x in xs] for a list of strings. *)
Definition str_in (x : string) (xs : list string) : bool :=
  existsb (String.eqb x) xs.

(** [str(v)] as it appears inside an f-string.  Scalars are exact; the
    elements of a container are shown with single quotes around strings
    (the escaping that [repr] applies to quotes inside a string is not
    modelled). *)
Fixpoint py_repr (v : pyval) : string :=
  match v with
  | PNone => "None"
  | PBool true => "True"
  | PBool false => "False"
  | PInt z => pretty z
  | PStr s => "'" +:+ s +:+ "'"
  | PList l =>
      "[" +:+
      (fix items (l : list pyval) : string :=
         match l with
         | [] => ""
         | [x] => py_repr x
         | x :: rest => py_repr x +:+ ", " +:+ items rest
         end) l +:+ "]"
  | PDict d =>
      "{" +:+
      (fix items (d : list (string * pyval)) : string :=
         match d with
         | [] => ""
         | [(k, x)] => "'" +:+ k +:+ "': " +:+ py_repr x
         | (k, x) :: rest =>
             "'" +:+ k +:+ "': " +:+ py_repr x +:+ ", " +:+ items rest
         end) d +:+ "}"
  end.

Definition py_str (v : pyval) : string :=
  match v with
  | PStr s => s
  | _ => py_repr v
  end.

Definition opt_str (o : option string) : pyval :=
  match o with Some s => PStr s | None => PNone end.

Definition opt_dict (o : option (list (string * pyval))) : pyval :=
  match o with Some d => PDict d | None => PNone end.

(** [sep.join(xs)] *)
Fixpoint join (sep : string) (xs : list string) : string :=
  match xs with
  | [] => ""
  | [x] => x
  | x :: rest => x +:+ sep +:+ join sep rest
  end.

(** ** Domain models ([app/models.py]) *)

Inductive JobStatus := PENDING | RUNNING | COMPLETED | FAILED | SKIPPED.
Inductive RunStatus :=
| RUN_CREATED | RUN_PLANNING | RUN_EXECUTING | RUN_COMPLETED | RUN_FAILED.
Inductive JobType := CUSTOMIZING | MIGRATION | TESTING.

Global Instance JobStatus_eq_dec : EqDecision JobStatus.
Proof. solve_decision. Defined.
Global Instance RunStatus_eq_dec : EqDecision RunStatus.
Proof. solve_decision. Defined.
Global Instance JobType_eq_dec : EqDecision JobType.
Proof. solve_decision. Defined.

(** [JobType.value] *)
Definition job_type_value (t : JobType) : string :=
  match t with
  | CUSTOMIZING => "customizing"
  | MIGRATION => "migration"
  | TESTING => "testing"
  end.

Record SystemConfig := {
  sys_id : string;
  sys_client : string;
  sys_description : option string;
}.

Record CustomizingStep := {
  step_action : string;
  step_table : option string;
  step_key : option (list (string * pyval));
  step_values : option (list (string * pyval));
  step_bapi : option string;
  step_params : option (list (string * pyval));
}.

Record CustomizingPackage := {
  pkg_id : string;
  pkg_target : string;
  pkg_description : option string;
  pkg_steps : list CustomizingStep;
}.

Record MigrationObject := {
  obj_id : string;
  obj_source : string;
  obj_target : string;
  obj_mapping : list (string * string);
  obj_validation_rules : option (list string);
  obj_batch_size : Z;
}.

Record TestCase := {
  case_id : string;
  case_type : string;
  case_endpoint : option string;
  case_method : option string;
  case_expected_status : option Z;
  case_expected_data : option (list (string * pyval));
  case_description : option string;
}.

Record TestSuite := {
  suite_id : string;
  suite_target : string;
  suite_description : option string;
  suite_cases : list TestCase;
}.

Record ProjectConfig := {
  project_name : string;
  project_customer : string;
  project_template : option string;
  project_version : option string;
}.

(** [LandscapeConfig], [CustomizingConfig], [MigrationConfig] and
    [TestingConfig] each wrap one list; the wrapper is flattened into the
    field of the aggregate.  The scope section is carried by no operation
    of the pipeline and is left out. *)
Record ImplementationModel := {
  project : ProjectConfig;
  landscape_systems : list SystemConfig;
  customizing_packages : list CustomizingPackage;
  migration_objects : list MigrationObject;
  testing_suites : list TestSuite;
}.

Record JobDefinition := {
  job_id : string;
  job_type : JobType;
  job_name : string;
  job_target_system : string;
  job_config : list (string * pyval);
  job_dependencies : list string;
}.

Record ExecutionPlan := {
  plan_run_id : string;
  plan_jobs : list JobDefinition;
  plan_total_jobs : Z;
}.

Record LogEntry := {
  log_level : string;
  log_run_id : string;
  log_system : string;
  log_message : string;
}.

Record JobResult := {
  res_job_id : string;
  res_job_type : JobType;
  res_job_name : string;
  res_status : JobStatus;
  res_records_processed : Z;
  res_records_success : Z;
  res_records_failed : Z;
  res_error_message : option string;
  res_artifacts : list string;
  res_logs : list LogEntry;
}.

Record RunSummary := {
  sum_run_id : string;
  sum_project_name : string;
  sum_customer : string;
  sum_status : RunStatus;
  sum_total_jobs : Z;
  sum_completed_jobs : Z;
  sum_failed_jobs : Z;
  sum_skipped_jobs : Z;
  sum_total_records : Z;
  sum_success_records : Z;
  sum_failed_records : Z;
  sum_job_results : list JobResult;
  sum_artifacts : list string;
}.

(** [model_dump()] of the pydantic records that the planner copies into a
    job's configuration: every declared field is present, absent optional
    fields as [None]. *)
Definition step_model_dump (s : CustomizingStep) : pyval :=
  PDict [("action", PStr (step_action s));
         ("table", opt_str (step_table s));
         ("key", opt_dict (step_key s));
         ("values", opt_dict (step_values s));
         ("bapi", opt_str (step_bapi s));
         ("params", opt_dict (step_params s))].

Definition case_model_dump (c : TestCase) : pyval :=
  PDict [("id", PStr (case_id c));
         ("type", PStr (case_type c));
         ("endpoint", opt_str (case_endpoint c));
         ("method", opt_str (case_method c));
         ("expected_status",
            match case_expected_status c with
            | Some z => PInt z
            | None => PNone
            end);
         ("expected_data", opt_dict (case_expected_data c));
         ("description", opt_str (case_description c))].

(** ** Execution planner ([app/engine/planner.py]) *)

(** One lower-case hexadecimal digit. *)
Definition hex_digit (d : N) : ascii :=
  match d with
  | 0 => "0" | 1 => "1" | 2 => "2" | 3 => "3" | 4 => "4" | 5 => "5"
  | 6 => "6" | 7 => "7" | 8 => "8" | 9 => "9" | 10 => "a" | 11 => "b"
  | 12 => "c" | 13 => "d" | 14 => "e" | _ => "f"
  end%N%char.

(** [uuid.uuid4().hex[:6]]: [hex] is the 128-bit value printed as 32
    hexadecimal digits, so its first six digits are the top 24 bits. *)
Definition hex6 (u : N) : string :=
  let top := ((u / 2 ^ 104) mod 2 ^ 24)%N in
  String (hex_digit (top / 16 ^ 5 mod 16)%N)
    (String (hex_digit (top / 16 ^ 4 mod 16)%N)
      (String (hex_digit (top / 16 ^ 3 mod 16)%N)
        (String (hex_digit (top / 16 ^ 2 mod 16)%N)
          (String (hex_digit (top / 16 mod 16)%N)
            (String (hex_digit (top mod 16)%N) EmptyString))))).

Section Planner.
(** The random source: [uuid4 k] is the value of the [k]-th call of
    [uuid.uuid4()] made while the plan is built. *)
Variable uuid4 : nat -> N.

(** The loop of [_create_customizing_jobs], from the [k]-th draw on. *)
Fixpoint customizing_loop (packages : list CustomizingPackage)
    (previous_job_id : option string) (k : nat) : list JobDefinition :=
  match packages with
  | [] => []
  | package :: rest =>
      let id := "cust_" +:+ pkg_id package +:+ "_" +:+ hex6 (uuid4 k) in
      let dependencies :=
        match previous_job_id with
        | Some p => if truthy (PStr p) then [p] else []
        | None => []
        end in
      {| job_id := id;
         job_type := CUSTOMIZING;
         job_name := "Customizing: " +:+ pkg_id package;
         job_target_system := pkg_target package;
         job_config :=
           [("id", PStr (pkg_id package));
            ("target", PStr (pkg_target package));
            ("steps", PList (map step_model_dump (pkg_steps package)));
            ("description", opt_str (pkg_description package))];
         job_dependencies := dependencies |}
      :: customizing_loop rest (Some id) (S k)
  end.

Definition _create_customizing_jobs (model : ImplementationModel) (k : nat)
  : list JobDefinition :=
  customizing_loop (customizing_packages model) None k.

Fixpoint migration_loop (objects : list MigrationObject)
    (base_dependencies : list string) (k : nat) : list JobDefinition :=
  match objects with
  | [] => []
  | obj :: rest =>
      {| job_id := "migr_" +:+ obj_id obj +:+ "_" +:+ hex6 (uuid4 k);
         job_type := MIGRATION;
         job_name := "Migration: " +:+ obj_id obj;
         job_target_system := obj_target obj;
         job_config :=
           [("id", PStr (obj_id obj));
            ("source", PStr (obj_source obj));
            ("target", PStr (obj_target obj));
            ("mapping",
               PDict (map (fun kv => (fst kv, PStr (snd kv)))
                          (obj_mapping obj)));
            ("batch_size", PInt (obj_batch_size obj));
            ("validation_rules",
               match obj_validation_rules obj with
               | Some rules => PList (map PStr rules)
               | None => PNone
               end)];
         job_dependencies := base_dependencies |}
      :: migration_loop rest base_dependencies (S k)
  end.

Definition _create_migration_jobs (model : ImplementationModel)
    (dependencies : list string) (k : nat) : list JobDefinition :=
  migration_loop (migration_objects model) dependencies k.

Fixpoint testing_loop (suites : list TestSuite)
    (base_dependencies : list string) (k : nat) : list JobDefinition :=
  match suites with
  | [] => []
  | suite :: rest =>
      {| job_id := "test_" +:+ suite_id suite +:+ "_" +:+ hex6 (uuid4 k);
         job_type := TESTING;
         job_name := "Testing: " +:+ suite_id suite;
         job_target_system := suite_target suite;
         job_config :=
           [("id", PStr (suite_id suite));
            ("target", PStr (suite_target suite));
            ("cases", PList (map case_model_dump (suite_cases suite)));
            ("description", opt_str (suite_description suite))];
         job_dependencies := base_dependencies |}
      :: testing_loop rest base_dependencies (S k)
  end.

Definition _create_testing_jobs (model : ImplementationModel)
    (dependencies : list string) (k : nat) : list JobDefinition :=
  testing_loop (testing_suites model) dependencies k.

(** [create_plan]; the duration estimate, a floating point figure, is not
    part of the embedded plan. *)
Definition create_plan (run_id : string) (model : ImplementationModel)
  : ExecutionPlan :=
  let customizing_jobs := _create_customizing_jobs model 0%nat in
  let customizing_ids := map job_id customizing_jobs in
  let migration_jobs :=
    _create_migration_jobs model customizing_ids
      (length customizing_jobs) in
  let migration_ids := map job_id migration_jobs in
  let testing_jobs :=
    _create_testing_jobs model migration_ids
      (length customizing_jobs + length migration_jobs)%nat in
  let jobs := customizing_jobs ++ migration_jobs ++ testing_jobs in
  {| plan_run_id := run_id;
     plan_jobs := jobs;
     plan_total_jobs := Z.of_nat (length jobs) |}.
End Planner.

(** *** [get_job_order]: Kahn's algorithm over the dependency dictionary *)

(** [job_deps[job.id] = job.dependencies.copy()] for every job in turn. *)
Definition build_job_deps (jobs : list JobDefinition)
  : list (string * list string) :=
  fold_left (fun d job => dict_set d (job_id job) (job_dependencies job))
            jobs [].

(** [deps.remove(x)] when [x in deps]: the first occurrence goes. *)
Fixpoint list_remove_first (x : string) (deps : list string) : list string :=
  match deps with
  | [] => []
  | y :: rest => if String.eqb y x then rest else y :: list_remove_first x rest
  end.

(** The inner [for jid, deps in job_deps.items()] of one round: [job_id] has
    just been appended to [result]; [available] grows while the dictionary
    is walked. *)
Fixpoint release (job_id : string) (result : list string)
    (job_deps : list (string * list string)) (available : list string)
  : list (string * list string) * list string :=
  match job_deps with
  | [] => ([], available)
  | (jid, deps) :: rest =>
      if str_in job_id deps then
        let deps' := list_remove_first job_id deps in
        let available' :=
          if match deps' with [] => true | _ => false end
             && negb (str_in jid result) && negb (str_in jid available)
          then available ++ [jid]
          else available in
        let '(rest', available'') := release job_id result rest available' in
        ((jid, deps') :: rest', available'')
      else
        let '(rest', available') := release job_id result rest available in
        ((jid, deps) :: rest', available')
  end.

(** [while available:] with a bound on the number of rounds; [None] means
    the bound was too small. *)
Fixpoint kahn_loop (fuel : nat) (job_deps : list (string * list string))
    (available result : list string) : option (list string) :=
  match available with
  | [] => Some result
  | job_id :: available' =>
      match fuel with
      | O => None
      | S fuel' =>
          let result' := result ++ [job_id] in
          let '(job_deps', available'') :=
            release job_id result' job_deps available' in
          kahn_loop fuel' job_deps' available'' result'
      end
  end.

Definition initially_available (job_deps : list (string * list string))
  : list string :=
  flat_map (fun kv => match kv.2 with [] => [kv.1] | _ => [] end) job_deps.

(** Every round moves one dictionary key into [result], so one round per
    job is enough. *)
Definition get_job_order (plan : ExecutionPlan) : option (list string) :=
  let job_deps := build_job_deps (plan_jobs plan) in
  kahn_loop (length job_deps) job_deps (initially_available job_deps) [].

(** The dependencies of a job that are not yet in [result], and the
    dictionary that keeps only those: what the loop has made of the
    original dictionary once [result] has been emitted. *)
Definition pending (result deps : list string) : list string :=
  filter (fun d => d ∉ result) deps.

Definition pending_deps (result : list string)
    (job_deps : list (string * list string)) : list (string * list string) :=
  map (fun kv => (kv.1, pending result kv.2)) job_deps.

(** [order] lists every job after all the jobs it depends on in the
    dictionary [job_deps]. *)
Definition respects (job_deps : list (string * list string))
    (order : list string) : Prop :=
  forall i k ds, order !! i = Some k -> (k, ds) ∈ job_deps ->
    forall d, d ∈ ds -> d ∈ take i order.

(** The invariant of the [while] loop, for the dictionary [job_deps] it
    started from. *)
Record kahn_inv (job_deps cur : list (string * list string))
    (available result : list string) : Prop := {
  inv_cur : cur = pending_deps result job_deps;
  inv_NoDup : NoDup (result ++ available);
  inv_ready : forall k, k ∈ result ++ available <->
                exists ds, (k, ds) ∈ job_deps /\ pending result ds = [];
  inv_respects : respects job_deps result;
}.

(** ** Configuration parser ([app/engine/parser.py]) *)

(** What [yaml.safe_load] makes of a document: a syntax error, or the loaded
    value ([None] for an empty document).  Mappings with keys that are not
    strings and floating point scalars are outside [pyval]. *)
Inductive yaml_load :=
| YAMLError (e : string)
| Loaded (config : pyval).

(** What the pydantic constructors of [_transform_to_model] make of a
    configuration: the model, a [ValidationError] whose [errors()] (always
    at least one, each with a location and a message) are given, or another
    exception (for instance the [TypeError] of [**] applied to a section
    that is not a mapping). *)
Inductive build_outcome :=
| Built (model : ImplementationModel)
| ValidationError (first : string * string) (others : list (string * string))
| BuildRaises (msg : string).

Record ParserError := {
  pe_message : string;
  pe_errors : list string;
}.

(** [ParserError.__init__]: [self.errors = errors or []]. *)
Definition mk_ParserError (message : string) (errors : option (list string))
  : ParserError :=
  {| pe_message := message;
     pe_errors := match errors with
                  | Some (e :: es) => e :: es
                  | _ => []
                  end |}.

Inductive parse_result :=
| Parsed (model : ImplementationModel)
| ParserErrorRaised (e : ParserError)
| OtherRaised (msg : string).

Definition is_dict (v : pyval) : bool :=
  match v with PDict _ => true | _ => false end.

(** [for i, x in enumerate(items)] of the structure checks on
    [landscape.systems] and [customizing.packages]. *)
Fixpoint check_entries (what : string) (i : nat) (items : list pyval)
  : list string :=
  match items with
  | [] => []
  | x :: rest =>
      match x with
      | PDict d =>
          if dict_contains d "id" then []
          else [what +:+ "[" +:+ pretty i +:+ "].id is required"]
      | _ => [what +:+ "[" +:+ pretty i +:+ "] must be a mapping"]
      end ++ check_entries what (S i) rest
  end.

Definition _validate_structure (config : list (string * pyval))
  : list string :=
  let required :=
    match dict_get config "project" with
    | None => ["Missing required section: 'project'"]
    | Some (PDict _) => []
    | Some _ => ["Section 'project' must be a mapping"]
    end in
  let project_errors :=
    match dict_get config "project" with
    | Some (PDict project) =>
        (if dict_contains project "name" then []
         else ["project.name is required"]) ++
        (if dict_contains project "customer" then []
         else ["project.customer is required"])
    | _ => []
    end in
  let landscape_errors :=
    match dict_get config "landscape" with
    | Some (PDict landscape) =>
        match get_default landscape "systems" (PList []) with
        | PList systems => check_entries "landscape.systems" 0 systems
        | _ => ["landscape.systems must be a list"]
        end
    | _ => []
    end in
  let customizing_errors :=
    match dict_get config "customizing" with
    | Some (PDict cust) =>
        match get_default cust "packages" (PList []) with
        | PList packages => check_entries "customizing.packages" 0 packages
        | _ => ["customizing.packages must be a list"]
        end
    | _ => []
    end in
  let migration_errors :=
    match dict_get config "migration" with
    | Some (PDict migr) =>
        match get_default migr "objects" (PList []) with
        | PList _ => []
        | _ => ["migration.objects must be a list"]
        end
    | _ => []
    end in
  let testing_errors :=
    match dict_get config "testing" with
    | Some (PDict test) =>
        match get_default test "suites" (PList []) with
        | PList _ => []
        | _ => ["testing.suites must be a list"]
        end
    | _ => []
    end in
  required ++ project_errors ++ landscape_errors ++ customizing_errors
    ++ migration_errors ++ testing_errors.

(** [len(ids) != len(set(ids))] *)
Definition has_duplicates (ids : list string) : bool :=
  negb (length ids =? size (list_to_set ids : gset string))%nat.

Definition _validate_semantics (model : ImplementationModel) : list string :=
  let system_ids : gset string :=
    list_to_set (map sys_id (landscape_systems model)) in
  let reference_errors :=
    if decide (system_ids = ∅) then []
    else
      flat_map (fun pkg =>
        if decide (pkg_target pkg ∈ system_ids) then []
        else ["Customizing package '" +:+ pkg_id pkg
                +:+ "' references unknown system '" +:+ pkg_target pkg
                +:+ "'"]) (customizing_packages model) ++
      flat_map (fun obj =>
        if decide (obj_target obj ∈ system_ids) then []
        else ["Migration object '" +:+ obj_id obj
                +:+ "' references unknown system '" +:+ obj_target obj
                +:+ "'"]) (migration_objects model) ++
      flat_map (fun suite =>
        if decide (suite_target suite ∈ system_ids) then []
        else ["Test suite '" +:+ suite_id suite
                +:+ "' references unknown system '" +:+ suite_target suite
                +:+ "'"]) (testing_suites model) in
  reference_errors ++
  (if has_duplicates (map pkg_id (customizing_packages model))
   then ["Duplicate customizing package IDs found"] else []) ++
  (if has_duplicates (map obj_id (migration_objects model))
   then ["Duplicate migration object IDs found"] else []) ++
  (if has_duplicates (map suite_id (testing_suites model))
   then ["Duplicate test suite IDs found"] else []).

Section Parser.
(** The two libraries the parser calls. *)
Variable safe_load : string -> yaml_load.
Variable pydantic_build : list (string * pyval) -> build_outcome.

(** [_parse_yaml]: the two [ParserError]s raised inside the [try] are not
    [YAMLError]s and leave it unchanged. *)
Definition _parse_yaml (yaml_content : string)
  : ParserError + list (string * pyval) :=
  match safe_load yaml_content with
  | YAMLError e => inl (mk_ParserError ("YAML syntax error: " +:+ e) None)
  | Loaded PNone => inl (mk_ParserError "Empty configuration" None)
  | Loaded (PDict config) => inr config
  | Loaded _ =>
      inl (mk_ParserError
             "Configuration must be a YAML mapping/dictionary" None)
  end.

Definition parse (yaml_content : string) : parse_result :=
  match _parse_yaml yaml_content with
  | inl e => ParserErrorRaised e
  | inr raw_config =>
      match _validate_structure raw_config with
      | e :: es =>
          ParserErrorRaised
            (mk_ParserError "Configuration validation failed"
                            (Some (e :: es)))
      | [] =>
          match pydantic_build raw_config with
          | ValidationError first others =>
              ParserErrorRaised
                (mk_ParserError "Model validation failed"
                   (Some (map (fun err => err.1 +:+ ": " +:+ err.2)
                              (first :: others))))
          | BuildRaises msg => OtherRaised msg
          | Built model =>
              match _validate_semantics model with
              | e :: es =>
                  ParserErrorRaised
                    (mk_ParserError "Semantic validation failed"
                                    (Some (e :: es)))
              | [] => Parsed model
              end
          end
      end
  end.

Definition validate_only (yaml_content : string)
  : outcome (bool * list string) :=
  match parse yaml_content with
  | Parsed _ => Ret (true, [])
  | ParserErrorRaised e => Ret (false, pe_errors e)
  | OtherRaised msg => Raise msg
  end.
End Parser.

(** ** Dynamic operations on Python values used by the handlers *)

Definition type_name (v : pyval) : string :=
  match v with
  | PNone => "NoneType"
  | PBool _ => "bool"
  | PInt _ => "int"
  | PStr _ => "str"
  | PList _ => "list"
  | PDict _ => "dict"
  end.

(** [v.get(k, dflt)]: only a dict has the method. *)
Definition py_get (v : pyval) (k : string) (dflt : pyval) : outcome pyval :=
  match v with
  | PDict d => Ret (get_default d k dflt)
  | _ => Raise ("'" +:+ type_name v +:+ "' object has no attribute 'get'")
  end.

(** The elements a [for] loop (or [enumerate]) walks: the items of a list,
    the characters of a string, the keys of a dict; anything else is not
    iterable. *)
Fixpoint chars (s : string) : list pyval :=
  match s with
  | EmptyString => []
  | String c rest => PStr (String c EmptyString) :: chars rest
  end.

Definition py_iter (v : pyval) : outcome (list pyval) :=
  match v with
  | PList l => Ret l
  | PStr s => Ret (chars s)
  | PDict d => Ret (map (fun kv => PStr kv.1) d)
  | _ => Raise ("'" +:+ type_name v +:+ "' object is not iterable")
  end.

(** [len(v)] *)
Definition py_len (v : pyval) : outcome nat :=
  match v with
  | PList l => Ret (length l)
  | PStr s => Ret (String.length s)
  | PDict d => Ret (length d)
  | _ => Raise ("object of type '" +:+ type_name v +:+ "' has no len()")
  end.

(** [a == b]: booleans compare as the integers 0 and 1, lists element by
    element, dicts key by key whatever their order. *)
Fixpoint py_eq (a b : pyval) {struct a} : bool :=
  match a, b with
  | PNone, PNone => true
  | PBool x, PBool y => Bool.eqb x y
  | PBool x, PInt y => (if x then 1 else 0) =? y
  | PInt x, PBool y => x =? (if y then 1 else 0)
  | PInt x, PInt y => x =? y
  | PStr x, PStr y => String.eqb x y
  | PList xs, PList ys =>
      (fix all2 (xs ys : list pyval) : bool :=
         match xs, ys with
         | [], [] => true
         | x :: xs', y :: ys' => py_eq x y && all2 xs' ys'
         | _, _ => false
         end) xs ys
  | PDict xd, PDict yd =>
      (length xd =? length yd)%nat &&
      (fix all_in (xd : list (string * pyval)) : bool :=
         match xd with
         | [] => true
         | (k, x) :: xd' =>
             match dict_get yd k with
             | Some y => py_eq x y
             | None => false
             end && all_in xd'
         end) xd
  | _, _ => false
  end.

(** [v in ["S", "W", "I"]] and the like. *)
Definition py_in_strs (v : pyval) (xs : list string) : bool :=
  existsb (fun x => py_eq v (PStr x)) xs.

(** ** System adapter contract ([app/adapters/base.py]) *)

Record TableOperationResult := {
  tor_success : bool;
  tor_operation : string;
  tor_message : string;
  tor_affected_rows : Z;
}.

Record APIResponse := {
  api_status_code : Z;
  api_data : option (list (string * pyval));
  api_error_message : option string;
}.

(** The abstract base class [SAPAdapter]: an adapter is an object with
    state, so every method takes the state and returns the new one next to
    its result.  Only the methods the executor and the embedded handlers
    call are listed. *)
Class SAPAdapter (A : Type) := {
  connect : A -> outcome bool * A;
  disconnect : A -> outcome unit * A;
  set_table : pyval -> pyval -> pyval -> A -> outcome TableOperationResult * A;
  get_table : pyval -> pyval -> A -> outcome (list pyval) * A;
  call_api : pyval -> pyval -> pyval -> pyval -> A -> outcome APIResponse * A;
  call_bapi : pyval -> pyval -> A -> outcome pyval * A;
}.

(** ** Handler contract ([app/plugins/base.py]) *)

Record PluginContext (A : Type) := {
  ctx_run_id : string;
  ctx_adapter : A;
  ctx_artifacts_path : string;
  ctx_project_name : string;
  ctx_customer : string;
  ctx_target_system : string;
  ctx_client : string;
  ctx_shared_state : gmap string pyval;
}.
Arguments ctx_run_id {A} _.
Arguments ctx_adapter {A} _.
Arguments ctx_artifacts_path {A} _.
Arguments ctx_project_name {A} _.
Arguments ctx_customer {A} _.
Arguments ctx_target_system {A} _.
Arguments ctx_client {A} _.
Arguments ctx_shared_state {A} _.

(** What a handler can change while it runs: the context object it was
    given (the adapter it points to and the shared bag) and the number of
    values drawn so far from the process-wide random generator. *)
Record Env (A : Type) := {
  env_ctx : PluginContext A;
  env_draws : nat;
}.
Arguments env_ctx {A} _.
Arguments env_draws {A} _.

Definition with_adapter {A} (env : Env A) (a : A) : Env A :=
  {| env_ctx :=
       {| ctx_run_id := ctx_run_id (env_ctx env);
          ctx_adapter := a;
          ctx_artifacts_path := ctx_artifacts_path (env_ctx env);
          ctx_project_name := ctx_project_name (env_ctx env);
          ctx_customer := ctx_customer (env_ctx env);
          ctx_target_system := ctx_target_system (env_ctx env);
          ctx_client := ctx_client (env_ctx env);
          ctx_shared_state := ctx_shared_state (env_ctx env) |};
     env_draws := env_draws env |}.

Definition with_draws {A} (env : Env A) (n : nat) : Env A :=
  {| env_ctx := env_ctx env; env_draws := n |}.

(** [context.shared_state[key] = value] *)
Definition set_shared {A} (env : Env A) (key : string) (value : pyval)
  : Env A :=
  {| env_ctx :=
       {| ctx_run_id := ctx_run_id (env_ctx env);
          ctx_adapter := ctx_adapter (env_ctx env);
          ctx_artifacts_path := ctx_artifacts_path (env_ctx env);
          ctx_project_name := ctx_project_name (env_ctx env);
          ctx_customer := ctx_customer (env_ctx env);
          ctx_target_system := ctx_target_system (env_ctx env);
          ctx_client := ctx_client (env_ctx env);
          ctx_shared_state := <[key := value]> (ctx_shared_state (env_ctx env)) |};
     env_draws := env_draws env |}.

(** [PluginContext._create_log] *)
Definition _create_log {A} (ctx : PluginContext A) (level message : string)
  : LogEntry :=
  {| log_level := level;
     log_run_id := ctx_run_id ctx;
     log_system := ctx_target_system ctx;
     log_message := message |}.

Definition log_info {A} (ctx : PluginContext A) := _create_log ctx "INFO".
Definition log_warning {A} (ctx : PluginContext A) :=
  _create_log ctx "WARNING".
Definition log_error {A} (ctx : PluginContext A) := _create_log ctx "ERROR".

Record Plugin (A : Type) := {
  PLUGIN_NAME : string;
  PLUGIN_TYPE : JobType;
  validate : list (string * pyval) -> outcome (list string);
  execute : Env A -> list (string * pyval) -> outcome JobResult * Env A;
}.
Arguments PLUGIN_NAME {A} _.
Arguments PLUGIN_TYPE {A} _.
Arguments validate {A} _ _.
Arguments execute {A} _ _ _.

(** [Plugin.create_result] *)
Definition create_result (plugin_type : JobType) (job_id job_name : string)
    (status : JobStatus)
    (records_processed records_success records_failed : Z)
    (error_message : option string) (logs : list LogEntry)
    (artifacts : list string) : JobResult :=
  {| res_job_id := job_id;
     res_job_type := plugin_type;
     res_job_name := job_name;
     res_status := status;
     res_records_processed := records_processed;
     res_records_success := records_success;
     res_records_failed := records_failed;
     res_error_message := error_message;
     res_artifacts := artifacts;
     res_logs := logs |}.

(** [PluginRegistry]: the registered classes by name, in registration
    order. *)
Definition get_by_type {A} (registry : list (string * Plugin A))
    (t : JobType) : option (Plugin A) :=
  snd <$> find (fun entry => bool_decide (PLUGIN_TYPE entry.2 = t)) registry.

(** ** Customizing handler ([app/plugins/customizing.py]) *)

Definition SUPPORTED_ACTIONS : list string :=
  ["set_table"; "call_bapi"; "set_parameter"; "execute_report"].

(** The steps loop of [CustomizingPlugin.validate].  The checks read a step
    with [in], [step[...]] and [step.get]; a value that is not a dict fails
    one of them, and the call raises. *)
Fixpoint validate_steps (i : nat) (steps : list pyval)
  : outcome (list string) :=
  match steps with
  | [] => Ret []
  | step :: rest =>
      match step with
      | PDict d =>
          let action_errors :=
            match dict_get d "action" with
            | None => ["Step " +:+ pretty i +:+ " missing 'action'"]
            | Some a =>
                if py_in_strs a SUPPORTED_ACTIONS then []
                else ["Step " +:+ pretty i +:+ ": Unknown action '"
                        +:+ py_str a +:+ "'. Supported: "
                        +:+ py_repr (PList (map PStr SUPPORTED_ACTIONS))]
            end in
          let action := get_default d "action" PNone in
          let specific_errors :=
            if py_eq action (PStr "set_table") then
              (if dict_contains d "table" then []
               else ["Step " +:+ pretty i +:+ ": set_table requires 'table'"])
              ++
              (if dict_contains d "key" then []
               else ["Step " +:+ pretty i +:+ ": set_table requires 'key'"])
            else if py_eq action (PStr "call_bapi") then
              (if dict_contains d "bapi" then []
               else ["Step " +:+ pretty i +:+ ": call_bapi requires 'bapi'"])
            else [] in
          match validate_steps (S i) rest with
          | Ret errors => Ret (action_errors ++ specific_errors ++ errors)
          | Raise e => Raise e
          end
      | PList l =>
          if existsb (fun x => py_eq x (PStr "action")) l then
            Raise "list indices must be integers or slices, not str"
          else Raise "'list' object has no attribute 'get'"
      | PStr s =>
          match index 0 "action" s with
          | Some _ => Raise "string indices must be integers, not 'str'"
          | None => Raise "'str' object has no attribute 'get'"
          end
      | _ => Raise ("argument of type '" +:+ type_name step
                      +:+ "' is not iterable")
      end
  end.

Definition customizing_validate (config : list (string * pyval))
  : outcome (list string) :=
  let id_errors :=
    if dict_contains config "id" then []
    else ["Customizing package must have 'id'"] in
  match dict_get config "steps" with
  | None => Ret (id_errors ++ ["Customizing package must have 'steps'"])
  | Some (PList steps) =>
      match validate_steps 0 steps with
      | Ret errors => Ret (id_errors ++ errors)
      | Raise e => Raise e
      end
  | Some _ => Ret (id_errors ++ ["'steps' must be a list"])
  end.

(** What the loop of [execute] reads from the dictionary a step returns. *)
Record StepResult := {
  sr_success : bool;
  sr_message : string;
}.

Section Customizing.
Context {A : Type} `{SAPAdapter A}.

Definition _execute_set_table (adapter : A) (step : list (string * pyval))
  : outcome StepResult * A :=
  let table := get_default step "table" PNone in
  let key := get_default step "key" (PDict []) in
  let values := get_default step "values" (PDict []) in
  match set_table table key values adapter with
  | (Ret result, adapter') =>
      (Ret {| sr_success := tor_success result;
              sr_message := tor_message result |}, adapter')
  | (Raise e, adapter') => (Raise e, adapter')
  end.

Definition _execute_call_bapi (adapter : A) (step : list (string * pyval))
  : outcome StepResult * A :=
  let bapi := get_default step "bapi" PNone in
  let params := get_default step "params" (PDict []) in
  match call_bapi bapi params adapter with
  | (Ret result, adapter') =>
      match py_get result "RETURN" (PDict []) with
      | Ret return_info =>
          match py_get return_info "TYPE" (PStr "S"),
                py_get return_info "MESSAGE" (PStr "") with
          | Ret ty, Ret message =>
              (Ret {| sr_success := py_in_strs ty ["S"; "W"; "I"];
                      sr_message := py_str message |}, adapter')
          | Raise e, _ | _, Raise e => (Raise e, adapter')
          end
      | Raise e => (Raise e, adapter')
      end
  | (Raise e, adapter') => (Raise e, adapter')
  end.

Definition _execute_set_parameter (adapter : A)
    (step : list (string * pyval)) : outcome StepResult * A :=
  let param_name := get_default step "parameter" (PStr "UNKNOWN") in
  let param_value := get_default step "value" PNone in
  match set_table (PStr "TPARA") (PDict [("PARAMID", param_name)])
                  (PDict [("PARVAL", PStr (py_str param_value))])
                  adapter with
  | (Ret result, adapter') =>
      (Ret {| sr_success := tor_success result;
              sr_message := "Parameter " +:+ py_str param_name
                              +:+ " set to " +:+ py_str param_value |},
       adapter')
  | (Raise e, adapter') => (Raise e, adapter')
  end.

Definition _execute_report (adapter : A) (step : list (string * pyval))
  : outcome StepResult * A :=
  let report := get_default step "report" (PStr "UNKNOWN") in
  let variant := get_default step "variant" (PStr "") in
  match call_api (PStr ("/sap/bc/bsp/sap/zbsp_report/" +:+ py_str report))
                 (PStr "POST") PNone (PDict [("variant", variant)])
                 adapter with
  | (Ret result, adapter') =>
      (Ret {| sr_success := api_status_code result =? 200;
              sr_message := "Report " +:+ py_str report +:+ " executed" |},
       adapter')
  | (Raise e, adapter') => (Raise e, adapter')
  end.

Definition _execute_step (adapter : A) (step : list (string * pyval))
  : outcome StepResult * A :=
  let action := get_default step "action" PNone in
  if py_eq action (PStr "set_table") then _execute_set_table adapter step
  else if py_eq action (PStr "call_bapi") then
    _execute_call_bapi adapter step
  else if py_eq action (PStr "set_parameter") then
    _execute_set_parameter adapter step
  else if py_eq action (PStr "execute_report") then
    _execute_report adapter step
  else
    (Ret {| sr_success := false;
            sr_message := "Unknown action: " +:+ py_str action |}, adapter).

(** The running totals of the loop in [execute]. *)
Record StepTotals := {
  successful_steps : Z;
  failed_steps : Z;
  step_logs : list LogEntry;
}.

(** [for i, step in enumerate(steps)], from index [i] on.  Reading the
    action of a step that is not a dict raises outside the [try] and ends
    the call; whatever [_execute_step] raises is caught and counted. *)
Fixpoint customizing_steps (total_steps : nat) (i : nat)
    (steps : list pyval) (acc : StepTotals) (env : Env A)
  : outcome StepTotals * Env A :=
  match steps with
  | [] => (Ret acc, env)
  | step :: rest =>
      let ctx := env_ctx env in
      let step_num := S i in
      match step with
      | PDict d =>
          let action := get_default d "action" (PStr "unknown") in
          let logs1 :=
            step_logs acc ++
            [log_info ctx ("Executing step " +:+ pretty step_num +:+ "/"
                             +:+ pretty total_steps +:+ ": "
                             +:+ py_str action)] in
          let '(r, adapter') := _execute_step (ctx_adapter ctx) d in
          let env' := with_adapter env adapter' in
          let acc' :=
            match r with
            | Ret result =>
                if sr_success result then
                  {| successful_steps := successful_steps acc + 1;
                     failed_steps := failed_steps acc;
                     step_logs := logs1 ++
                       [log_info ctx ("Step " +:+ pretty step_num
                                        +:+ " completed successfully")] |}
                else
                  {| successful_steps := successful_steps acc;
                     failed_steps := failed_steps acc + 1;
                     step_logs := logs1 ++
                       [log_error ctx ("Step " +:+ pretty step_num
                                         +:+ " failed: "
                                         +:+ sr_message result)] |}
            | Raise error_msg =>
                {| successful_steps := successful_steps acc;
                   failed_steps := failed_steps acc + 1;
                   step_logs := logs1 ++
                     [log_error ctx ("Step " +:+ pretty step_num
                                       +:+ " exception: " +:+ error_msg)] |}
            end in
          customizing_steps total_steps (S i) rest acc' env'
      | _ =>
          (Raise ("'" +:+ type_name step
                    +:+ "' object has no attribute 'get'"), env)
      end
  end.

Definition customizing_execute (env : Env A)
    (config : list (string * pyval)) : outcome JobResult * Env A :=
  let ctx := env_ctx env in
  let package_id := py_str (get_default config "id" (PStr "UNKNOWN")) in
  let logs0 :=
    [log_info ctx ("Starting customizing package: " +:+ package_id)] in
  match py_len (get_default config "steps" (PList [])),
        py_iter (get_default config "steps" (PList [])) with
  | Raise e, _ | _, Raise e => (Raise e, env)
  | Ret total_steps, Ret steps =>
      match customizing_steps total_steps 0 steps
              {| successful_steps := 0; failed_steps := 0;
                 step_logs := logs0 |} env with
      | (Raise e, env') => (Raise e, env')
      | (Ret totals, env') =>
          let successful := successful_steps totals in
          let failed := failed_steps totals in
          let '(status, final_log) :=
            if failed =? 0 then
              (COMPLETED,
               log_info ctx ("Package " +:+ package_id +:+ " completed: "
                               +:+ pretty successful +:+ "/"
                               +:+ pretty total_steps +:+ " steps"))
            else if 0 <? successful then
              (COMPLETED,
               log_warning ctx ("Package " +:+ package_id
                                  +:+ " partially completed: "
                                  +:+ pretty successful +:+ " success, "
                                  +:+ pretty failed +:+ " failed"))
            else
              (FAILED,
               log_error ctx ("Package " +:+ package_id
                                +:+ " failed completely")) in
          let env'' :=
            set_shared env' ("customizing_" +:+ package_id)
              (PDict [("success", PBool (failed =? 0));
                      ("steps_executed",
                         PInt (Z.of_nat total_steps))]) in
          (Ret (create_result CUSTOMIZING ("cust_" +:+ package_id)
                  ("Customizing: " +:+ package_id) status
                  (Z.of_nat total_steps) successful failed None
                  (step_logs totals ++ [final_log]) []),
           env'')
      end
  end.

Definition CustomizingPlugin : Plugin A :=
  {| PLUGIN_NAME := "customizing";
     PLUGIN_TYPE := CUSTOMIZING;
     validate := customizing_validate;
     execute := customizing_execute |}.
End Customizing.

(** ** Testing handler ([app/plugins/testing.py]) *)

Definition SUPPORTED_TYPES : list string :=
  ["api"; "bapi"; "process"; "data"; "integration"].

(** The cases loop of [TestingPlugin.validate]; [in] on a case that is a
    dict, a list or a string answers, on any other value it raises, and
    [case["type"]] raises on a list or a string that passed the [in]. *)
Fixpoint validate_cases (i : nat) (cases : list pyval)
  : outcome (list string) :=
  match cases with
  | [] => Ret []
  | case :: rest =>
      match case with
      | PDict d =>
          let id_errors :=
            if dict_contains d "id" then []
            else ["Test case " +:+ pretty i +:+ " missing 'id'"] in
          let type_errors :=
            match dict_get d "type" with
            | None => ["Test case " +:+ pretty i +:+ " missing 'type'"]
            | Some t =>
                if py_in_strs t SUPPORTED_TYPES then []
                else ["Test case " +:+ pretty i +:+ ": Unknown type '"
                        +:+ py_str t +:+ "'. Supported: "
                        +:+ py_repr (PList (map PStr SUPPORTED_TYPES))]
            end in
          match validate_cases (S i) rest with
          | Ret errors => Ret (id_errors ++ type_errors ++ errors)
          | Raise e => Raise e
          end
      | PList l =>
          if existsb (fun x => py_eq x (PStr "type")) l then
            Raise "list indices must be integers or slices, not str"
          else
            match validate_cases (S i) rest with
            | Ret errors =>
                Ret ((if existsb (fun x => py_eq x (PStr "id")) l then []
                      else ["Test case " +:+ pretty i +:+ " missing 'id'"])
                     ++ ["Test case " +:+ pretty i +:+ " missing 'type'"]
                     ++ errors)
            | Raise e => Raise e
            end
      | PStr s =>
          match index 0 "type" s with
          | Some _ => Raise "string indices must be integers, not 'str'"
          | None =>
              match validate_cases (S i) rest with
              | Ret errors =>
                  Ret ((match index 0 "id" s with
                        | Some _ => []
                        | None =>
                            ["Test case " +:+ pretty i +:+ " missing 'id'"]
                        end)
                       ++ ["Test case " +:+ pretty i +:+ " missing 'type'"]
                       ++ errors)
              | Raise e => Raise e
              end
          end
      | _ => Raise ("argument of type '" +:+ type_name case
                      +:+ "' is not iterable")
      end
  end.

Definition testing_validate (config : list (string * pyval))
  : outcome (list string) :=
  let id_errors :=
    if dict_contains config "id" then []
    else ["Test suite must have 'id'"] in
  match dict_get config "cases" with
  | None => Ret (id_errors ++ ["Test suite must have 'cases'"])
  | Some (PList cases) =>
      match validate_cases 0 cases with
      | Ret errors => Ret (id_errors ++ errors)
      | Raise e => Raise e
      end
  | Some _ => Ret (id_errors ++ ["'cases' must be a list"])
  end.

(** What the loop of [execute] reads from the dictionary a test returns:
    [result["passed"]] and [result.get('error', 'Unknown')], where [None]
    stands for a dictionary without the key. *)
Record CaseResult := {
  cr_passed : bool;
  cr_error : option pyval;
}.

(** [_get_default_process_steps]; a [process] that is a list or a dict
    cannot be a dictionary key. *)
Definition _get_default_process_steps (process : pyval)
  : outcome (list pyval) :=
  let named := map (fun n => PDict [("name", PStr n)]) in
  match process with
  | PList _ | PDict _ =>
      Raise ("unhashable type: '" +:+ type_name process +:+ "'")
  | PStr "ORDER_TO_CASH" =>
      Ret (named ["Create Sales Order"; "Check Availability";
                  "Create Delivery"; "Post Goods Issue"; "Create Invoice";
                  "Post Payment"])
  | PStr "PROCURE_TO_PAY" =>
      Ret (named ["Create Purchase Requisition"; "Create Purchase Order";
                  "Goods Receipt"; "Invoice Verification";
                  "Payment Processing"])
  | PStr "RECORD_TO_REPORT" =>
      Ret (named ["Post Journal Entry"; "Run Depreciation"; "Period Close";
                  "Generate Reports"])
  | PStr "HIRE_TO_RETIRE" =>
      Ret (named ["Create Employee"; "Assign Position"; "Process Payroll"])
  | _ => Ret (named ["Initialize"; "Execute"; "Validate"])
  end.

Section Testing.
Context {A : Type} `{SAPAdapter A}.

(** [random k] is the [k]-th value [random.random()] returns. *)
Variable random : nat -> Q.

Definition _test_api (env : Env A) (test_case : list (string * pyval))
  : outcome CaseResult * Env A :=
  let endpoint := get_default test_case "endpoint" (PStr "/sap/health") in
  let method := get_default test_case "method" (PStr "GET") in
  let expected_status := get_default test_case "expected_status" (PInt 200) in
  let expected_data := get_default test_case "expected_data" PNone in
  match call_api endpoint method (get_default test_case "params" PNone)
                 (get_default test_case "data" PNone)
                 (ctx_adapter (env_ctx env)) with
  | (Raise e, adapter') => (Raise e, with_adapter env adapter')
  | (Ret response, adapter') =>
      let env' := with_adapter env adapter' in
      let status_ok :=
        py_eq (PInt (api_status_code response)) expected_status in
      let finish (passed : bool) :=
        (Ret {| cr_passed := passed;
                cr_error :=
                  Some (if passed then PNone
                        else opt_str (api_error_message response)) |},
         env') in
      if status_ok && truthy expected_data
           && truthy (opt_dict (api_data response)) then
        match expected_data, api_data response with
        | PDict expected, Some data =>
            finish (forallb (fun kv =>
                      py_eq (get_default data kv.1 PNone) kv.2) expected)
        | _, _ =>
            (Raise ("'" +:+ type_name expected_data
                      +:+ "' object has no attribute 'items'"), env')
        end
      else finish status_ok
  end.

Definition _test_bapi (env : Env A) (test_case : list (string * pyval))
  : outcome CaseResult * Env A :=
  let bapi := get_default test_case "bapi" (PStr "BAPI_TRANSACTION_COMMIT") in
  let params := get_default test_case "params" (PDict []) in
  match call_bapi bapi params (ctx_adapter (env_ctx env)) with
  | (Raise e, adapter') => (Raise e, with_adapter env adapter')
  | (Ret result, adapter') =>
      let env' := with_adapter env adapter' in
      match py_get result "RETURN" (PDict []) with
      | Raise e => (Raise e, env')
      | Ret return_info =>
          match py_get return_info "TYPE" (PStr "S"),
                py_get return_info "MESSAGE" PNone with
          | Ret return_type, Ret message =>
              let passed := py_in_strs return_type ["S"; "W"; "I"] in
              (Ret {| cr_passed := passed;
                      cr_error :=
                        Some (if passed then PNone else message) |}, env')
          | Raise e, _ | _, Raise e => (Raise e, env')
          end
      end
  end.

(** The loop of [_test_process]: one draw per step, then the step's name
    is read with [step.get]. *)
Fixpoint process_steps (steps : list pyval) (all_passed : bool)
    (draws : nat) : outcome bool * nat :=
  match steps with
  | [] => (Ret all_passed, draws)
  | step :: rest =>
      let step_passed := negb (Qle_bool (random draws) (5 # 100)) in
      match step with
      | PDict _ => process_steps rest (all_passed && step_passed) (S draws)
      | _ => (Raise ("'" +:+ type_name step
                       +:+ "' object has no attribute 'get'"), S draws)
      end
  end.

Definition _test_process (env : Env A) (test_case : list (string * pyval))
  : outcome CaseResult * Env A :=
  let process := get_default test_case "process" (PStr "ORDER_TO_CASH") in
  let declared := get_default test_case "steps" (PList []) in
  match (if truthy declared then py_iter declared
         else _get_default_process_steps process) with
  | Raise e => (Raise e, env)
  | Ret steps =>
      match process_steps steps true (env_draws env) with
      | (Ret all_passed, draws) =>
          (Ret {| cr_passed := all_passed; cr_error := None |},
           with_draws env draws)
      | (Raise e, draws) => (Raise e, with_draws env draws)
      end
  end.

Definition _test_data (env : Env A) (test_case : list (string * pyval))
  : outcome CaseResult * Env A :=
  let table := get_default test_case "table" (PStr "T001") in
  let expected_count := get_default test_case "expected_count" PNone in
  let expected_key := get_default test_case "expected_key" PNone in
  match get_table table expected_key (ctx_adapter (env_ctx env)) with
  | (Raise e, adapter') => (Raise e, with_adapter env adapter')
  | (Ret data, adapter') =>
      let env' := with_adapter env adapter' in
      let actual_count := Z.of_nat (length data) in
      let key_ok :=
        negb (truthy expected_key && negb (truthy (PList data))) in
      let finish (count_ok : bool) :=
        (Ret {| cr_passed := count_ok && key_ok; cr_error := None |},
         env') in
      match expected_count with
      | PNone => finish true
      | PInt n => finish (negb (actual_count <? n))
      | PBool b => finish (negb (actual_count <? (if b then 1 else 0)))
      | _ =>
          (Raise ("'<' not supported between instances of 'int' and '"
                    +:+ type_name expected_count +:+ "'"), env')
      end
  end.

Definition _test_integration (env : Env A)
    (test_case : list (string * pyval)) : outcome CaseResult * Env A :=
  match call_api (PStr "/sap/health") (PStr "GET") PNone PNone
                 (ctx_adapter (env_ctx env)) with
  | (Raise e, adapter') => (Raise e, with_adapter env adapter')
  | (Ret api_result, adapter') =>
      (Ret {| cr_passed := api_status_code api_result =? 200;
              cr_error := None |},
       with_adapter env adapter')
  end.

Definition _execute_test_case (env : Env A)
    (test_case : list (string * pyval)) : outcome CaseResult * Env A :=
  let case_type := get_default test_case "type" (PStr "api") in
  if py_eq case_type (PStr "api") then _test_api env test_case
  else if py_eq case_type (PStr "bapi") then _test_bapi env test_case
  else if py_eq case_type (PStr "process") then _test_process env test_case
  else if py_eq case_type (PStr "data") then _test_data env test_case
  else if py_eq case_type (PStr "integration") then
    _test_integration env test_case
  else
    (Ret {| cr_passed := false;
            cr_error := Some (PStr ("Unknown test type: "
                                      +:+ py_str case_type)) |}, env).

Record CaseTotals := {
  passed_tests : Z;
  failed_tests : Z;
  case_logs : list LogEntry;
}.

(** [for i, test_case in enumerate(cases)], from index [i] on. *)
Fixpoint testing_cases (total_tests : nat) (i : nat) (cases : list pyval)
    (acc : CaseTotals) (env : Env A) : outcome CaseTotals * Env A :=
  match cases with
  | [] => (Ret acc, env)
  | test_case :: rest =>
      let ctx := env_ctx env in
      match test_case with
      | PDict d =>
          let case_id :=
            py_str (get_default d "id" (PStr ("test_" +:+ pretty i))) in
          let case_type := py_str (get_default d "type" (PStr "api")) in
          let logs1 :=
            case_logs acc ++
            [log_info ctx ("Running test " +:+ pretty (S i) +:+ "/"
                             +:+ pretty total_tests +:+ ": " +:+ case_id
                             +:+ " (" +:+ case_type +:+ ")")] in
          let '(r, env') := _execute_test_case env d in
          let acc' :=
            match r with
            | Ret result =>
                if cr_passed result then
                  {| passed_tests := passed_tests acc + 1;
                     failed_tests := failed_tests acc;
                     case_logs := logs1 ++
                       [log_info ctx ("Test " +:+ case_id +:+ ": PASSED")] |}
                else
                  {| passed_tests := passed_tests acc;
                     failed_tests := failed_tests acc + 1;
                     case_logs := logs1 ++
                       [log_error ctx
                          ("Test " +:+ case_id +:+ ": FAILED - "
                             +:+ py_str (default (PStr "Unknown")
                                                 (cr_error result)))] |}
            | Raise error_msg =>
                {| passed_tests := passed_tests acc;
                   failed_tests := failed_tests acc + 1;
                   case_logs := logs1 ++
                     [log_error ctx ("Test " +:+ case_id +:+ " exception: "
                                       +:+ error_msg)] |}
            end in
          testing_cases total_tests (S i) rest acc' env'
      | _ =>
          (Raise ("'" +:+ type_name test_case
                    +:+ "' object has no attribute 'get'"), env)
      end
  end.

(** The [pass_rate] entry of the shared record is a rounded floating
    point figure and is not part of the embedded value. *)
Definition testing_execute (env : Env A) (config : list (string * pyval))
  : outcome JobResult * Env A :=
  let ctx := env_ctx env in
  let suite_id := py_str (get_default config "id" (PStr "UNKNOWN")) in
  let logs0 := [log_info ctx ("Starting test suite: " +:+ suite_id)] in
  match py_len (get_default config "cases" (PList [])),
        py_iter (get_default config "cases" (PList [])) with
  | Raise e, _ | _, Raise e => (Raise e, env)
  | Ret total_tests, Ret cases =>
      match testing_cases total_tests 0 cases
              {| passed_tests := 0; failed_tests := 0;
                 case_logs := logs0 |} env with
      | (Raise e, env') => (Raise e, env')
      | (Ret totals, env') =>
          let passed := passed_tests totals in
          let failed := failed_tests totals in
          let '(status, final_log) :=
            if failed =? 0 then
              (COMPLETED,
               log_info ctx ("Test suite " +:+ suite_id +:+ " completed: "
                               +:+ pretty passed +:+ "/"
                               +:+ pretty total_tests +:+ " passed"))
            else if 0 <? passed then
              (COMPLETED,
               log_warning ctx ("Test suite " +:+ suite_id +:+ ": "
                                  +:+ pretty passed +:+ " passed, "
                                  +:+ pretty failed +:+ " failed"))
            else
              (FAILED,
               log_error ctx ("Test suite " +:+ suite_id
                                +:+ ": All tests failed")) in
          let env'' :=
            set_shared env' ("testing_" +:+ suite_id)
              (PDict [("passed", PInt passed);
                      ("failed", PInt failed);
                      ("total", PInt (Z.of_nat total_tests))]) in
          (Ret (create_result TESTING ("test_" +:+ suite_id)
                  ("Testing: " +:+ suite_id) status
                  (Z.of_nat total_tests) passed failed None
                  (case_logs totals ++ [final_log]) []),
           env'')
      end
  end.

Definition TestingPlugin : Plugin A :=
  {| PLUGIN_NAME := "testing";
     PLUGIN_TYPE := TESTING;
     validate := testing_validate;
     execute := testing_execute |}.
End Testing.

(** ** Job executor ([app/engine/executor.py]) *)

(** The storage collaborator, as far as the executor calls it. *)
Class StorageManager (S : Type) := {
  _run_path : S -> string -> string;
  save_job_result :
    string -> string -> pyval -> JobResult -> S -> outcome string * S;
  save_summary : string -> RunSummary -> S -> outcome unit * S;
  save_artifact :
    string -> string -> string -> RunSummary -> S -> outcome string * S;
}.

(** The calls a run makes on handlers and adapters, in the order made.
    [EvExecute] records the shared bag of the context the handler is
    given. *)
Inductive Event :=
| EvCreateAdapter (system_id client : string)
| EvConnect (system_id : string)
| EvDisconnect (system_id : string)
| EvValidate (job : string)
| EvExecute (job : string) (shared_state : gmap string pyval).


(** A [JobExecutor] instance, with the position of the process-wide random
    generator, the WARNING and ERROR records of its logger (informational
    records are not kept) and the log of calls. *)
Record JobExecutor (A S : Type) := {
  storage : S;
  adapter_type : string;
  _adapters : list (string * A);
  _plugins : JobType -> option (Plugin A);
  _current_run : option string;
  draws : nat;
  logger : list (string * string);
  calls : list Event;
}.
Arguments storage {A S} _.
Arguments adapter_type {A S} _.
Arguments _adapters {A S} _.
Arguments _plugins {A S} _ _.
Arguments _current_run {A S} _.
Arguments draws {A S} _.
Arguments logger {A S} _.
Arguments calls {A S} _.

(** [JobExecutor.__init__] *)
Definition new_executor {A S} (st : S) (adapter_type : string)
  : JobExecutor A S :=
  {| storage := st; adapter_type := adapter_type; _adapters := [];
     _plugins := fun _ => None; _current_run := None; draws := 0%nat;
     logger := []; calls := [] |}.

(** The state of the [for] loop of [execute]. *)
Record LoopState (A S : Type) := {
  job_results : list JobResult;
  completed : Z;
  failed : Z;
  skipped : Z;
  stop_execution : bool;
  executor : JobExecutor A S;
}.
Arguments job_results {A S} _.
Arguments completed {A S} _.
Arguments failed {A S} _.
Arguments skipped {A S} _.
Arguments stop_execution {A S} _.
Arguments executor {A S} _.

(** The loop counters after [n] jobs: one counter moved per job, and
    [stop_execution] is set exactly when a job has failed. *)
Definition counted {A S} (n : Z) (st : LoopState A S) : Prop :=
  completed st + failed st + skipped st = n /\
  0 <= completed st /\ 0 <= failed st /\ 0 <= skipped st /\
  (stop_execution st = false -> failed st = 0 /\ skipped st = 0) /\
  (stop_execution st = true -> 1 <= failed st).

(** A [JobResult] built by the executor itself: counts zero, no logs. *)
Definition local_result (job : JobDefinition) (status : JobStatus)
    (error_message : string) : JobResult :=
  {| res_job_id := job_id job;
     res_job_type := job_type job;
     res_job_name := job_name job;
     res_status := status;
     res_records_processed := 0;
     res_records_success := 0;
     res_records_failed := 0;
     res_error_message := Some error_message;
     res_artifacts := [];
     res_logs := [] |}.

Definition skipped_result (job : JobDefinition) : JobResult :=
  local_result job SKIPPED "Skipped due to previous failure".

Definition add_artifact (r : JobResult) (path : string) : JobResult :=
  {| res_job_id := res_job_id r;
     res_job_type := res_job_type r;
     res_job_name := res_job_name r;
     res_status := res_status r;
     res_records_processed := res_records_processed r;
     res_records_success := res_records_success r;
     res_records_failed := res_records_failed r;
     res_error_message := res_error_message r;
     res_artifacts := res_artifacts r ++ [path];
     res_logs := res_logs r |}.

(** The client of a system in the landscape, ["100"] when it is absent. *)
Definition find_client (model : ImplementationModel) (system_id : string)
  : string :=
  match find (fun system => String.eqb (sys_id system) system_id)
             (landscape_systems model) with
  | Some system => sys_client system
  | None => "100"
  end.

(** [str(job_type)] inside an f-string, as Python 3.11 and later print a
    member of a [str] enumeration. *)
Definition job_type_str (t : JobType) : string :=
  match t with
  | CUSTOMIZING => "JobType.CUSTOMIZING"
  | MIGRATION => "JobType.MIGRATION"
  | TESTING => "JobType.TESTING"
  end.

Section Executor.
Context {A S : Type} `{SAPAdapter A} `{StorageManager S}.

(** The process-wide registries: handler classes by name, adapter
    classes by adapter type. *)
Variable registry : list (string * Plugin A).
Variable factory : list (string * (string -> string -> outcome A)).

Abbreviation Executor := (JobExecutor A S).

Definition set_adapters (ex : Executor) (pool : list (string * A))
  : Executor :=
  {| storage := storage ex; adapter_type := adapter_type ex;
     _adapters := pool; _plugins := _plugins ex;
     _current_run := _current_run ex; draws := draws ex;
     logger := logger ex; calls := calls ex |}.

Definition set_plugins (ex : Executor)
    (plugins : JobType -> option (Plugin A)) : Executor :=
  {| storage := storage ex; adapter_type := adapter_type ex;
     _adapters := _adapters ex; _plugins := plugins;
     _current_run := _current_run ex; draws := draws ex;
     logger := logger ex; calls := calls ex |}.

Definition set_current_run (ex : Executor) (run : option string)
  : Executor :=
  {| storage := storage ex; adapter_type := adapter_type ex;
     _adapters := _adapters ex; _plugins := _plugins ex;
     _current_run := run; draws := draws ex;
     logger := logger ex; calls := calls ex |}.

Definition set_storage (ex : Executor) (st : S) : Executor :=
  {| storage := st; adapter_type := adapter_type ex;
     _adapters := _adapters ex; _plugins := _plugins ex;
     _current_run := _current_run ex; draws := draws ex;
     logger := logger ex; calls := calls ex |}.

Definition set_draws (ex : Executor) (n : nat) : Executor :=
  {| storage := storage ex; adapter_type := adapter_type ex;
     _adapters := _adapters ex; _plugins := _plugins ex;
     _current_run := _current_run ex; draws := n;
     logger := logger ex; calls := calls ex |}.

Definition log_record (ex : Executor) (level message : string)
  : Executor :=
  {| storage := storage ex; adapter_type := adapter_type ex;
     _adapters := _adapters ex; _plugins := _plugins ex;
     _current_run := _current_run ex; draws := draws ex;
     logger := logger ex ++ [(level, message)]; calls := calls ex |}.

Definition record_call (ex : Executor) (ev : Event) : Executor :=
  {| storage := storage ex; adapter_type := adapter_type ex;
     _adapters := _adapters ex; _plugins := _plugins ex;
     _current_run := _current_run ex; draws := draws ex;
     logger := logger ex; calls := calls ex ++ [ev] |}.

(** [AdapterFactory.create] *)
Definition AdapterFactory_create (adapter_type system_id client : string)
  : outcome A :=
  match dict_get factory adapter_type with
  | None =>
      Raise ("Unknown adapter type: " +:+ adapter_type +:+ ". Available: "
               +:+ py_repr (PList (map PStr (dict_keys factory))))
  | Some adapter_class => adapter_class system_id client
  end.

Definition _initialize_plugins (ex : Executor) : outcome unit * Executor :=
  let ex' := set_plugins ex (get_by_type registry) in
  match find (fun t => match _plugins ex' t with
                       | None => true
                       | Some _ => false
                       end) [CUSTOMIZING; MIGRATION; TESTING] with
  | Some t =>
      (Raise ("Plugin not found for job type: " +:+ job_type_str t), ex')
  | None => (Ret (), ex')
  end.

Definition _get_or_create_adapter (system_id : string)
    (model : ImplementationModel) (ex : Executor) : outcome A * Executor :=
  match dict_get (_adapters ex) system_id with
  | Some adapter => (Ret adapter, ex)
  | None =>
      let client := find_client model system_id in
      match AdapterFactory_create (adapter_type ex) system_id client with
      | Raise e => (Raise e, ex)
      | Ret adapter =>
          let ex1 := record_call ex (EvCreateAdapter system_id client) in
          let ex2 := record_call ex1 (EvConnect system_id) in
          match connect adapter with
          | (Raise e, _) => (Raise e, ex2)
          | (Ret _, adapter') =>
              (Ret adapter',
               set_adapters ex2 (dict_set (_adapters ex2) system_id adapter'))
          end
      end
  end.

(** [for system_id in systems: self._get_or_create_adapter(...)] *)
Fixpoint initialize_adapters (systems : list string)
    (model : ImplementationModel) (ex : Executor)
  : outcome unit * Executor :=
  match systems with
  | [] => (Ret (), ex)
  | system_id :: rest =>
      match _get_or_create_adapter system_id model ex with
      | (Raise e, ex') => (Raise e, ex')
      | (Ret _, ex') => initialize_adapters rest model ex'
      end
  end.

Definition _execute_job (job : JobDefinition) (model : ImplementationModel)
    (run_id : string) (ex : Executor) : outcome JobResult * Executor :=
  match _plugins ex (job_type job) with
  | None =>
      (Ret (local_result job FAILED
              ("No plugin for job type: " +:+ job_type_str (job_type job))),
       ex)
  | Some plugin =>
      match dict_get (_adapters ex) (job_target_system job) with
      | None =>
          (Ret (local_result job FAILED
                  ("No adapter for system: " +:+ job_target_system job)),
           ex)
      | Some adapter =>
          let client := find_client model (job_target_system job) in
          let context :=
            {| ctx_run_id := run_id;
               ctx_adapter := adapter;
               ctx_artifacts_path := _run_path (storage ex) run_id;
               ctx_project_name := project_name (project model);
               ctx_customer := project_customer (project model);
               ctx_target_system := job_target_system job;
               ctx_client := client;
               ctx_shared_state := ∅ |} in
          let ex1 := record_call ex (EvValidate (job_id job)) in
          match validate plugin (job_config job) with
          | Raise e => (Raise e, ex1)
          | Ret (e :: es) =>
              (Ret (local_result job FAILED
                      ("Validation failed: " +:+ join "; " (e :: es))),
               ex1)
          | Ret [] =>
              let ex2 :=
                record_call ex1
                  (EvExecute (job_id job) (ctx_shared_state context)) in
              let '(r, env') :=
                execute plugin
                  {| env_ctx := context; env_draws := draws ex2 |}
                  (job_config job) in
              (r,
               set_draws
                 (set_adapters ex2
                    (dict_set (_adapters ex2) (job_target_system job)
                              (ctx_adapter (env_ctx env'))))
                 (env_draws env'))
          end
      end
  end.

Section Run.
Variable run_id : string.
Variable plan : ExecutionPlan.
Variable model : ImplementationModel.

Abbreviation State := (LoopState A S).

(** One pass through the body of the loop, after the progress report. *)
Definition execute_step (st : State) (job : JobDefinition) : State :=
  if stop_execution st then
    {| job_results := job_results st ++ [skipped_result job];
       completed := completed st;
       failed := failed st;
       skipped := skipped st + 1;
       stop_execution := stop_execution st;
       executor := executor st |}
  else
    let on_exception (results : list JobResult) (e : string)
        (ex : Executor) : State :=
      {| job_results := results ++ [local_result job FAILED e];
         completed := completed st;
         failed := failed st + 1;
         skipped := skipped st;
         stop_execution := true;
         executor :=
           log_record ex "ERROR"
             ("Job execution error: " +:+ job_name job) |} in
    match _execute_job job model run_id (executor st) with
    | (Raise e, ex1) => on_exception (job_results st) e ex1
    | (Ret result, ex1) =>
        match save_job_result run_id (job_type_value (job_type job))
                (get_default (job_config job) "id" (PStr (job_id job)))
                result (storage ex1) with
        | (Raise e, storage') =>
            on_exception (job_results st ++ [result]) e
                         (set_storage ex1 storage')
        | (Ret artifact_path, storage') =>
            let ex2 := set_storage ex1 storage' in
            let result' := add_artifact result artifact_path in
            if decide (res_status result = COMPLETED) then
              {| job_results := job_results st ++ [result'];
                 completed := completed st + 1;
                 failed := failed st;
                 skipped := skipped st;
                 stop_execution := stop_execution st;
                 executor := ex2 |}
            else
              {| job_results := job_results st ++ [result'];
                 completed := completed st;
                 failed := failed st + 1;
                 skipped := skipped st;
                 stop_execution := true;
                 executor :=
                   log_record ex2 "ERROR"
                     ("Job failed: " +:+ job_name job +:+ " - "
                        +:+ py_str (opt_str (res_error_message result))) |}
        end
    end.

(** [for i, job in enumerate(plan.jobs)].  The progress percentage is
    [int((i / plan.total_jobs) * 100)]: with no progress callback set
    its value goes nowhere, but the division raises when
    [plan.total_jobs] is zero. *)
Fixpoint execute_loop (jobs : list JobDefinition) (st : State)
  : outcome State :=
  match jobs with
  | [] => Ret st
  | job :: rest =>
      if plan_total_jobs plan =? 0 then Raise "division by zero"
      else execute_loop rest (execute_step st job)
  end.

Definition sum_of (f : JobResult -> Z) (results : list JobResult) : Z :=
  fold_right Z.add 0 (map f results).

(** [for system_id, adapter in self._adapters.items()] of [_cleanup]:
    what [disconnect] raises is caught and logged. *)
Fixpoint disconnect_all (items : list (string * A)) (ex : Executor)
  : outcome unit * Executor :=
  match items with
  | [] => (Ret (), ex)
  | (system_id, adapter) :: rest =>
      let ex1 := record_call ex (EvDisconnect system_id) in
      match disconnect adapter with
      | (Ret _, _) => disconnect_all rest ex1
      | (Raise e, _) =>
          disconnect_all rest
            (log_record ex1 "WARNING"
               ("Error disconnecting adapter " +:+ system_id +:+ ": "
                  +:+ e))
      end
  end.

Definition _cleanup (ex : Executor) : outcome unit * Executor :=
  match disconnect_all (_adapters ex) ex with
  | (Ret _, ex') => (Ret (), set_current_run (set_adapters ex' []) None)
  | (Raise e, ex') => (Raise e, ex')
  end.

(** The part of [execute] before the loop: the run is noted, the
    handlers are resolved and one adapter per target system is connected.
    The set of target systems is walked in order of first appearance
    (CPython's order over a set of strings varies from process to
    process). *)
Definition prepare (ex : Executor) : outcome unit * Executor :=
  let ex0 := set_current_run ex (Some run_id) in
  match _initialize_plugins ex0 with
  | (Raise e, ex1) => (Raise e, ex1)
  | (Ret _, ex1) =>
      initialize_adapters
        (remove_dups (map job_target_system (plan_jobs plan))) model ex1
  end.

(** The loop variables as the loop finds them. *)
Definition initial_state (ex : Executor) : State :=
  {| job_results := []; completed := 0; failed := 0; skipped := 0;
     stop_execution := false; executor := ex |}.

(** The summary [execute] fills in after the loop. *)
Definition summarize (st : State) : RunSummary :=
  let results := job_results st in
  {| sum_run_id := run_id;
     sum_project_name := project_name (project model);
     sum_customer := project_customer (project model);
     sum_status :=
       if (failed st =? 0) && (skipped st =? 0)
       then RUN_COMPLETED else RUN_FAILED;
     sum_total_jobs := plan_total_jobs plan;
     sum_completed_jobs := completed st;
     sum_failed_jobs := failed st;
     sum_skipped_jobs := skipped st;
     sum_total_records := sum_of res_records_processed results;
     sum_success_records := sum_of res_records_success results;
     sum_failed_records := sum_of res_records_failed results;
     sum_job_results := results;
     sum_artifacts := flat_map res_artifacts results |}.

(** [JobExecutor.execute] of an executor on which no progress callback
    was set, so that [_report_progress] does nothing. *)
Definition JobExecutor_execute (ex : Executor)
  : outcome RunSummary * Executor :=
  match prepare ex with
  | (Raise e, ex2) => (Raise e, ex2)
  | (Ret _, ex2) =>
      match execute_loop (plan_jobs plan) (initial_state ex2) with
      | Raise e => (Raise e, ex2)
      | Ret st =>
          let summary := summarize st in
          let ex3 := executor st in
          match save_summary run_id summary (storage ex3) with
          | (Raise e, storage') => (Raise e, set_storage ex3 storage')
          | (Ret _, storage') =>
              match save_artifact run_id "" "summary.json" summary
                                  storage' with
              | (Raise e, storage'') => (Raise e, set_storage ex3 storage'')
              | (Ret _, storage'') =>
                  match _cleanup (set_storage ex3 storage'') with
                  | (Raise e, ex4) => (Raise e, ex4)
                  | (Ret _, ex4) => (Ret summary, ex4)
                  end
              end
          end
      end
  end.
End Run.
End Executor.


(** ** Fixtures: an in-memory adapter and an in-memory storage

    Deterministic instances of the two contracts, used to run the pipeline
    on concrete inputs. *)

Record MemoryAdapter := {
  ma_system : string;
  ma_client : string;
  ma_connected : bool;
  ma_rows : list (pyval * pyval * pyval);
}.

(** Writes to table [LOCKED] are rejected, BAPI [BAPI_REJECT] answers with
    an error, only [/sap/health] is served, and the adapter of system
    [UNSTABLE] fails to disconnect. *)
Global Instance MemoryAdapter_ops : SAPAdapter MemoryAdapter := {
  connect a :=
    (Ret true,
     {| ma_system := ma_system a; ma_client := ma_client a;
        ma_connected := true; ma_rows := ma_rows a |});
  disconnect a :=
    if String.eqb (ma_system a) "UNSTABLE" then (Raise "connection lost", a)
    else
      (Ret (),
       {| ma_system := ma_system a; ma_client := ma_client a;
          ma_connected := false; ma_rows := ma_rows a |});
  set_table table key values a :=
    if py_eq table (PStr "LOCKED") then
      (Ret {| tor_success := false; tor_operation := "update";
              tor_message := "Table is locked"; tor_affected_rows := 0 |}, a)
    else
      (Ret {| tor_success := true; tor_operation := "insert";
              tor_message := "Entry created"; tor_affected_rows := 1 |},
       {| ma_system := ma_system a; ma_client := ma_client a;
          ma_connected := ma_connected a;
          ma_rows := ma_rows a ++ [(table, key, values)] |});
  get_table table key a :=
    (Ret (map (fun row => row.2)
           (List.filter (fun row => py_eq row.1.1 table) (ma_rows a))), a);
  call_api endpoint method params data a :=
    if py_eq endpoint (PStr "/sap/health") then
      (Ret {| api_status_code := 200;
              api_data := Some [("status", PStr "healthy")];
              api_error_message := None |}, a)
    else
      (Ret {| api_status_code := 404; api_data := None;
              api_error_message := Some "Endpoint not found" |}, a);
  call_bapi bapi params a :=
    if py_eq bapi (PStr "BAPI_REJECT") then
      (Ret (PDict [("RETURN", PDict [("TYPE", PStr "E");
                                     ("MESSAGE", PStr "Rejected")])]), a)
    else
      (Ret (PDict [("RETURN", PDict [("TYPE", PStr "S");
                                     ("MESSAGE", PStr "OK")])]), a);
}.

Definition new_memory_adapter (system_id client : string)
  : outcome MemoryAdapter :=
  Ret {| ma_system := system_id; ma_client := client;
         ma_connected := false; ma_rows := [] |}.

(** The paths written so far. *)
Record MemoryStorage := {
  ms_base : string;
  ms_written : list string;
}.

Global Instance MemoryStorage_ops : StorageManager MemoryStorage := {
  _run_path st run_id := ms_base st +:+ "/" +:+ run_id;
  save_job_result run_id job_type job_name result st :=
    let path :=
      ms_base st +:+ "/" +:+ run_id +:+ "/" +:+ job_type +:+ "/"
        +:+ py_str job_name +:+ ".json" in
    (Ret path, {| ms_base := ms_base st;
                  ms_written := ms_written st ++ [path] |});
  save_summary run_id summary st :=
    (Ret (),
     {| ms_base := ms_base st;
        ms_written := ms_written st
          ++ [ms_base st +:+ "/" +:+ run_id +:+ "/summary.json"] |});
  save_artifact run_id subdir filename content st :=
    let path :=
      ms_base st +:+ "/" +:+ run_id +:+ "/" +:+ subdir +:+ "/" +:+ filename in
    (Ret path, {| ms_base := ms_base st;
                  ms_written := ms_written st ++ [path] |});
}.


(** ** Sample inputs *)

(** A source of identifiers: the [k]-th draw has [k] in its top bits. *)
Definition sample_uuid4 (k : nat) : N := (N.of_nat k * 2 ^ 104)%N.

Definition set_table_step (table : string) : CustomizingStep :=
  {| step_action := "set_table";
     step_table := Some table;
     step_key := Some [("BUKRS", PStr "1000")];
     step_values := Some [("WAERS", PStr "EUR")];
     step_bapi := None;
     step_params := None |}.

Definition sample_package (id : string) (steps : list CustomizingStep)
  : CustomizingPackage :=
  {| pkg_id := id; pkg_target := "DEV"; pkg_description := None;
     pkg_steps := steps |}.

Definition sample_project : ProjectConfig :=
  {| project_name := "Demo"; project_customer := "ACME";
     project_template := Some "STANDARD"; project_version := Some "1.0.0" |}.

Definition health_case (id : string) : TestCase :=
  {| case_id := id; case_type := "integration"; case_endpoint := None;
     case_method := Some "GET"; case_expected_status := None;
     case_expected_data := None; case_description := None |}.

(** Two customizing packages, one migration object, one test suite, and no
    declared system. *)
Definition sample_model : ImplementationModel :=
  {| project := sample_project;
     landscape_systems := [];
     customizing_packages :=
       [sample_package "pkg1" [set_table_step "T001"];
        sample_package "pkg2" [set_table_step "T001K"]];
     migration_objects :=
       [{| obj_id := "MAT"; obj_source := "csv"; obj_target := "DEV";
           obj_mapping := [("id", "MATNR")];
           obj_validation_rules := None; obj_batch_size := 1000 |}];
     testing_suites :=
       [{| suite_id := "smoke"; suite_target := "DEV";
           suite_description := None;
           suite_cases := [health_case "t1"] |}] |}.

(** Customizing only; the one step of the first package writes to the
    locked table. *)
Definition failing_model : ImplementationModel :=
  {| project := sample_project;
     landscape_systems := [];
     customizing_packages :=
       [sample_package "P1" [set_table_step "LOCKED"];
        sample_package "P2" [set_table_step "T001"];
        sample_package "P3" [set_table_step "T001K"]];
     migration_objects := [];
     testing_suites := [] |}.

(** Customizing only, every step succeeds. *)
Definition customizing_model : ImplementationModel :=
  {| project := sample_project;
     landscape_systems := [];
     customizing_packages :=
       [sample_package "P1" [set_table_step "T001"];
        sample_package "P2" [set_table_step "T001K"]];
     migration_objects := [];
     testing_suites := [] |}.

(** A registry with the two embedded handlers and, for the migration
    category, a handler that accepts every configuration and completes
    without touching anything. *)
Definition idle_migration_plugin : Plugin MemoryAdapter :=
  {| PLUGIN_NAME := "migration";
     PLUGIN_TYPE := MIGRATION;
     validate := fun _ => Ret [];
     execute := fun env config =>
       (Ret (create_result MIGRATION "migr" "Migration" COMPLETED 0 0 0 None
               [] []), env) |}.

Definition sample_registry : list (string * Plugin MemoryAdapter) :=
  [("customizing", CustomizingPlugin);
   ("migration", idle_migration_plugin);
   ("testing", TestingPlugin (fun _ => 1 # 2))].

Definition sample_factory
  : list (string * (string -> string -> outcome MemoryAdapter)) :=
  [("fake", new_memory_adapter)].

Definition sample_executor : JobExecutor MemoryAdapter MemoryStorage :=
  new_executor {| ms_base := "./artifacts"; ms_written := [] |} "fake".

(** Sample documents: what PyYAML loads from the empty document, from a
    document that is a list and from two project descriptions, with the
    model pydantic builds from each of the two (defaults filled in).  Any
    other text, for instance an unclosed flow mapping, stands for a
    document that does not parse. *)
Definition doc_unknown_target : string :=
  "{project: {name: Demo, customer: ACME}, customizing: {packages: [{id: P1, target: QAS}]}}".

Definition doc_duplicate_objects : string :=
  "{project: {name: Demo, customer: ACME}, migration: {objects: [{id: MAT}, {id: MAT}]}}".

Definition config_unknown_target : list (string * pyval) :=
  [("project", PDict [("name", PStr "Demo"); ("customer", PStr "ACME")]);
   ("customizing",
      PDict [("packages",
                PList [PDict [("id", PStr "P1"); ("target", PStr "QAS")]])])].

Definition config_duplicate_objects : list (string * pyval) :=
  [("project", PDict [("name", PStr "Demo"); ("customer", PStr "ACME")]);
   ("migration",
      PDict [("objects",
                PList [PDict [("id", PStr "MAT")];
                       PDict [("id", PStr "MAT")]])])].

Definition default_object (id : string) : MigrationObject :=
  {| obj_id := id; obj_source := "csv"; obj_target := "DEV";
     obj_mapping := []; obj_validation_rules := None;
     obj_batch_size := 1000 |}.

Definition model_unknown_target : ImplementationModel :=
  {| project := sample_project;
     landscape_systems := [];
     customizing_packages :=
       [{| pkg_id := "P1"; pkg_target := "QAS"; pkg_description := None;
           pkg_steps := [] |}];
     migration_objects := [];
     testing_suites := [] |}.

Definition model_duplicate_objects : ImplementationModel :=
  {| project := sample_project;
     landscape_systems := [];
     customizing_packages := [];
     migration_objects := [default_object "MAT"; default_object "MAT"];
     testing_suites := [] |}.

Definition sample_safe_load (yaml_content : string) : yaml_load :=
  if String.eqb yaml_content "" then Loaded PNone
  else if String.eqb yaml_content "[just, a list]" then
    Loaded (PList [PStr "just"; PStr "a list"])
  else if String.eqb yaml_content doc_unknown_target then
    Loaded (PDict config_unknown_target)
  else if String.eqb yaml_content doc_duplicate_objects then
    Loaded (PDict config_duplicate_objects)
  else YAMLError "while parsing a flow node: expected the node content".

Definition sample_build (config : list (string * pyval)) : build_outcome :=
  if py_eq (PDict config) (PDict config_unknown_target) then
    Built model_unknown_target
  else if py_eq (PDict config) (PDict config_duplicate_objects) then
    Built model_duplicate_objects
  else ValidationError ("('name',)", "Field required") [].

(** A context as the executor builds it for a job on system [DEV], with
    the adapter connected. *)
Definition sample_env : Env MemoryAdapter :=
  {| env_ctx :=
       {| ctx_run_id := "run1";
          ctx_adapter :=
            {| ma_system := "DEV"; ma_client := "100";
               ma_connected := true; ma_rows := [] |};
          ctx_artifacts_path := "./artifacts/run1";
          ctx_project_name := "Demo";
          ctx_customer := "ACME";
          ctx_target_system := "DEV";
          ctx_client := "100";
          ctx_shared_state := ∅ |};
     env_draws := 0 |}.



Definition empty_package_config : list (string * pyval) :=
  [("id", PStr "EMPTY"); ("target", PStr "DEV");
   ("steps", PList []); ("description", PNone)].

Definition empty_suite_config : list (string * pyval) :=
  [("id", PStr "EMPTY"); ("target", PStr "DEV");
   ("cases", PList []); ("description", PNone)].

(** ** Further definitions

    Predicates that say in one place what the parser's checks accept. *)

(** A list of mappings that all have an [id]. *)
Definition entries_ok (v : pyval) : Prop :=
  match v with
  | PList items =>
      Forall (fun x => exists d, x = PDict d /\ dict_contains d "id" = true)
             items
  | _ => False
  end.

Definition is_list (v : pyval) : Prop :=
  match v with PList _ => True | _ => False end.

(** What [_validate_structure] asks of a configuration: a [project]
    mapping with [name] and [customer]; for a [landscape] or [customizing]
    section that is a mapping, a list of mappings with ids under [systems]
    or [packages] (an absent list counts as empty); for a [migration] or
    [testing] section that is a mapping, a list under [objects] or
    [suites].  Optional sections that are not mappings are not looked
    into. *)
Definition well_structured (config : list (string * pyval)) : Prop :=
  (exists project,
     dict_get config "project" = Some (PDict project) /\
     dict_contains project "name" = true /\
     dict_contains project "customer" = true) /\
  (forall landscape,
     dict_get config "landscape" = Some (PDict landscape) ->
     entries_ok (get_default landscape "systems" (PList []))) /\
  (forall cust,
     dict_get config "customizing" = Some (PDict cust) ->
     entries_ok (get_default cust "packages" (PList []))) /\
  (forall migr,
     dict_get config "migration" = Some (PDict migr) ->
     is_list (get_default migr "objects" (PList []))) /\
  (forall test,
     dict_get config "testing" = Some (PDict test) ->
     is_list (get_default test "suites" (PList []))).

(** What [_validate_semantics] asks of a model: when the landscape
    declares systems, every target is one of them; ids are unique within
    each phase. *)
Definition semantically_valid (model : ImplementationModel) : Prop :=
  (landscape_systems model <> [] ->
   Forall (fun pkg => pkg_target pkg ∈ map sys_id (landscape_systems model))
          (customizing_packages model) /\
   Forall (fun obj => obj_target obj ∈ map sys_id (landscape_systems model))
          (migration_objects model) /\
   Forall (fun suite =>
             suite_target suite ∈ map sys_id (landscape_systems model))
          (testing_suites model)) /\
  NoDup (map pkg_id (customizing_packages model)) /\
  NoDup (map obj_id (migration_objects model)) /\
  NoDup (map suite_id (testing_suites model)).

(** What the [while] loop of [get_job_order] keeps true of any dependency
    dictionary [job_deps] it started from: the current dictionary has the
    same keys, what has gone from a dependency list has been emitted,
    nothing is emitted or waiting twice, an emitted or waiting key has no
    dependency left, a key that never had one is emitted or waiting, and
    what has been emitted respects the dependencies. *)
Record order_inv (job_deps cur : list (string * list string))
    (available result : list string) : Prop := {
  oi_keys : map fst cur = map fst job_deps;
  oi_shrunk : forall i k ds, job_deps !! i = Some (k, ds) ->
                exists ds', cur !! i = Some (k, ds') /\
                  forall d, d ∈ ds -> d ∈ ds' \/ d ∈ result;
  oi_NoDup : NoDup (result ++ available);
  oi_released : forall k, k ∈ result ++ available -> (k, []) ∈ cur;
  oi_ready : forall k, (k, []) ∈ job_deps -> k ∈ result ++ available;
  oi_respects : respects job_deps result;
}.

(** [d] is listed among the dependencies recorded for [k]. *)
Definition depends_directly (job_deps : list (string * list string))
    (k d : string) : Prop :=
  exists ds, dict_get job_deps k = Some ds /\ d ∈ ds.

(** [k] depends on [d] through one or more recorded dependencies. *)
Definition depends_on (job_deps : list (string * list string))
  : string -> string -> Prop :=
  tc (depends_directly job_deps).

(** A plan that is not the planner's: job [a] waits for a job that does
    not exist, [b] and [c] wait for each other, [d] waits for nothing. *)
Definition plain_job (id : string) (dependencies : list string)
  : JobDefinition :=
  {| job_id := id; job_type := CUSTOMIZING; job_name := id;
     job_target_system := "DEV"; job_config := [];
     job_dependencies := dependencies |}.

Definition tangled_plan : ExecutionPlan :=
  {| plan_run_id := "run1";
     plan_jobs := [plain_job "a" ["ghost"]; plain_job "b" ["c"];
                   plain_job "c" ["b"]; plain_job "d" []];
     plan_total_jobs := 4 |}.

(** ** The executor and its registries *)

(** An executor that can run every job of [plan]: a handler is resolved
    for each job type and the pool holds an adapter for each job's target
    system. *)
Definition ready {A S : Type} (plan : ExecutionPlan) (ex : JobExecutor A S)
  : Prop :=
  (forall t, is_Some (_plugins ex t)) /\
  (forall job, job ∈ plan_jobs plan ->
     is_Some (dict_get (_adapters ex) (job_target_system job))).

Definition is_disconnect (ev : Event) : Prop :=
  match ev with EvDisconnect _ => True | _ => False end.

(** The pool of [ex'] still holds an adapter for every system the pool of
    [ex] held one for, and [ex'] has made no [disconnect] call that [ex]
    had not made. *)
Definition pool_kept {A S : Type} (ex ex' : JobExecutor A S) : Prop :=
  (forall system_id, is_Some (dict_get (_adapters ex) system_id) ->
     is_Some (dict_get (_adapters ex') system_id)) /\
  exists added, calls ex' = calls ex ++ added /\
                Forall (fun ev => ~ is_disconnect ev) added.

(** ** [execute] with a progress callback

    [JobExecutor.set_progress_callback] stores a callable that
    [_report_progress] calls, if one is set, before every job of the loop
    (outside the [try] of the job) and once more after the summary is
    saved, before [_cleanup].  What the callback raises leaves
    [execute]. *)

Section Progress.
Context {A S : Type} `{SAPAdapter A} `{StorageManager S}.
Variable registry : list (string * Plugin A).
Variable factory : list (string * (string -> string -> outcome A)).

(** [self._progress_callback]: [None] until [set_progress_callback] is
    called.  The callback is any callable and may keep a state of its
    own: [callback k run_id percent current_job] is the outcome of its call
    with these arguments when [k] calls have gone before in the run. *)
Variable _progress_callback
  : option (nat -> string -> Z -> string -> outcome unit).

(** [int((i / total_jobs) * 100)] for a [total_jobs] other than 0, which
    Python computes in floating point. *)
Variable percent_of : nat -> Z -> Z.

Variable run_id : string.
Variable plan : ExecutionPlan.
Variable model : ImplementationModel.

(** [_report_progress], as the call number [k] of the run. *)
Definition _report_progress (k : nat) (run_id : string) (percent : Z)
    (current_job : string) : outcome unit :=
  match _progress_callback with
  | Some callback => callback k run_id percent current_job
  | None => Ret ()
  end.

(** [for i, job in enumerate(plan.jobs)], from index [i] on: the
    percentage is computed, the progress is reported, then the body of
    the loop runs.  An exception leaves the loop with the state the jobs
    before it have made. *)
Fixpoint execute_loop_with_callback (i : nat) (jobs : list JobDefinition)
    (st : LoopState A S) : outcome unit * LoopState A S :=
  match jobs with
  | [] => (Ret (), st)
  | job :: rest =>
      if plan_total_jobs plan =? 0 then (Raise "division by zero", st)
      else
        match _report_progress i run_id
                (percent_of i (plan_total_jobs plan)) (job_name job) with
        | Raise e => (Raise e, st)
        | Ret _ =>
            execute_loop_with_callback (Datatypes.S i) rest
              (execute_step run_id model st job)
        end
  end.

(** [JobExecutor.execute] of an executor whose callback is
    [_progress_callback]. *)
Definition JobExecutor_execute_with_callback (ex : JobExecutor A S)
  : outcome RunSummary * JobExecutor A S :=
  match prepare registry factory run_id plan model ex with
  | (Raise e, ex2) => (Raise e, ex2)
  | (Ret _, ex2) =>
      match execute_loop_with_callback 0 (plan_jobs plan)
              (initial_state ex2) with
      | (Raise e, st) => (Raise e, executor st)
      | (Ret _, st) =>
          let summary := summarize run_id plan model st in
          let ex3 := executor st in
          match save_summary run_id summary (storage ex3) with
          | (Raise e, storage') => (Raise e, set_storage ex3 storage')
          | (Ret _, storage') =>
              match save_artifact run_id "" "summary.json" summary
                                  storage' with
              | (Raise e, storage'') => (Raise e, set_storage ex3 storage'')
              | (Ret _, storage'') =>
                  let ex4 := set_storage ex3 storage'' in
                  match _report_progress (length (plan_jobs plan)) run_id
                          100 "Complete" with
                  | Raise e => (Raise e, ex4)
                  | Ret _ =>
                      match _cleanup ex4 with
                      | (Raise e, ex5) => (Raise e, ex5)
                      | (Ret _, ex5) => (Ret summary, ex5)
                      end
                  end
              end
          end
      end
  end.
End Progress.

(** A callback that fails at its second call, and the percentages of a
    plan of four jobs, where the floating-point computation is exact. *)
Definition failing_callback (k : nat) (run_id : string) (percent : Z)
    (current_job : string) : outcome unit :=
  if (k =? 1)%nat then Raise "progress store unavailable" else Ret ().

Definition quarter_percent (i : nat) (total_jobs : Z) : Z :=
  Z.of_nat i * 100 / total_jobs.

(** [PluginRegistry.register], [PluginRegistry.get] and
    [PluginRegistry.available] on the class-level dictionary. *)
Definition PluginRegistry_register {A} (registry : list (string * Plugin A))
    (plugin_class : Plugin A) : list (string * Plugin A) :=
  dict_set registry (PLUGIN_NAME plugin_class) plugin_class.

Definition PluginRegistry_get {A} (registry : list (string * Plugin A))
    (name : string) : option (Plugin A) :=
  dict_get registry name.

Definition PluginRegistry_available {A} (registry : list (string * Plugin A))
  : list string :=
  dict_keys registry.

(** [AdapterFactory.register] and [AdapterFactory.available_adapters]. *)
Definition AdapterFactory_register {A}
    (factory : list (string * (string -> string -> outcome A)))
    (adapter_type : string) (adapter_class : string -> string -> outcome A)
  : list (string * (string -> string -> outcome A)) :=
  dict_set factory adapter_type adapter_class.

Definition available_adapters {A}
    (factory : list (string * (string -> string -> outcome A)))
  : list string :=
  dict_keys factory.

(** A plan that was not given its [total_jobs], which defaults to 0. *)
Definition uncounted_plan : ExecutionPlan :=
  {| plan_run_id := "run1";
     plan_jobs := plan_jobs (create_plan sample_uuid4 "run1" customizing_model);
     plan_total_jobs := 0 |}.

(** A second handler for the customizing category under another name. *)
Definition audit_plugin : Plugin MemoryAdapter :=
  {| PLUGIN_NAME := "audit";
     PLUGIN_TYPE := CUSTOMIZING;
     validate := fun _ => Ret ["not available"];
     execute := fun env config =>
       (Ret (create_result CUSTOMIZING "audit" "Audit" FAILED 0 0 0 None
               [] []), env) |}.

(** What the loop of [execute] keeps true of its results when [n] jobs
    have been handled: while nothing has failed there is one result per
    job, each [COMPLETED] and carrying the path of its artifact; after a
    failure exactly one job counts as failed, a result that is not
    [COMPLETED] has been recorded, and at most one result more than jobs
    exists. *)
Definition results_inv {A S : Type} (n : nat) (st : LoopState A S) : Prop :=
  (stop_execution st = false ->
     failed st = 0 /\ length (job_results st) = n /\
     Forall (fun r => res_status r = COMPLETED /\ res_artifacts r <> [])
            (job_results st)) /\
  (stop_execution st = true ->
     failed st = 1 /\
     (n <= length (job_results st) <= n + 1)%nat /\
     Exists (fun r => res_status r <> COMPLETED) (job_results st)).

(** ** Migration handler ([app/plugins/migration.py]) *)

Definition SUPPORTED_SOURCES : list string :=
  ["csv"; "database"; "legacy_sap"; "excel"].

(** [MigrationPlugin.validate]: [in] on a dict and on a list of strings
    and [isinstance] never raise. *)
Definition migration_validate (config : list (string * pyval))
  : outcome (list string) :=
  let id_errors :=
    if dict_contains config "id" then []
    else ["Migration object must have 'id'"] in
  let source := get_default config "source" (PStr "csv") in
  let source_errors :=
    if py_in_strs source SUPPORTED_SOURCES then []
    else ["Unknown source '" +:+ py_str source +:+ "'. Supported: "
            +:+ py_repr (PList (map PStr SUPPORTED_SOURCES))] in
  let mapping_errors :=
    match dict_get config "mapping" with
    | None => ["Migration object must have 'mapping'"]
    | Some (PDict _) => []
    | Some _ => ["'mapping' must be a dictionary"]
    end in
  Ret (id_errors ++ source_errors ++ mapping_errors).

(** A step and a test case as a configuration file can declare them
    without the optional fields. *)
Definition parameter_step : CustomizingStep :=
  {| step_action := "set_parameter"; step_table := None; step_key := None;
     step_values := None; step_bapi := None; step_params := None |}.

Definition report_step : CustomizingStep :=
  {| step_action := "execute_report"; step_table := None; step_key := None;
     step_values := None; step_bapi := None; step_params := None |}.

Definition api_case : TestCase :=
  {| case_id := "t1"; case_type := "api";
     case_endpoint := Some "/sap/health"; case_method := Some "GET";
     case_expected_status := None; case_expected_data := None;
     case_description := None |}.

(** ** Storage layer ([app/storage.py]) *)

Section Storage.
(** [c.isalnum()] for one character of a job name. *)
Variable isalnum : ascii -> bool.

(** [safe_name] of [save_job_result]:
    ["".join(c if c.isalnum() or c in "-_" else "_" for c in job_name)]. *)
Fixpoint safe_name (job_name : string) : string :=
  match job_name with
  | EmptyString => EmptyString
  | String c rest =>
      String (if isalnum c || Ascii.eqb c "-" || Ascii.eqb c "_"
              then c else "_"%char)
             (safe_name rest)
  end.
End Storage.

(** [str.isalnum] on the characters of ASCII. *)
Definition ascii_isalnum (c : ascii) : bool :=
  let n := nat_of_ascii c in
  ((48 <=? n) && (n <=? 57) || (65 <=? n) && (n <=? 90)
   || (97 <=? n) && (n <=? 122))%nat.

(** ** The simulated system ([app/adapters/fake_sap.py]) *)

(** [d.update(e)] and [{**d, **e}]: the items of [e] are set in turn. *)
Definition dict_update {V} (d e : list (string * V)) : list (string * V) :=
  fold_left (fun acc kv => dict_set acc kv.1 kv.2) e d.

(** [del d[k]] for a key that is present: no entry is left under [k]. *)
Fixpoint dict_remove {V} (d : list (string * V)) (k : string)
  : list (string * V) :=
  match d with
  | [] => []
  | (k', v) :: rest =>
      if String.eqb k' k then dict_remove rest k
      else (k', v) :: dict_remove rest k
  end.

Record DataLoadResult := {
  dl_success : bool;
  dl_object_type : string;
  dl_records_total : Z;
  dl_records_loaded : Z;
  dl_records_failed : Z;
  dl_errors : list (list (string * pyval));
  dl_reconciliation : list (string * pyval);
}.

Module FakeSAPAdapter.

(** The simulated tables with their key fields. *)
Definition TABLE_DEFINITIONS : list (string * list string) :=
  [("T001", ["BUKRS"]);
   ("T001K", ["BUKRS"; "KTOPL"]);
   ("SKA1", ["KTOPL"; "SAKNR"]);
   ("SKB1", ["BUKRS"; "SAKNR"]);
   ("T003", ["BLART"]);
   ("T007A", ["KALSM"; "MWSKZ"]);
   ("T052", ["ZTERM"]);
   ("CSKS", ["KOKRS"; "KOSTL"]);
   ("CEPC", ["KOKRS"; "PRCTR"]);
   ("CSKA", ["KTOPL"; "KSTAR"]);
   ("T001W", ["WERKS"]);
   ("T001L", ["WERKS"; "LGORT"]);
   ("MARA", ["MATNR"]);
   ("MARC", ["MATNR"; "WERKS"]);
   ("LFA1", ["LIFNR"]);
   ("KNA1", ["KUNNR"]);
   ("TVKO", ["VKORG"]);
   ("TVTW", ["VTWEG"]);
   ("KNVV", ["KUNNR"; "VKORG"; "VTWEG"; "SPART"]);
   ("BUT000", ["PARTNER"]);
   ("BUT020", ["PARTNER"; "ADDRNUMBER"]);
   ("BUT100", ["PARTNER"; "RLTYP"])].

(** The simulated API endpoints. *)
Definition API_ENDPOINTS : list (string * list (string * pyval)) :=
  [("/sap/health",
      [("status", PStr "healthy"); ("version", PStr "S/4HANA 2023")]);
   ("/sap/opu/odata/sap/API_BUSINESS_PARTNER",
      [("d", PDict [("results", PList [])])]);
   ("/sap/opu/odata/sap/API_MATERIAL_DOCUMENT_SRV",
      [("d", PDict [("results", PList [])])]);
   ("/sap/opu/odata/sap/API_PURCHASEORDER_PROCESS_SRV",
      [("d", PDict [("results", PList [])])])].

(** A [FakeSAPAdapter] instance, with the number of values taken so far
    from the random generator and the number of readings taken so far
    from the clock.  Arguments have the types of the signatures: a table
    name is a string, a key and the values are dictionaries.  The
    persistence of the state to a file is not part of the embedding. *)
Record t := {
  system_id : string;
  client : string;
  simulate_latency : bool;
  failure_rate : Q;
  _tables : list (string * list (string * list (string * pyval)));
  _api_calls : list (list (string * pyval));
  _migrations : list (string * DataLoadResult);
  _connected : bool;
  _operation_count : Z;
  draws : nat;
  clock : nat;
}.

(** [FakeSAPAdapter.__init__]: every defined table starts empty. *)
Definition init (system_id client : string) (simulate_latency : bool)
    (failure_rate : Q) : t :=
  {| system_id := system_id; client := client;
     simulate_latency := simulate_latency; failure_rate := failure_rate;
     _tables := map (fun def => (def.1, [])) TABLE_DEFINITIONS;
     _api_calls := []; _migrations := []; _connected := false;
     _operation_count := 0; draws := 0; clock := 0 |}.

Definition set_draws (a : t) (n : nat) : t :=
  {| system_id := system_id a; client := client a;
     simulate_latency := simulate_latency a; failure_rate := failure_rate a;
     _tables := _tables a; _api_calls := _api_calls a;
     _migrations := _migrations a; _connected := _connected a;
     _operation_count := _operation_count a; draws := n; clock := clock a |}.

Definition set_clock (a : t) (n : nat) : t :=
  {| system_id := system_id a; client := client a;
     simulate_latency := simulate_latency a; failure_rate := failure_rate a;
     _tables := _tables a; _api_calls := _api_calls a;
     _migrations := _migrations a; _connected := _connected a;
     _operation_count := _operation_count a; draws := draws a; clock := n |}.

Definition set_tables (a : t)
    (tables : list (string * list (string * list (string * pyval)))) : t :=
  {| system_id := system_id a; client := client a;
     simulate_latency := simulate_latency a; failure_rate := failure_rate a;
     _tables := tables; _api_calls := _api_calls a;
     _migrations := _migrations a; _connected := _connected a;
     _operation_count := _operation_count a; draws := draws a;
     clock := clock a |}.

Definition set_connected (a : t) (b : bool) : t :=
  {| system_id := system_id a; client := client a;
     simulate_latency := simulate_latency a; failure_rate := failure_rate a;
     _tables := _tables a; _api_calls := _api_calls a;
     _migrations := _migrations a; _connected := b;
     _operation_count := _operation_count a; draws := draws a;
     clock := clock a |}.

Definition count_operation (a : t) : t :=
  {| system_id := system_id a; client := client a;
     simulate_latency := simulate_latency a; failure_rate := failure_rate a;
     _tables := _tables a; _api_calls := _api_calls a;
     _migrations := _migrations a; _connected := _connected a;
     _operation_count := _operation_count a + 1; draws := draws a;
     clock := clock a |}.

Definition log_api_call (a : t) (call_record : list (string * pyval)) : t :=
  {| system_id := system_id a; client := client a;
     simulate_latency := simulate_latency a; failure_rate := failure_rate a;
     _tables := _tables a; _api_calls := _api_calls a ++ [call_record];
     _migrations := _migrations a; _connected := _connected a;
     _operation_count := _operation_count a; draws := draws a;
     clock := clock a |}.

Definition set_migrations (a : t)
    (migrations : list (string * DataLoadResult)) : t :=
  {| system_id := system_id a; client := client a;
     simulate_latency := simulate_latency a; failure_rate := failure_rate a;
     _tables := _tables a; _api_calls := _api_calls a;
     _migrations := migrations; _connected := _connected a;
     _operation_count := _operation_count a; draws := draws a;
     clock := clock a |}.

(** [_make_key]: the key fields of the table, ["KEY"] for a table that is
    not defined, each read from the key with [""] as default. *)
Definition _make_key (table : string) (key : list (string * pyval))
  : string :=
  let key_fields := default ["KEY"] (dict_get TABLE_DEFINITIONS table) in
  join "|" (map (fun f => py_str (get_default key f (PStr ""))) key_fields).

(** The inner loop of [load_data] that applies the mapping to a record
    (and, with the same text, the first loop of
    [MigrationPlugin._transform_data]). *)
Definition apply_mapping (mapping : list (string * string))
    (record : list (string * pyval)) : list (string * pyval) :=
  fold_left (fun mapped_record field =>
               match dict_get record field.1 with
               | Some value => dict_set mapped_record field.2 value
               | None => mapped_record
               end) mapping [].

Section World.
(** [random k] is the [k]-th value [random.random()] returns; a call of
    [random.randint] also takes a value from the generator.  [isoformat k]
    and [strftime k] are the two renderings of the [k]-th reading of
    [datetime.utcnow()]. *)
Variable random : nat -> Q.
Variable isoformat : nat -> string.
Variable strftime : nat -> string.

(** [_simulate_latency]: one [random.randint] when latency is simulated;
    the sleep changes nothing. *)
Definition _simulate_latency (a : t) : t :=
  if simulate_latency a then set_draws a (S (draws a)) else a.

(** [_should_fail]: [random.random() < self.failure_rate]. *)
Definition _should_fail (a : t) : bool * t :=
  (negb (Qle_bool (failure_rate a) (random (draws a))),
   set_draws a (S (draws a))).

Definition connect (a : t) : bool * t :=
  let '(fail, a1) := _should_fail (_simulate_latency a) in
  if fail then (false, a1) else (true, set_connected a1 true).

Definition disconnect (a : t) : t := set_connected a false.

Definition set_table (table : string) (key values : list (string * pyval))
    (a : t) : TableOperationResult * t :=
  let '(fail, a1) := _should_fail (count_operation (_simulate_latency a)) in
  if fail then
    ({| tor_success := false; tor_operation := "update";
        tor_message := "Simulated failure"; tor_affected_rows := 0 |}, a1)
  else
    let tables :=
      if dict_contains (_tables a1) table then _tables a1
      else dict_set (_tables a1) table [] in
    let key_str := _make_key table key in
    let rows := default [] (dict_get tables table) in
    let is_insert := negb (dict_contains rows key_str) in
    let entry :=
      dict_set
        (dict_set (dict_update (dict_update [] key) values)
                  "_MODIFIED_AT" (PStr (isoformat (clock a1))))
        "_MODIFIED_BY" (PStr "SAP_FACTORY") in
    let operation := if is_insert then "insert" else "update" in
    ({| tor_success := true; tor_operation := operation;
        tor_message := "Successfully " +:+ operation +:+ "ed entry";
        tor_affected_rows := 1 |},
     set_clock
       (set_tables a1 (dict_set tables table (dict_set rows key_str entry)))
       (S (clock a1))).

(** [get_table]; [key] and [fields] are [None] by default, and an empty
    key or field list filters nothing. *)
Definition get_table (table : string)
    (key : option (list (string * pyval))) (fields : option (list string))
    (a : t) : list (list (string * pyval)) * t :=
  let a1 := _simulate_latency a in
  match dict_get (_tables a1) table with
  | None => ([], a1)
  | Some rows =>
      let entries := map snd rows in
      let entries :=
        match key with
        | Some (item :: items) =>
            List.filter
              (fun e => forallb (fun kv =>
                                   py_eq (get_default e kv.1 PNone) kv.2)
                                (item :: items))
              entries
        | _ => entries
        end in
      let entries :=
        match fields with
        | Some (f :: fs) =>
            map (fun e =>
                   fold_left (fun acc k =>
                                if dict_contains e k
                                then dict_set acc k (get_default e k PNone)
                                else acc) (f :: fs) [])
                entries
        | _ => entries
        end in
      (entries, a1)
  end.

(** [delete_table]: no failure is simulated here. *)
Definition delete_table (table : string) (key : list (string * pyval))
    (a : t) : TableOperationResult * t :=
  let a1 := count_operation (_simulate_latency a) in
  match dict_get (_tables a1) table with
  | None =>
      ({| tor_success := false; tor_operation := "delete";
          tor_message := "Table not found"; tor_affected_rows := 0 |}, a1)
  | Some rows =>
      let key_str := _make_key table key in
      if dict_contains rows key_str then
        ({| tor_success := true; tor_operation := "delete";
            tor_message := "Entry deleted"; tor_affected_rows := 1 |},
         set_tables a1
           (dict_set (_tables a1) table (dict_remove rows key_str)))
      else
        ({| tor_success := false; tor_operation := "delete";
            tor_message := "Entry not found"; tor_affected_rows := 0 |}, a1)
  end.

(** The state of the loop of [load_data]. *)
Record LoadState := {
  ls_adapter : t;
  ls_loaded : Z;
  ls_failed : Z;
  ls_errors : list (list (string * pyval));
}.

(** [for i, record in enumerate(data)], from index [i] on. *)
Fixpoint load_records (object_type target_table : string)
    (mapping : list (string * string)) (i : nat)
    (data : list (list (string * pyval))) (st : LoadState) : LoadState :=
  match data with
  | [] => st
  | record :: rest =>
      let mapped_record := apply_mapping mapping record in
      let '(fail, a1) := _should_fail (ls_adapter st) in
      if fail then
        load_records object_type target_table mapping (S i) rest
          {| ls_adapter := a1;
             ls_loaded := ls_loaded st;
             ls_failed := ls_failed st + 1;
             ls_errors := ls_errors st ++
               [[("record_index", PInt (Z.of_nat i));
                 ("error", PStr "Simulated validation failure");
                 ("data", PDict record)]] |}
      else
        let key_fields :=
          default ["KEY"] (dict_get TABLE_DEFINITIONS target_table) in
        let key :=
          fold_left (fun key f =>
                       dict_set key f
                         (get_default mapped_record f
                                      (PStr ("AUTO_" +:+ pretty i))))
                    key_fields [] in
        let key_str := _make_key target_table key in
        let stored :=
          dict_set
            (dict_set (dict_update [] mapped_record)
                      "_LOADED_AT" (PStr (isoformat (clock a1))))
            "_BATCH_ID"
            (PStr (object_type +:+ "_" +:+ strftime (S (clock a1)))) in
        let rows := default [] (dict_get (_tables a1) target_table) in
        load_records object_type target_table mapping (S i) rest
          {| ls_adapter :=
               set_clock
                 (set_tables a1
                    (dict_set (_tables a1) target_table
                              (dict_set rows key_str stored)))
                 (S (S (clock a1)));
             ls_loaded := ls_loaded st + 1;
             ls_failed := ls_failed st;
             ls_errors := ls_errors st |}
  end.

Definition table_map : list (string * string) :=
  [("BUSINESS_PARTNER", "BUT000"); ("CUSTOMER", "KNA1");
   ("VENDOR", "LFA1"); ("MATERIAL", "MARA"); ("COST_CENTER", "CSKS");
   ("PROFIT_CENTER", "CEPC"); ("GL_ACCOUNT", "SKA1")].

Definition load_data (object_type : string)
    (data : list (list (string * pyval))) (mapping : list (string * string))
    (a : t) : DataLoadResult * t :=
  let a1 := _simulate_latency a in
  let target_table := default object_type (dict_get table_map object_type) in
  let a2 :=
    if dict_contains (_tables a1) target_table then a1
    else set_tables a1 (dict_set (_tables a1) target_table []) in
  let st :=
    load_records object_type target_table mapping 0 data
      {| ls_adapter := a2; ls_loaded := 0; ls_failed := 0;
         ls_errors := [] |} in
  let a3 := ls_adapter st in
  let total := Z.of_nat (length data) in
  let result :=
    {| dl_success := ls_failed st =? 0;
       dl_object_type := object_type;
       dl_records_total := total;
       dl_records_loaded := ls_loaded st;
       dl_records_failed := ls_failed st;
       dl_errors := ls_errors st;
       dl_reconciliation :=
         [("source_count", PInt total);
          ("target_count", PInt (ls_loaded st));
          ("delta", PInt (total - ls_loaded st));
          ("reconciled", PBool (ls_loaded st =? total));
          ("reconciliation_time", PStr (isoformat (clock a3)))] |} in
  (result,
   set_migrations (set_clock a3 (S (clock a3)))
                  (dict_set (_migrations a3) object_type result)).

(** [call_api]; the duration of the call is a floating point figure and
    is not part of the embedded response. *)
Definition call_api (endpoint method : string)
    (params data : option (list (string * pyval))) (a : t)
  : APIResponse * t :=
  let a1 := _simulate_latency a in
  let call_record :=
    [("timestamp", PStr (isoformat (clock a1)));
     ("endpoint", PStr endpoint);
     ("method", PStr method);
     ("params", opt_dict params);
     ("data", opt_dict data)] in
  let '(fail, a2) :=
    _should_fail (log_api_call (set_clock a1 (S (clock a1))) call_record) in
  if fail then
    ({| api_status_code := 500; api_data := None;
        api_error_message := Some "Simulated server error" |}, a2)
  else
    match dict_get API_ENDPOINTS endpoint with
    | Some response_data =>
        ({| api_status_code := 200; api_data := Some response_data;
            api_error_message := None |}, a2)
    | None =>
        if String.prefix "/sap" endpoint then
          ({| api_status_code := 200;
              api_data :=
                Some [("d",
                       PDict [("results", PList []);
                              ("__metadata",
                               PDict [("uri", PStr endpoint);
                                      ("type", PStr "SAP.Entity")])])];
              api_error_message := None |}, a2)
        else
          ({| api_status_code := 404; api_data := None;
              api_error_message :=
                Some ("Endpoint not found: " +:+ endpoint) |}, a2)
    end.

(** [call_bapi] *)
Definition call_bapi (bapi : string) (params : list (string * pyval))
    (a : t) : list (string * pyval) * t :=
  let success (message : string) :=
    ("RETURN", PDict [("TYPE", PStr "S"); ("MESSAGE", PStr message)]) in
  let bapi_responses :=
    [("BAPI_COMPANYCODE_GETDETAIL",
        [("COMPANYCODE_DETAIL",
            PDict [("BUKRS", get_default params "COMPANYCODE" (PStr "1000"));
                   ("BUTXT", PStr "Demo Company");
                   ("WAERS", PStr "EUR")]);
         success "Success"]);
     ("BAPI_COSTCENTER_GETLIST",
        [("COSTCENTER_LIST", PList []); success "Success"]);
     ("BAPI_MATERIAL_GETLIST",
        [("MATNRLIST", PList []); success "Success"]);
     ("BAPI_TRANSACTION_COMMIT", [success "Transaction committed"])] in
  let '(fail, a1) := _should_fail (_simulate_latency a) in
  if fail then
    ([("RETURN", PDict [("TYPE", PStr "E");
                        ("MESSAGE", PStr "Simulated BAPI error");
                        ("NUMBER", PStr "999")])], a1)
  else
    (default [success ("BAPI " +:+ bapi +:+ " executed")]
             (dict_get bapi_responses bapi), a1).

(** *** Calls with arguments that are not dictionaries

    Nothing checks the types of the signatures at run time.  The
    customizing handler calls [set_table(table, key, values)] and
    [call_bapi(bapi, params)] with what [step.get] finds in the step, and
    in the dictionary of a planned step, which holds every field of the
    step model, that is [None] for a field that was not given.  The two
    methods are given here again for a key, values, a function name and
    parameters of any type, statement by statement; a table name is a
    string. *)

(** [[str(key.get(f, "")) for f in key_fields]] *)
Fixpoint key_parts (key : pyval) (key_fields : list string)
  : outcome (list string) :=
  match key_fields with
  | [] => Ret []
  | f :: rest =>
      match py_get key f (PStr "") with
      | Raise e => Raise e
      | Ret value =>
          match key_parts key rest with
          | Raise e => Raise e
          | Ret parts => Ret (py_str value :: parts)
          end
      end
  end.

Definition _make_key_any (table : string) (key : pyval) : outcome string :=
  let key_fields := default ["KEY"] (dict_get TABLE_DEFINITIONS table) in
  match key_parts key key_fields with
  | Raise e => Raise e
  | Ret parts => Ret (join "|" parts)
  end.

(** [{**key, **values}]: each of the two has to be a mapping. *)
Definition merge_entry (key values : pyval)
  : outcome (list (string * pyval)) :=
  match key with
  | PDict key =>
      match values with
      | PDict values => Ret (dict_update (dict_update [] key) values)
      | _ => Raise ("'" +:+ type_name values +:+ "' object is not a mapping")
      end
  | _ => Raise ("'" +:+ type_name key +:+ "' object is not a mapping")
  end.

(** [set_table]; an exception leaves the adapter with the operation
    counted and the table initialised. *)
Definition set_table_any (table : string) (key values : pyval) (a : t)
  : outcome TableOperationResult * t :=
  let '(fail, a1) := _should_fail (count_operation (_simulate_latency a)) in
  if fail then
    (Ret {| tor_success := false; tor_operation := "update";
            tor_message := "Simulated failure"; tor_affected_rows := 0 |},
     a1)
  else
    let tables :=
      if dict_contains (_tables a1) table then _tables a1
      else dict_set (_tables a1) table [] in
    let a2 := set_tables a1 tables in
    match _make_key_any table key with
    | Raise e => (Raise e, a2)
    | Ret key_str =>
        let rows := default [] (dict_get tables table) in
        let is_insert := negb (dict_contains rows key_str) in
        match merge_entry key values with
        | Raise e => (Raise e, a2)
        | Ret merged =>
            let entry :=
              dict_set
                (dict_set merged "_MODIFIED_AT" (PStr (isoformat (clock a2))))
                "_MODIFIED_BY" (PStr "SAP_FACTORY") in
            let operation := if is_insert then "insert" else "update" in
            (Ret {| tor_success := true; tor_operation := operation;
                    tor_message := "Successfully " +:+ operation +:+ "ed entry";
                    tor_affected_rows := 1 |},
             set_clock
               (set_tables a2
                  (dict_set tables table (dict_set rows key_str entry)))
               (S (clock a2)))
        end
    end.

(** [call_bapi]: the dictionary of the known responses is built, and
    [params.get] evaluated, before the failure is drawn; the function
    name is looked up last, and has to be hashable. *)
Definition call_bapi_any (bapi params : pyval) (a : t)
  : outcome (list (string * pyval)) * t :=
  let success (message : string) :=
    ("RETURN", PDict [("TYPE", PStr "S"); ("MESSAGE", PStr message)]) in
  let a0 := _simulate_latency a in
  match py_get params "COMPANYCODE" (PStr "1000") with
  | Raise e => (Raise e, a0)
  | Ret company_code =>
      let bapi_responses :=
        [("BAPI_COMPANYCODE_GETDETAIL",
            [("COMPANYCODE_DETAIL",
                PDict [("BUKRS", company_code);
                       ("BUTXT", PStr "Demo Company");
                       ("WAERS", PStr "EUR")]);
             success "Success"]);
         ("BAPI_COSTCENTER_GETLIST",
            [("COSTCENTER_LIST", PList []); success "Success"]);
         ("BAPI_MATERIAL_GETLIST",
            [("MATNRLIST", PList []); success "Success"]);
         ("BAPI_TRANSACTION_COMMIT", [success "Transaction committed"])] in
      let '(fail, a1) := _should_fail a0 in
      if fail then
        (Ret [("RETURN", PDict [("TYPE", PStr "E");
                                ("MESSAGE", PStr "Simulated BAPI error");
                                ("NUMBER", PStr "999")])], a1)
      else
        let executed := [success ("BAPI " +:+ py_str bapi +:+ " executed")] in
        match bapi with
        | PStr name =>
            (Ret (default executed (dict_get bapi_responses name)), a1)
        | PNone | PBool _ | PInt _ => (Ret executed, a1)
        | PList _ | PDict _ =>
            (Raise ("unhashable type: '" +:+ type_name bapi +:+ "'"), a1)
        end
  end.
End World.

(** [get_state] *)
Definition get_state (a : t) : list (string * pyval) :=
  [("system_id", PStr (system_id a));
   ("client", PStr (client a));
   ("connected", PBool (_connected a));
   ("operation_count", PInt (_operation_count a));
   ("tables",
      PDict (flat_map (fun entry =>
                         match entry.2 with
                         | [] => []
                         | rows => [(entry.1, PInt (Z.of_nat (length rows)))]
                         end) (_tables a)));
   ("api_calls", PInt (Z.of_nat (length (_api_calls a))));
   ("migrations", PList (map PStr (dict_keys (_migrations a))))].

(** [reset]: the connection is left as it is. *)
Definition reset (a : t) : t :=
  {| system_id := system_id a; client := client a;
     simulate_latency := simulate_latency a; failure_rate := failure_rate a;
     _tables := map (fun def => (def.1, [])) TABLE_DEFINITIONS;
     _api_calls := []; _migrations := []; _connected := _connected a;
     _operation_count := 0; draws := draws a; clock := clock a |}.

End FakeSAPAdapter.

(** [MigrationPlugin._transform_data]; [mapping] stands for
    [config.get("mapping", {})], a dictionary from field names to field
    names as the model and [validate] make it.  The mapped fields come
    first, then the fields the mapping does not name, which overwrite a
    mapped field of the same name; without a mapping the data is returned
    as it is. *)
Definition transform_record (mapping : list (string * string))
    (record : list (string * pyval)) : list (string * pyval) :=
  fold_left (fun new_record item =>
               if dict_contains mapping item.1 then new_record
               else dict_set new_record item.1 item.2)
            record (FakeSAPAdapter.apply_mapping mapping record).

Definition _transform_data (data : list (list (string * pyval)))
    (mapping : list (string * string)) : list (list (string * pyval)) :=
  match mapping with
  | [] => data
  | _ => map (transform_record mapping) data
  end.

(** A new adapter with the default settings, and a source of random
    values and a clock for it. *)
Definition fresh_adapter : FakeSAPAdapter.t :=
  FakeSAPAdapter.init "DEV" "100" true 0.

Definition sample_random (k : nat) : Q := 1 # 2.

Definition sample_isoformat (k : nat) : string := "2024-01-01T00:00:00".

Definition sample_strftime (k : nat) : string := "20240101000000".
(** * Properties *)

(** ** Strings and job identifiers *)

Lemma append_nil (t : string) : "" +:+ t = t.
Proof. reflexivity. Qed.

Lemma append_cons (c : ascii) (s t : string) :
  String c s +:+ t = String c (s +:+ t).
Proof. reflexivity. Qed.

Lemma append_length (s t : string) :
  String.length (s +:+ t) = (String.length s + String.length t)%nat.
Proof.
  induction s as [|c s IH]; [done |].
  rewrite append_cons. simpl. by rewrite IH.
Qed.

Lemma append_inv_head (p s t : string) : p +:+ s = p +:+ t -> s = t.
Proof.
  induction p as [|c p IH]; [done |].
  rewrite !append_cons. intros [= Heq]. auto.
Qed.

(** Two strings with tails of one length agree part by part. *)
Lemma append_inv_tail_length (s1 s2 t1 t2 : string) :
  String.length t1 = String.length t2 ->
  s1 +:+ t1 = s2 +:+ t2 -> s1 = s2 /\ t1 = t2.
Proof.
  revert s2. induction s1 as [|c s1 IH]; intros [|d s2] Hlen Heq;
    rewrite ?append_nil, ?append_cons in Heq.
  - done.
  - rewrite Heq in Hlen. simpl in Hlen. rewrite append_length in Hlen. lia.
  - rewrite <- Heq in Hlen. simpl in Hlen. rewrite append_length in Hlen. lia.
  - injection Heq as -> Heq. destruct (IH _ Hlen Heq) as [-> ->]. done.
Qed.

Lemma hex6_length (u : N) : String.length (hex6 u) = 6%nat.
Proof. reflexivity. Qed.

Lemma tagged_id_inj (p a b : string) (u v : N) :
  p +:+ a +:+ "_" +:+ hex6 u = p +:+ b +:+ "_" +:+ hex6 v -> a = b.
Proof.
  intros Heq%append_inv_head.
  apply append_inv_tail_length in Heq; [tauto |].
  reflexivity.
Qed.

(** ** The planner *)

Section PlannerFacts.
Variable uuid4 : nat -> N.

Lemma customizing_loop_length packages previous k :
  length (customizing_loop uuid4 packages previous k) = length packages.
Proof.
  revert previous k. induction packages as [|p ps IH]; intros; simpl; auto.
Qed.

Lemma migration_loop_length objects deps k :
  length (migration_loop uuid4 objects deps k) = length objects.
Proof. revert k. induction objects as [|o os IH]; intros; simpl; auto. Qed.

Lemma testing_loop_length suites deps k :
  length (testing_loop uuid4 suites deps k) = length suites.
Proof. revert k. induction suites as [|s ss IH]; intros; simpl; auto. Qed.

(** What the [i]-th customizing job is, given the id the loop starts
    from. *)
Lemma customizing_loop_lookup packages previous k i pkg :
  packages !! i = Some pkg ->
  exists job,
    customizing_loop uuid4 packages previous k !! i = Some job /\
    job_id job = "cust_" +:+ pkg_id pkg +:+ "_" +:+ hex6 (uuid4 (k + i)%nat) /\
    job_type job = CUSTOMIZING /\
    job_name job = "Customizing: " +:+ pkg_id pkg /\
    job_target_system job = pkg_target pkg /\
    dict_get (job_config job) "id" = Some (PStr (pkg_id pkg)) /\
    job_dependencies job =
      match i with
      | O => match previous with
             | Some p => if truthy (PStr p) then [p] else []
             | None => []
             end
      | S j =>
          match customizing_loop uuid4 packages previous k !! j with
          | Some before => [job_id before]
          | None => []
          end
      end.
Proof.
  revert previous k i.
  induction packages as [|p ps IH]; intros previous k i Hi; [done |].
  destruct i as [|i]; simpl in Hi.
  - injection Hi as ->. eexists. split; [reflexivity |].
    simpl. rewrite Nat.add_0_r. repeat split; reflexivity.
  - destruct (IH (Some ("cust_" +:+ pkg_id p +:+ "_" +:+ hex6 (uuid4 k)))
                 (S k) i Hi) as (job & Hjob & Hid & Hty & Hnm & Htg & Hcfg & Hdeps).
    exists job. simpl. split; [exact Hjob |].
    replace (k + S i)%nat with (S k + i)%nat by lia.
    repeat split; try assumption.
    rewrite Hdeps. destruct i as [|i]; [reflexivity |]. reflexivity.
Qed.

Lemma migration_loop_lookup objects deps k i obj :
  objects !! i = Some obj ->
  exists job,
    migration_loop uuid4 objects deps k !! i = Some job /\
    job_id job = "migr_" +:+ obj_id obj +:+ "_" +:+ hex6 (uuid4 (k + i)%nat) /\
    job_type job = MIGRATION /\
    job_name job = "Migration: " +:+ obj_id obj /\
    job_target_system job = obj_target obj /\
    dict_get (job_config job) "id" = Some (PStr (obj_id obj)) /\
    job_dependencies job = deps.
Proof.
  revert k i. induction objects as [|o os IH]; intros k i Hi; [done |].
  destruct i as [|i]; simpl in Hi.
  - injection Hi as ->. eexists. split; [reflexivity |].
    simpl. rewrite Nat.add_0_r. repeat split; reflexivity.
  - destruct (IH (S k) i Hi) as (job & Hjob & Hid & Hrest).
    exists job. simpl. split; [exact Hjob |].
    replace (k + S i)%nat with (S k + i)%nat by lia. by split.
Qed.

Lemma testing_loop_lookup suites deps k i suite :
  suites !! i = Some suite ->
  exists job,
    testing_loop uuid4 suites deps k !! i = Some job /\
    job_id job = "test_" +:+ suite_id suite +:+ "_" +:+ hex6 (uuid4 (k + i)%nat) /\
    job_type job = TESTING /\
    job_name job = "Testing: " +:+ suite_id suite /\
    job_target_system job = suite_target suite /\
    dict_get (job_config job) "id" = Some (PStr (suite_id suite)) /\
    job_dependencies job = deps.
Proof.
  revert k i. induction suites as [|s ss IH]; intros k i Hi; [done |].
  destruct i as [|i]; simpl in Hi.
  - injection Hi as ->. eexists. split; [reflexivity |].
    simpl. rewrite Nat.add_0_r. repeat split; reflexivity.
  - destruct (IH (S k) i Hi) as (job & Hjob & Hid & Hrest).
    exists job. simpl. split; [exact Hjob |].
    replace (k + S i)%nat with (S k + i)%nat by lia. by split.
Qed.

(** C2. For every model, [create_plan] emits the customizing jobs, then
    the migration jobs, then the testing jobs: one job per package, object
    and suite, each group in declaration order, so that [total_jobs] is the
    sum of the three counts.  The first customizing job has no dependency
    and every other one depends exactly on the customizing job before it;
    every migration job depends exactly on the ids of all customizing jobs,
    and every testing job exactly on the ids of all migration jobs. *)
Theorem create_plan_structure (run_id : string) (model : ImplementationModel) :
  exists customizing_jobs migration_jobs testing_jobs : list JobDefinition,
    plan_jobs (create_plan uuid4 run_id model)
      = customizing_jobs ++ migration_jobs ++ testing_jobs /\
    plan_total_jobs (create_plan uuid4 run_id model)
      = Z.of_nat (length (customizing_packages model)
                  + length (migration_objects model)
                  + length (testing_suites model)) /\
    length customizing_jobs = length (customizing_packages model) /\
    length migration_jobs = length (migration_objects model) /\
    length testing_jobs = length (testing_suites model) /\
    (forall i pkg, customizing_packages model !! i = Some pkg ->
       exists job, customizing_jobs !! i = Some job /\
         job_type job = CUSTOMIZING /\
         job_target_system job = pkg_target pkg /\
         dict_get (job_config job) "id" = Some (PStr (pkg_id pkg)) /\
         job_dependencies job =
           match i with
           | O => []
           | S j => match customizing_jobs !! j with
                    | Some before => [job_id before]
                    | None => []
                    end
           end) /\
    (forall i obj, migration_objects model !! i = Some obj ->
       exists job, migration_jobs !! i = Some job /\
         job_type job = MIGRATION /\
         job_target_system job = obj_target obj /\
         dict_get (job_config job) "id" = Some (PStr (obj_id obj)) /\
         job_dependencies job = map job_id customizing_jobs) /\
    (forall i suite, testing_suites model !! i = Some suite ->
       exists job, testing_jobs !! i = Some job /\
         job_type job = TESTING /\
         job_target_system job = suite_target suite /\
         dict_get (job_config job) "id" = Some (PStr (suite_id suite)) /\
         job_dependencies job = map job_id migration_jobs).
Proof.
  unfold create_plan, _create_customizing_jobs, _create_migration_jobs,
    _create_testing_jobs. cbn zeta.
  set (cj := customizing_loop uuid4 (customizing_packages model) None 0).
  set (mj := migration_loop uuid4 (migration_objects model) (map job_id cj)
               (length cj)).
  set (tj := testing_loop uuid4 (testing_suites model) (map job_id mj)
               (length cj + length mj)).
  exists cj, mj, tj. simpl.
  assert (Hc : length cj = length (customizing_packages model))
    by apply customizing_loop_length.
  assert (Hm : length mj = length (migration_objects model))
    by apply migration_loop_length.
  assert (Ht : length tj = length (testing_suites model))
    by apply testing_loop_length.
  repeat split; try assumption.
  - rewrite !length_app, Hc, Hm, Ht. f_equal. lia.
  - intros i pkg Hi.
    destruct (customizing_loop_lookup _ None 0%nat _ _ Hi)
      as (job & Hjob & _ & Hty & _ & Htg & Hcfg & Hdeps).
    exists job. repeat split; assumption.
  - intros i obj Hi.
    destruct (migration_loop_lookup _ (map job_id cj) (length cj) _ _ Hi)
      as (job & Hjob & _ & Hty & _ & Htg & Hcfg & Hdeps).
    exists job. repeat split; assumption.
  - intros i suite Hi.
    destruct (testing_loop_lookup _ (map job_id mj)
                (length cj + length mj)%nat _ _ Hi)
      as (job & Hjob & _ & Hty & _ & Htg & Hcfg & Hdeps).
    exists job. repeat split; assumption.
Qed.
End PlannerFacts.

(** ** Kahn's algorithm *)

Lemma str_in_spec (x : string) (xs : list string) :
  str_in x xs = true <-> x ∈ xs.
Proof.
  unfold str_in. rewrite existsb_exists. split.
  - intros (y & Hy & Heq). apply String.eqb_eq in Heq. subst y.
    by apply list_elem_of_In.
  - intros Hx. exists x. split; [by apply list_elem_of_In |].
    apply String.eqb_refl.
Qed.

Lemma str_in_false (x : string) (xs : list string) :
  str_in x xs = false <-> x ∉ xs.
Proof.
  rewrite <- str_in_spec. destruct (str_in x xs); split; congruence.
Qed.

Lemma filter_ne_notin (x : string) (l : list string) :
  x ∉ l -> filter (fun y => y ≠ x) l = l.
Proof.
  induction l as [|y l IH]; [done |]. intros Hx.
  apply not_elem_of_cons in Hx as [Hne Hx].
  rewrite filter_cons_True by congruence. by rewrite IH.
Qed.

Lemma list_remove_first_filter (x : string) (l : list string) :
  NoDup l -> list_remove_first x l = filter (fun y => y ≠ x) l.
Proof.
  induction l as [|y l IH]; [done |]. intros [Hy Hl]%NoDup_cons. simpl.
  destruct (String.eqb_spec y x) as [-> | Hne].
  - rewrite filter_cons_False by (intros ?; congruence).
    by rewrite filter_ne_notin.
  - rewrite filter_cons_True by done. by rewrite IH.
Qed.

Lemma pending_nil_result (deps : list string) : pending [] deps = deps.
Proof.
  unfold pending. induction deps as [|d deps IH]; [done |].
  rewrite filter_cons_True by apply not_elem_of_nil. by rewrite IH.
Qed.

Lemma pending_snoc (result deps : list string) (j : string) :
  pending (result ++ [j]) deps = filter (fun y => y ≠ j) (pending result deps).
Proof.
  unfold pending. rewrite list_filter_filter. apply list_filter_iff.
  intros d. rewrite elem_of_app, list_elem_of_singleton. tauto.
Qed.

Lemma pending_NoDup (result deps : list string) :
  NoDup deps -> NoDup (pending result deps).
Proof. apply NoDup_filter. Qed.

Lemma pending_empty (result deps : list string) :
  pending result deps = [] <-> forall d, d ∈ deps -> d ∈ result.
Proof.
  unfold pending. split.
  - intros Hnil d Hd. destruct (decide (d ∈ result)) as [|Hn]; [done |].
    assert (d ∈ filter (fun d => d ∉ result) deps)
      by (apply list_elem_of_filter; done).
    rewrite Hnil in *. by apply elem_of_nil in H.
  - intros Hall. induction deps as [|d deps IH]; [done |].
    rewrite filter_cons_False.
    + apply IH. intros d' Hd'. apply Hall. by right.
    + intros Hn. apply Hn, Hall. by left.
Qed.

(** *** One round of releases *)

Lemma release_deps (j : string) (r : list string)
    (cur : list (string * list string)) (av : list string) :
  (release j r cur av).1
  = map (fun kv => (kv.1, if str_in j kv.2
                          then list_remove_first j kv.2 else kv.2)) cur.
Proof.
  revert av. induction cur as [|[k ds] cur IH]; intros av; [done |].
  simpl. destruct (str_in j ds).
  - match goal with |- context [release j r cur ?a] =>
      specialize (IH a); destruct (release j r cur a) end.
    simpl in *. by rewrite IH.
  - specialize (IH av). destruct (release j r cur av). simpl in *.
    by rewrite IH.
Qed.

Lemma release_avail_incl (j : string) (r : list string)
    (cur : list (string * list string)) (av : list string) (k : string) :
  k ∈ av -> k ∈ (release j r cur av).2.
Proof.
  revert av. induction cur as [|[k' ds] cur IH]; intros av Hk; [done |].
  simpl. destruct (str_in j ds).
  - match goal with |- context [release j r cur ?a] =>
      specialize (IH a); destruct (release j r cur a) end.
    simpl in *. apply IH. case_match; [| done]. apply elem_of_app. by left.
  - specialize (IH av). destruct (release j r cur av). simpl in *. auto.
Qed.

Lemma release_avail_new (j : string) (r : list string)
    (cur : list (string * list string)) (av : list string) (k : string) :
  k ∈ (release j r cur av).2 ->
  k ∈ av \/
  ((k ∉ r) /\
   exists ds, (k, ds) ∈ cur /\ j ∈ ds /\ list_remove_first j ds = []).
Proof.
  revert av. induction cur as [|[k' ds] cur IH]; intros av Hk; [by left |].
  simpl in Hk. destruct (str_in j ds) eqn:Hin.
  - match type of Hk with context [release j r cur ?a] =>
      specialize (IH a); destruct (release j r cur a) end.
    simpl in *. destruct (IH Hk) as [Hav | (Hr & ds' & Hds' & Hj & Hrm)].
    + case_match eqn:Hcond; [| by left].
      apply elem_of_app in Hav as [Hav | Hav%list_elem_of_singleton];
        [by left |]. subst k. right.
      apply andb_true_iff in Hcond as [Hcond Hnav].
      apply andb_true_iff in Hcond as [Hnil Hnr].
      apply negb_true_iff, str_in_false in Hnr.
      split; [done |]. exists ds. split; [by left |].
      split; [by apply str_in_spec |].
      by destruct (list_remove_first j ds).
    + right. split; [done |]. exists ds'. split; [by right | done].
  - specialize (IH av). destruct (release j r cur av). simpl in *.
    destruct (IH Hk) as [Hav | (Hr & ds' & Hds' & Hj & Hrm)]; [by left |].
    right. split; [done |]. exists ds'. split; [by right | done].
Qed.

Lemma release_avail_complete (j : string) (r : list string)
    (cur : list (string * list string)) (av : list string)
    (k : string) (ds : list string) :
  (k, ds) ∈ cur -> j ∈ ds -> list_remove_first j ds = [] ->
  k ∈ r \/ k ∈ (release j r cur av).2.
Proof.
  revert av. induction cur as [|[k' ds'] cur IH]; intros av Hk Hj Hrm.
  { by apply elem_of_nil in Hk. }
  apply elem_of_cons in Hk as [[= <- <-] | Hk].
  - simpl. apply str_in_spec in Hj. rewrite Hj, Hrm. simpl.
    destruct (str_in k r) eqn:Hr; [left; by apply str_in_spec |].
    right. simpl.
    destruct (str_in k av) eqn:Hav; simpl.
    + destruct (release j r cur av) eqn:Hrel. simpl.
      pose proof (release_avail_incl j r cur av k) as Hincl.
      rewrite Hrel in Hincl. apply Hincl. by apply str_in_spec.
    + destruct (release j r cur (av ++ [k])) eqn:Hrel. simpl.
      pose proof (release_avail_incl j r cur (av ++ [k]) k) as Hincl.
      rewrite Hrel in Hincl. apply Hincl, elem_of_app. right. by left.
  - simpl. destruct (str_in j ds').
    + match goal with |- context [release j r cur ?a] =>
        specialize (IH a Hk Hj Hrm); destruct (release j r cur a) end.
      done.
    + specialize (IH av Hk Hj Hrm). by destruct (release j r cur av).
Qed.

Lemma release_avail_NoDup (j : string) (r : list string)
    (cur : list (string * list string)) (av : list string) :
  NoDup av -> NoDup (release j r cur av).2.
Proof.
  revert av. induction cur as [|[k ds] cur IH]; intros av Hav; [done |].
  simpl. destruct (str_in j ds).
  - match goal with |- context [release j r cur ?a] =>
      specialize (IH a); destruct (release j r cur a) end.
    simpl in *. apply IH. case_match eqn:Hcond; [| done].
    apply andb_true_iff in Hcond as [_ Hnav].
    apply negb_true_iff, str_in_false in Hnav.
    apply NoDup_app. split; [done |]. split; [| apply NoDup_singleton].
    intros x Hx ->%list_elem_of_singleton. done.
  - specialize (IH av). destruct (release j r cur av). simpl in *. auto.
Qed.

(** *** The loop invariant *)

Section Kahn.
(** The dictionary the loop starts from: its keys are distinct, no job
    lists a dependency twice, and every dependency is an earlier key. *)
Variable deps0 : list (string * list string).
Hypothesis keys_NoDup : NoDup (map fst deps0).
Hypothesis deps_NoDup : forall k ds, (k, ds) ∈ deps0 -> NoDup ds.
Hypothesis deps_earlier :
  forall i k ds d, deps0 !! i = Some (k, ds) -> d ∈ ds ->
    exists j kd, (j < i)%nat /\ deps0 !! j = Some (d, kd).

Lemma deps0_functional k ds ds' :
  (k, ds) ∈ deps0 -> (k, ds') ∈ deps0 -> ds = ds'.
Proof.
  intros [i Hi]%list_elem_of_lookup [j Hj]%list_elem_of_lookup.
  assert (i = j) as ->.
  { apply (NoDup_lookup (map fst deps0) i j k keys_NoDup).
    - by rewrite list_lookup_fmap, Hi.
    - by rewrite list_lookup_fmap, Hj. }
  congruence.
Qed.

Lemma kahn_inv_init : kahn_inv deps0 deps0 (initially_available deps0) [].
Proof.
  assert (Hav : forall k, k ∈ initially_available deps0 <-> (k, []) ∈ deps0).
  { intros k. unfold initially_available. rewrite list_elem_of_In, in_flat_map.
    split.
    - intros ([k' ds] & Hin & Hk). apply list_elem_of_In in Hin.
      destruct ds; simpl in Hk; [| done]. destruct Hk as [<- | []]. done.
    - intros Hin. exists (k, []). split; [by apply list_elem_of_In |].
      by left. }
  split.
  - unfold pending_deps. rewrite <- (map_id deps0) at 1.
    apply map_ext. intros [k ds]. simpl. by rewrite pending_nil_result.
  - simpl. clear Hav. revert keys_NoDup. clear.
    unfold initially_available.
    induction deps0 as [|[k ds] l IH]; simpl; [constructor |].
    intros [Hk Hl]%NoDup_cons. destruct ds; simpl; [| auto].
    apply NoDup_cons. split; [| auto].
    intros Hin. apply Hk. apply list_elem_of_In, in_flat_map in Hin
      as ([k' ds'] & Hin & Hk').
    destruct ds'; simpl in Hk'; [| done]. destruct Hk' as [<- | []].
    apply list_elem_of_fmap. exists (k', []). split; [done |].
    by apply list_elem_of_In.
  - intros k. simpl. rewrite Hav. split.
    + intros Hin. exists []. done.
    + intros (ds & Hin & Hnil). rewrite pending_nil_result in Hnil. by subst.
  - intros i k ds Hi. done.
Qed.

Lemma pending_deps_elem result k ds :
  (k, ds) ∈ pending_deps result deps0 ->
  exists ds0, (k, ds0) ∈ deps0 /\ ds = pending result ds0.
Proof.
  unfold pending_deps. intros ([k' ds0] & [= -> ->] & Hin)%list_elem_of_fmap.
  by exists ds0.
Qed.

Lemma kahn_inv_step cur j available result :
  kahn_inv deps0 cur (j :: available) result ->
  kahn_inv deps0 (release j (result ++ [j]) cur available).1
           (release j (result ++ [j]) cur available).2
           (result ++ [j]).
Proof.
  intros [Hcur Hnd Hready Hresp].
  assert (Hstep : forall ds0, (exists k, (k, ds0) ∈ deps0) ->
            (if str_in j (pending result ds0)
             then list_remove_first j (pending result ds0)
             else pending result ds0) = pending (result ++ [j]) ds0).
  { intros ds0 [k Hk]. rewrite pending_snoc.
    destruct (str_in j (pending result ds0)) eqn:Hj.
    - apply list_remove_first_filter, pending_NoDup. eauto.
    - apply str_in_false in Hj. by rewrite filter_ne_notin. }
  assert (Hrm : forall k ds0, (k, ds0) ∈ deps0 -> j ∈ pending result ds0 ->
            list_remove_first j (pending result ds0)
            = pending (result ++ [j]) ds0).
  { intros k ds0 Hk Hj. rewrite <- Hstep by eauto.
    apply str_in_spec in Hj. by rewrite Hj. }
  apply NoDup_app in Hnd as (Hnd_r & Hdisj & Hnd_a).
  apply NoDup_cons in Hnd_a as [Hj_av Hnd_a].
  split.
  - rewrite release_deps, Hcur. unfold pending_deps. rewrite map_map.
    apply map_ext_in. intros [k ds0] Hin%list_elem_of_In. simpl.
    f_equal. apply Hstep. eauto.
  - apply NoDup_app. split; [| split].
    + apply NoDup_app. split; [done |]. split; [| apply NoDup_singleton].
      intros x Hx ->%list_elem_of_singleton. apply (Hdisj j Hx). by left.
    + intros x Hx Hx'. apply release_avail_new in Hx'
        as [Hav | (Hr & _)]; [| done].
      apply elem_of_app in Hx as [Hx | ->%list_elem_of_singleton].
      * apply (Hdisj x Hx). by right.
      * done.
    + by apply release_avail_NoDup.
  - intros k. split.
    + intros Hk.
      assert (Hold : k ∈ result ++ j :: available \/
                     exists ds0, (k, ds0) ∈ deps0 /\
                       pending (result ++ [j]) ds0 = []).
      { apply elem_of_app in Hk as [Hk | Hk].
        - left. apply elem_of_app in Hk as [Hk | ->%list_elem_of_singleton].
          + apply elem_of_app. by left.
          + apply elem_of_app. right. by left.
        - apply release_avail_new in Hk
            as [Hav | (Hr & ds & Hds & Hj & Hnil)].
          + left. apply elem_of_app. right. by right.
          + right. rewrite Hcur in Hds.
            apply pending_deps_elem in Hds as (ds0 & Hds0 & ->).
            exists ds0. split; [done |]. by rewrite <- (Hrm k). }
      destruct Hold as [Hold | Hnew]; [| done].
      apply Hready in Hold as (ds0 & Hds0 & Hnil).
      exists ds0. split; [done |]. by rewrite pending_snoc, Hnil.
    + intros (ds0 & Hds0 & Hnil).
      destruct (pending result ds0) as [|d ds'] eqn:Hpend.
      * assert (Hold : k ∈ result ++ j :: available)
          by (apply Hready; eauto).
        apply elem_of_app in Hold as [Hr | Hav].
        -- apply elem_of_app. left. apply elem_of_app. by left.
        -- apply elem_of_cons in Hav as [-> | Hav].
           ++ apply elem_of_app. left. apply elem_of_app. right. by left.
           ++ apply elem_of_app. right. by apply release_avail_incl.
      * assert (Hj : j ∈ pending result ds0).
        { destruct (decide (j ∈ pending result ds0)) as [|Hn]; [done |].
          rewrite pending_snoc, filter_ne_notin, Hpend in Hnil; done. }
        assert (Hin : (k, pending result ds0) ∈ cur).
        { rewrite Hcur. unfold pending_deps. apply list_elem_of_fmap.
          by exists (k, ds0). }
        destruct (release_avail_complete j (result ++ [j]) cur available
                    k (pending result ds0) Hin Hj) as [Hr | Hav].
        -- by rewrite (Hrm k).
        -- apply elem_of_app. by left.
        -- apply elem_of_app. by right.
  - intros i k ds Hi Hds d Hd.
    destruct (decide (i < length result)%nat) as [Hlt | Hge].
    + rewrite lookup_app_l in Hi by done.
      rewrite take_app_le by lia. by apply (Hresp i k ds).
    + assert (i = length result) as ->.
      { apply lookup_lt_Some in Hi. rewrite length_app in Hi. simpl in Hi.
        lia. }
      rewrite list_lookup_middle in Hi by done. injection Hi as <-.
      rewrite take_app_length.
      assert (Hold : j ∈ result ++ j :: available)
        by (apply elem_of_app; right; by left).
      apply Hready in Hold as (ds' & Hds' & Hnil).
      rewrite (deps0_functional _ _ _ Hds Hds') in Hd.
      by apply (proj1 (pending_empty result ds') Hnil).
Qed.

Lemma kahn_inv_bound cur available result :
  kahn_inv deps0 cur available result ->
  (length result + length available <= length deps0)%nat.
Proof.
  intros [_ Hnd Hready _]. rewrite <- length_app, <- (length_map fst deps0).
  apply submseteq_length, NoDup_submseteq; [done |].
  intros k (ds & Hds & _)%Hready. apply list_elem_of_fmap. by exists (k, ds).
Qed.

(** The loop ends within the rounds it is given, and what it returns
    satisfies the invariant with nothing left in [available]. *)
Lemma kahn_loop_returns fuel cur available result :
  kahn_inv deps0 cur available result ->
  (length deps0 <= fuel + length result)%nat ->
  exists order cur',
    kahn_loop fuel cur available result = Some order /\
    kahn_inv deps0 cur' [] order.
Proof.
  revert cur available result.
  induction fuel as [|fuel IH]; intros cur available result Hinv Hfuel.
  - pose proof (kahn_inv_bound _ _ _ Hinv) as Hb.
    destruct available as [|j available]; [| simpl in Hb; lia].
    exists result, cur. done.
  - destruct available as [|j available]; [by exists result, cur |].
    simpl. pose proof (kahn_inv_step _ _ _ _ Hinv) as Hstep.
    destruct (release j (result ++ [j]) cur available) as [cur' av'].
    simpl in Hstep. apply (IH _ _ _ Hstep). rewrite length_app. simpl. lia.
Qed.

(** With nothing left to release, every key has been emitted. *)
Lemma kahn_final_complete cur order :
  kahn_inv deps0 cur [] order -> forall k, k ∈ map fst deps0 -> k ∈ order.
Proof.
  intros [_ _ Hready _].
  assert (Hall : forall n i k ds, (i < n)%nat ->
            deps0 !! i = Some (k, ds) -> k ∈ order).
  { induction n as [|n IHn]; intros i k ds Hi Hlook; [lia |].
    specialize (Hready k). rewrite app_nil_r in Hready. apply Hready.
    exists ds. split; [by eapply list_elem_of_lookup_2 |].
    apply pending_empty. intros d Hd.
    destruct (deps_earlier i k ds d Hlook Hd) as (j & kd & Hj & Hlookj).
    apply (IHn j d kd); [lia | done]. }
  intros k ([k' ds] & -> & Hin)%list_elem_of_fmap.
  apply list_elem_of_lookup in Hin as [i Hi].
  apply (Hall (S i) i k' ds); [lia | done].
Qed.

Lemma kahn_sorts :
  exists order,
    kahn_loop (length deps0) deps0 (initially_available deps0) [] = Some order
    /\ order ≡ₚ map fst deps0 /\ respects deps0 order.
Proof.
  destruct (kahn_loop_returns (length deps0) _ _ _ kahn_inv_init)
    as (order & cur & Hrun & Hinv); [simpl; lia |].
  exists order. split; [done |]. split; [| apply Hinv].
  apply NoDup_Permutation.
  - destruct Hinv as [_ Hnd _ _]. by rewrite app_nil_r in Hnd.
  - done.
  - intros k. split; [| by apply (kahn_final_complete cur)].
    destruct Hinv as [_ _ Hready _]. intros Hk.
    specialize (Hready k). rewrite app_nil_r in Hready.
    apply Hready in Hk as (ds & Hds & _).
    apply list_elem_of_fmap. by exists (k, ds).
Qed.
End Kahn.

(** ** The order of a plan's jobs *)

Lemma dict_set_fresh {V} (d : list (string * V)) (k : string) (v : V) :
  k ∉ map fst d -> dict_set d k v = d ++ [(k, v)].
Proof.
  induction d as [|[k' v'] d IH]; [done |]. simpl.
  intros [Hne Hk]%not_elem_of_cons.
  destruct (String.eqb_spec k' k) as [-> | _]; [done |]. by rewrite IH.
Qed.

Lemma build_job_deps_distinct (jobs : list JobDefinition) :
  NoDup (map job_id jobs) ->
  build_job_deps jobs
  = map (fun job => (job_id job, job_dependencies job)) jobs.
Proof.
  unfold build_job_deps.
  enough (Hgen : forall acc : list (string * list string),
            NoDup (map fst acc ++ map job_id jobs) ->
            fold_left (fun d job =>
                         dict_set d (job_id job) (job_dependencies job))
                      jobs acc
            = acc ++ map (fun job => (job_id job, job_dependencies job)) jobs)
    by (intros Hnd; by apply (Hgen [])).
  induction jobs as [|job jobs IH]; intros acc Hnd; simpl.
  { by rewrite app_nil_r. }
  simpl in Hnd. apply NoDup_app in Hnd as (Hacc & Hdisj & Hjobs).
  apply NoDup_cons in Hjobs as [Hjob Hjobs].
  rewrite dict_set_fresh by (intros Hin; apply (Hdisj _ Hin); by left).
  rewrite IH.
  - by rewrite <- app_assoc.
  - rewrite map_app. simpl. rewrite <- app_assoc. simpl.
    apply NoDup_app. split; [done |]. split.
    + intros x Hx. apply Hdisj in Hx. done.
    + by apply NoDup_cons.
Qed.

(** Jobs whose ids are distinct tags of distinct names have distinct
    ids. *)
Lemma tagged_ids_NoDup (prefix : string) (names : list string)
    (jobs : list JobDefinition) :
  (forall i job, jobs !! i = Some job ->
     exists a u, names !! i = Some a /\
       job_id job = prefix +:+ a +:+ "_" +:+ hex6 u) ->
  NoDup names -> NoDup (map job_id jobs).
Proof.
  intros Htag Hnames. apply NoDup_alt. intros i j x Hi Hj.
  rewrite list_lookup_fmap in Hi, Hj.
  destruct (jobs !! i) as [ji|] eqn:Hji; [| done].
  destruct (jobs !! j) as [jj|] eqn:Hjj; [| done].
  simpl in Hi, Hj. injection Hi as Hi. injection Hj as Hj.
  destruct (Htag _ _ Hji) as (a & u & Ha & Hida).
  destruct (Htag _ _ Hjj) as (b & v & Hb & Hidb).
  assert (a = b) as ->.
  { apply (tagged_id_inj prefix a b u v). congruence. }
  by apply (NoDup_lookup names i j b).
Qed.

Section PlanOrder.
Variable uuid4 : nat -> N.

Lemma customizing_loop_lookup_inv packages previous k i job :
  customizing_loop uuid4 packages previous k !! i = Some job ->
  exists pkg, packages !! i = Some pkg /\
    job_id job = "cust_" +:+ pkg_id pkg +:+ "_" +:+ hex6 (uuid4 (k + i)%nat) /\
    job_dependencies job =
      match i with
      | O => match previous with
             | Some p => if truthy (PStr p) then [p] else []
             | None => []
             end
      | S j =>
          match customizing_loop uuid4 packages previous k !! j with
          | Some before => [job_id before]
          | None => []
          end
      end.
Proof.
  intros Hjob.
  assert (Hlt : (i < length packages)%nat).
  { rewrite <- (customizing_loop_length uuid4 packages previous k).
    by eapply lookup_lt_Some. }
  apply lookup_lt_is_Some in Hlt as [pkg Hpkg]. exists pkg. split; [done |].
  destruct (customizing_loop_lookup uuid4 _ previous k _ _ Hpkg)
    as (job' & Hjob' & Hid & _ & _ & _ & _ & Hdeps).
  assert (job' = job) as -> by congruence. done.
Qed.

Lemma migration_loop_lookup_inv objects deps k i job :
  migration_loop uuid4 objects deps k !! i = Some job ->
  exists obj, objects !! i = Some obj /\
    job_id job = "migr_" +:+ obj_id obj +:+ "_" +:+ hex6 (uuid4 (k + i)%nat) /\
    job_dependencies job = deps.
Proof.
  intros Hjob.
  assert (Hlt : (i < length objects)%nat).
  { rewrite <- (migration_loop_length uuid4 objects deps k).
    by eapply lookup_lt_Some. }
  apply lookup_lt_is_Some in Hlt as [obj Hobj]. exists obj. split; [done |].
  destruct (migration_loop_lookup uuid4 _ deps k _ _ Hobj)
    as (job' & Hjob' & Hid & _ & _ & _ & _ & Hdeps).
  assert (job' = job) as -> by congruence. done.
Qed.

Lemma testing_loop_lookup_inv suites deps k i job :
  testing_loop uuid4 suites deps k !! i = Some job ->
  exists suite, suites !! i = Some suite /\
    job_id job
      = "test_" +:+ suite_id suite +:+ "_" +:+ hex6 (uuid4 (k + i)%nat) /\
    job_dependencies job = deps.
Proof.
  intros Hjob.
  assert (Hlt : (i < length suites)%nat).
  { rewrite <- (testing_loop_length uuid4 suites deps k).
    by eapply lookup_lt_Some. }
  apply lookup_lt_is_Some in Hlt as [suite Hsuite].
  exists suite. split; [done |].
  destruct (testing_loop_lookup uuid4 _ deps k _ _ Hsuite)
    as (job' & Hjob' & Hid & _ & _ & _ & _ & Hdeps).
  assert (job' = job) as -> by congruence. done.
Qed.

Variable run_id : string.
Variable model : ImplementationModel.

(** What semantic validation leaves true of a model: ids are unique
    within each phase. *)
Hypothesis package_ids_unique : NoDup (map pkg_id (customizing_packages model)).
Hypothesis object_ids_unique : NoDup (map obj_id (migration_objects model)).
Hypothesis suite_ids_unique : NoDup (map suite_id (testing_suites model)).

Let cj := customizing_loop uuid4 (customizing_packages model) None 0.
Let mj := migration_loop uuid4 (migration_objects model) (map job_id cj)
            (length cj).
Let tj := testing_loop uuid4 (testing_suites model) (map job_id mj)
            (length cj + length mj).

Lemma plan_jobs_phases :
  plan_jobs (create_plan uuid4 run_id model) = cj ++ mj ++ tj.
Proof. reflexivity. Qed.

Lemma cj_first_char job : job ∈ cj -> String.get 0 (job_id job) = Some "c"%char.
Proof.
  intros [i Hi]%list_elem_of_lookup.
  apply customizing_loop_lookup_inv in Hi as (pkg & _ & -> & _). reflexivity.
Qed.

Lemma mj_first_char job : job ∈ mj -> String.get 0 (job_id job) = Some "m"%char.
Proof.
  intros [i Hi]%list_elem_of_lookup.
  apply migration_loop_lookup_inv in Hi as (obj & _ & -> & _). reflexivity.
Qed.

Lemma tj_first_char job : job ∈ tj -> String.get 0 (job_id job) = Some "t"%char.
Proof.
  intros [i Hi]%list_elem_of_lookup.
  apply testing_loop_lookup_inv in Hi as (suite & _ & -> & _). reflexivity.
Qed.

Lemma cj_ids_NoDup : NoDup (map job_id cj).
Proof.
  apply (tagged_ids_NoDup "cust_" (map pkg_id (customizing_packages model)));
    [| done].
  intros i job (pkg & Hpkg & Hid & _)%customizing_loop_lookup_inv.
  exists (pkg_id pkg), (uuid4 (0 + i)%nat).
  by rewrite list_lookup_fmap, Hpkg.
Qed.

Lemma mj_ids_NoDup : NoDup (map job_id mj).
Proof.
  apply (tagged_ids_NoDup "migr_" (map obj_id (migration_objects model)));
    [| done].
  intros i job (obj & Hobj & Hid & _)%migration_loop_lookup_inv.
  exists (obj_id obj), (uuid4 (length cj + i)%nat).
  by rewrite list_lookup_fmap, Hobj.
Qed.

Lemma tj_ids_NoDup : NoDup (map job_id tj).
Proof.
  apply (tagged_ids_NoDup "test_" (map suite_id (testing_suites model)));
    [| done].
  intros i job (suite & Hsuite & Hid & _)%testing_loop_lookup_inv.
  exists (suite_id suite), (uuid4 (length cj + length mj + i)%nat).
  by rewrite list_lookup_fmap, Hsuite.
Qed.

Lemma plan_ids_NoDup :
  NoDup (map job_id (plan_jobs (create_plan uuid4 run_id model))).
Proof.
  rewrite plan_jobs_phases, !map_app.
  apply NoDup_app. split; [apply cj_ids_NoDup |]. split.
  - intros x (a & -> & Ha)%list_elem_of_fmap Hin.
    apply cj_first_char in Ha.
    apply elem_of_app in Hin as [Hin | Hin];
      apply list_elem_of_fmap in Hin as (b & Hb & Hin).
    + apply mj_first_char in Hin. rewrite Hb in Ha. congruence.
    + apply tj_first_char in Hin. rewrite Hb in Ha. congruence.
  - apply NoDup_app. split; [apply mj_ids_NoDup |].
    split; [| apply tj_ids_NoDup].
    intros x (a & -> & Ha)%list_elem_of_fmap (b & Hb & Hin)%list_elem_of_fmap.
    apply mj_first_char in Ha. apply tj_first_char in Hin.
    rewrite Hb in Ha. congruence.
Qed.

(** Where a job of the plan sits, and what it depends on. *)
Lemma plan_job_cases i job :
  (cj ++ mj ++ tj) !! i = Some job ->
  (cj !! i = Some job /\
   job_dependencies job =
     match i with
     | O => []
     | S j => match cj !! j with Some before => [job_id before] | None => [] end
     end) \/
  ((length cj <= i)%nat /\ job_dependencies job = map job_id cj) \/
  ((length cj + length mj <= i)%nat /\ job_dependencies job = map job_id mj).
Proof.
  intros Hi. apply lookup_app_Some in Hi as [Hi | [Hge Hi]].
  - left. split; [done |].
    by apply customizing_loop_lookup_inv in Hi as (pkg & _ & _ & ->).
  - right. apply lookup_app_Some in Hi as [Hi | [Hge' Hi]].
    + left. split; [done |].
      by apply migration_loop_lookup_inv in Hi as (obj & _ & _ & ->).
    + right. split; [lia |].
      by apply testing_loop_lookup_inv in Hi as (suite & _ & _ & ->).
Qed.

Lemma plan_deps_NoDup job :
  job ∈ cj ++ mj ++ tj -> NoDup (job_dependencies job).
Proof.
  intros [i Hi]%list_elem_of_lookup.
  destruct (plan_job_cases i job Hi) as [[_ ->] | [[_ ->] | [_ ->]]].
  - destruct i; [constructor |]. destruct (cj !! i); [| constructor].
    apply NoDup_singleton.
  - apply cj_ids_NoDup.
  - apply mj_ids_NoDup.
Qed.

Lemma plan_deps_earlier i job d :
  (cj ++ mj ++ tj) !! i = Some job -> d ∈ job_dependencies job ->
  exists j before,
    (j < i)%nat /\ (cj ++ mj ++ tj) !! j = Some before /\ job_id before = d.
Proof.
  intros Hi Hd.
  destruct (plan_job_cases i job Hi) as [[Hc Hdeps] | [[Hge Hdeps] | [Hge Hdeps]]];
    rewrite Hdeps in Hd.
  - destruct i as [|i]; [by apply elem_of_nil in Hd |].
    destruct (cj !! i) as [before|] eqn:Hb; [| by apply elem_of_nil in Hd].
    apply list_elem_of_singleton in Hd as ->.
    exists i, before. split; [lia |]. split; [| done].
    by apply lookup_app_l_Some.
  - apply list_elem_of_fmap in Hd as (before & -> & [j Hj]%list_elem_of_lookup).
    exists j, before. split; [| split; [by apply lookup_app_l_Some | done]].
    apply lookup_lt_Some in Hj. lia.
  - apply list_elem_of_fmap in Hd as (before & -> & [j Hj]%list_elem_of_lookup).
    exists (length cj + j)%nat, before.
    split; [apply lookup_lt_Some in Hj; lia |]. split; [| done].
    rewrite lookup_app_r by lia.
    replace (length cj + j - length cj)%nat with j by lia.
    by apply lookup_app_l_Some.
Qed.

(** C8. For every plan that [create_plan] builds from a validated model
    (ids unique within each phase), [get_job_order] returns an order, the
    order is a permutation of the plan's job ids, and every job id comes
    after every id in that job's dependency list. *)
Theorem get_job_order_topological :
  exists order,
    get_job_order (create_plan uuid4 run_id model) = Some order /\
    order ≡ₚ map job_id (plan_jobs (create_plan uuid4 run_id model)) /\
    forall job d,
      job ∈ plan_jobs (create_plan uuid4 run_id model) ->
      d ∈ job_dependencies job ->
      exists i j, order !! i = Some d /\ order !! j = Some (job_id job) /\
                  (i < j)%nat.
Proof.
  unfold get_job_order.
  rewrite (build_job_deps_distinct _ plan_ids_NoDup), plan_jobs_phases.
  set (jobs := cj ++ mj ++ tj).
  set (deps0 := map (fun job => (job_id job, job_dependencies job)) jobs).
  assert (Hkeys : map fst deps0 = map job_id jobs).
  { unfold deps0. rewrite map_map. done. }
  destruct (kahn_sorts deps0) as (order & Hrun & Hperm & Hresp).
  - rewrite Hkeys. subst jobs. rewrite <- plan_jobs_phases.
    apply plan_ids_NoDup.
  - intros k ds (job & [= -> ->] & Hjob)%list_elem_of_fmap.
    by apply plan_deps_NoDup.
  - intros i k ds d Hi Hd. unfold deps0 in Hi.
    rewrite list_lookup_fmap in Hi.
    destruct (jobs !! i) as [job|] eqn:Hjob; [| done].
    injection Hi as <- <-.
    destruct (plan_deps_earlier i job d Hjob Hd) as (j & before & Hj & Hb & <-).
    exists j, (job_dependencies before). split; [done |].
    unfold deps0, jobs. by rewrite list_lookup_fmap, Hb.
  - exists order. split; [done |]. split; [by rewrite <- Hkeys |].
    intros job d Hjob Hd.
    assert (Hin : job_id job ∈ order).
    { rewrite Hperm, Hkeys. apply list_elem_of_fmap. by exists job. }
    apply list_elem_of_lookup in Hin as [j Hj].
    assert (Hd' : d ∈ take j order).
    { apply (Hresp j (job_id job) (job_dependencies job)); [done | | done].
      unfold deps0. apply list_elem_of_fmap. by exists job. }
    apply list_elem_of_lookup in Hd' as [i Hi].
    exists i, j.
    assert (i < j)%nat.
    { apply lookup_lt_Some in Hi. rewrite length_take in Hi. lia. }
    rewrite lookup_take_lt in Hi by done. done.
Qed.
End PlanOrder.

(** ** The executor *)

Section ExecutorFacts.
Context {A S : Type} `{SAPAdapter A} `{StorageManager S}.
Variable registry : list (string * Plugin A).
Variable factory : list (string * (string -> string -> outcome A)).
Variable run_id : string.
Variable model : ImplementationModel.

Implicit Types (st : LoopState A S) (ex : JobExecutor A S).
Implicit Types (job : JobDefinition) (plan : ExecutionPlan).

Lemma execute_loop_Ret plan jobs st st' :
  execute_loop run_id plan model jobs st = Ret st' ->
  st' = fold_left (execute_step run_id model) jobs st.
Proof.
  revert st. induction jobs as [|job jobs IH]; intros st; simpl.
  - by intros [= <-].
  - destruct (plan_total_jobs plan =? 0); [done |]. apply IH.
Qed.

Lemma execute_loop_counted plan jobs st st' :
  execute_loop run_id plan model jobs st = Ret st' ->
  jobs = [] \/ plan_total_jobs plan <> 0.
Proof.
  destruct jobs as [|job jobs]; [by left |]. simpl.
  destruct (Z.eqb_spec (plan_total_jobs plan) 0); [done |]. by right.
Qed.

(** Once [stop_execution] is set, the rest of the plan is skipped and the
    executor is left alone. *)
Lemma skip_remaining jobs st :
  stop_execution st = true ->
  fold_left (execute_step run_id model) jobs st
  = {| job_results := job_results st ++ map skipped_result jobs;
       completed := completed st;
       failed := failed st;
       skipped := skipped st + Z.of_nat (length jobs);
       stop_execution := true;
       executor := executor st |}.
Proof.
  revert st. induction jobs as [|job jobs IH]; intros st Hstop; simpl.
  - destruct st. simpl in *. subst. by rewrite app_nil_r, Z.add_0_r.
  - rewrite IH; unfold execute_step; rewrite Hstop; simpl; [| done].
    rewrite <- app_assoc. simpl. f_equal. lia.
Qed.

(** A job whose step leaves a result that is not [COMPLETED] or [SKIPPED]
    sets [stop_execution]. *)
Lemma failed_result_stops st job r :
  r ∈ drop (length (job_results st))
        (job_results (execute_step run_id model st job)) ->
  res_status r = FAILED ->
  stop_execution (execute_step run_id model st job) = true.
Proof.
  unfold execute_step. destruct (stop_execution st) eqn:Hstop.
  - simpl. rewrite drop_app_length.
    intros ->%list_elem_of_singleton. done.
  - destruct (_execute_job job model run_id (executor st)) as [[result | e] ex1];
      [| done].
    destruct (save_job_result _ _ _ _ _) as [[path | e] st1]; [| done].
    case_decide as Hc; [| done]. simpl. rewrite drop_app_length.
    intros ->%list_elem_of_singleton. simpl. congruence.
Qed.

Lemma disconnect_all_spec items ex :
  exists ex',
    disconnect_all items ex = (Ret (), ex') /\
    calls ex' = calls ex ++ map EvDisconnect (map fst items) /\
    _adapters ex' = _adapters ex /\
    (forall entry, entry ∈ logger ex -> entry ∈ logger ex') /\
    (forall system_id adapter e,
       (system_id, adapter) ∈ items ->
       (disconnect adapter).1 = Raise e ->
       ("WARNING",
        "Error disconnecting adapter " +:+ system_id +:+ ": " +:+ e)
       ∈ logger ex').
Proof.
  revert ex. induction items as [|[system_id adapter] items IH]; intros ex.
  - exists ex. simpl. rewrite app_nil_r. repeat split; try done.
    intros ? ? ? Hin. by apply elem_of_nil in Hin.
  - simpl. destruct (disconnect adapter) as [[[] | e] adapter'] eqn:Hd.
    + destruct (IH (record_call ex (EvDisconnect system_id)))
        as (ex' & Hrun & Hcalls & Hpool & Hlog & Hwarn).
      exists ex'. split; [done |]. simpl in *.
      rewrite Hcalls, <- app_assoc. repeat split; try done.
      intros sid a e [[= -> ->] | Hin]%elem_of_cons Hr.
      * rewrite Hd in Hr. done.
      * by apply (Hwarn sid a e).
    + destruct (IH (log_record (record_call ex (EvDisconnect system_id))
                      "WARNING"
                      ("Error disconnecting adapter " +:+ system_id +:+ ": "
                         +:+ e)))
        as (ex' & Hrun & Hcalls & Hpool & Hlog & Hwarn).
      exists ex'. split; [done |]. simpl in *.
      rewrite Hcalls, <- app_assoc. repeat split; try done.
      * intros entry Hin. apply Hlog, elem_of_app. by left.
      * intros sid a e' [[= -> ->] | Hin]%elem_of_cons Hr.
        -- rewrite Hd in Hr. simpl in Hr. injection Hr as <-.
           apply Hlog, elem_of_app. right. by left.
        -- by apply (Hwarn sid a e').
Qed.

Lemma cleanup_spec ex :
  exists ex',
    _cleanup ex = (Ret (), ex') /\
    _adapters ex' = [] /\
    _current_run ex' = None /\
    calls ex' = calls ex ++ map EvDisconnect (dict_keys (_adapters ex)) /\
    (forall system_id adapter e,
       (system_id, adapter) ∈ _adapters ex ->
       (disconnect adapter).1 = Raise e ->
       ("WARNING",
        "Error disconnecting adapter " +:+ system_id +:+ ": " +:+ e)
       ∈ logger ex').
Proof.
  unfold _cleanup.
  destruct (disconnect_all_spec (_adapters ex) ex)
    as (ex1 & -> & Hcalls & _ & _ & Hwarn).
  eexists. split; [reflexivity |]. simpl. repeat split; done.
Qed.

(** What a run that returns has gone through. *)
Lemma execute_returns plan ex summary ex' :
  JobExecutor_execute registry factory run_id plan model ex
    = (Ret summary, ex') ->
  exists ex2 st,
    prepare registry factory run_id plan model ex = (Ret (), ex2) /\
    st = fold_left (execute_step run_id model) (plan_jobs plan)
           (initial_state ex2) /\
    (plan_jobs plan = [] \/ plan_total_jobs plan <> 0) /\
    summary = summarize run_id plan model st /\
    _adapters ex' = [] /\
    exists systems, calls ex' = calls (executor st) ++ map EvDisconnect systems.
Proof.
  unfold JobExecutor_execute.
  destruct (prepare _ _ _ _ _ ex) as [[[] | e] ex2] eqn:Hprep; [| done].
  destruct (execute_loop _ _ _ _ _) as [st | e] eqn:Hloop; [| done].
  destruct (save_summary _ _ _) as [[[] | e] st1]; [| done].
  destruct (save_artifact _ _ _ _ _) as [[path | e] st2]; [| done].
  destruct (cleanup_spec (set_storage (executor st) st2))
    as (ex4 & -> & Hpool & _ & Hcalls & _).
  intros [= <- <-]. exists ex2, st. split; [done |].
  split; [by apply execute_loop_Ret in Hloop |].
  split; [by apply execute_loop_counted in Hloop |].
  split; [done |]. split; [done |]. eexists. exact Hcalls.
Qed.

(** C1. Fail-fast: in every run [execute] completes, once the step of a
    job has left a result with status [FAILED], every job after it in the
    plan's order gets a [SKIPPED] result with the message
    ["Skipped due to previous failure"], and no handler is called for any
    of them: after the failing step the only calls are the disconnects of
    the cleanup. *)
Theorem fail_fast_law plan ex summary ex' pre job post failure :
  JobExecutor_execute registry factory run_id plan model ex
    = (Ret summary, ex') ->
  plan_jobs plan = pre ++ job :: post ->
  forall ex2, prepare registry factory run_id plan model ex = (Ret (), ex2) ->
  forall before after,
    before = fold_left (execute_step run_id model) pre (initial_state ex2) ->
    after = execute_step run_id model before job ->
    failure ∈ drop (length (job_results before)) (job_results after) ->
    res_status failure = FAILED ->
    sum_job_results summary = job_results after ++ map skipped_result post /\
    Forall (fun r => res_status r = SKIPPED /\
                     res_error_message r
                       = Some "Skipped due to previous failure")
           (map skipped_result post) /\
    map res_job_id (map skipped_result post) = map job_id post /\
    sum_skipped_jobs summary = skipped after + Z.of_nat (length post) /\
    exists systems,
      calls ex' = calls (executor after) ++ map EvDisconnect systems.
Proof.
  intros Hrun Hjobs ex2 Hprep before after -> -> Hin Hfailed.
  apply execute_returns in Hrun
    as (ex2' & st & Hprep' & -> & _ & -> & _ & systems & Hcalls).
  assert (ex2' = ex2) as -> by congruence.
  pose proof (failed_result_stops _ _ _ Hin Hfailed) as Hstop.
  rewrite Hjobs, fold_left_app in Hcalls |- *. simpl in Hcalls |- *.
  rewrite (skip_remaining post _ Hstop) in Hcalls |- *. simpl in *.
  split; [done |]. split.
  - apply Forall_forall. intros r (j & -> & _)%list_elem_of_fmap. done.
  - split; [by rewrite map_map |]. split; [done |]. by exists systems.
Qed.

(** *** Counters *)

Lemma counted_step n st job :
  counted n st -> counted (n + 1) (execute_step run_id model st job).
Proof.
  unfold counted, execute_step. intros (Hsum & Hc & Hf & Hs & Hgo & Hstop).
  destruct (stop_execution st) eqn:Hflag.
  - simpl. specialize (Hstop eq_refl). repeat split; try lia; done.
  - destruct (Hgo eq_refl) as [Hf0 Hs0].
    destruct (_execute_job job model run_id (executor st)) as [[result | e] ex1].
    + destruct (save_job_result _ _ _ _ _) as [[path | e] st1].
      * case_decide; simpl; repeat split; try lia; try done.
      * simpl. repeat split; try lia; done.
    + simpl. repeat split; try lia; done.
Qed.

Lemma counted_fold jobs n st :
  counted n st ->
  counted (n + Z.of_nat (length jobs))
          (fold_left (execute_step run_id model) jobs st).
Proof.
  revert n st. induction jobs as [|job jobs IH]; intros n st Hc.
  - simpl. by rewrite Z.add_0_r.
  - cbn [length fold_left]. rewrite Nat2Z.inj_succ.
    replace (n + Z.succ (Z.of_nat (length jobs)))
      with (n + 1 + Z.of_nat (length jobs)) by lia.
    apply IH. by apply counted_step.
Qed.

(** C4. For every run on a plan built by [create_plan], the summary that
    [execute] returns has [completed_jobs + failed_jobs + skipped_jobs =
    total_jobs]; a skipped job implies a failed one; and the run status is
    [COMPLETED] exactly when no job failed and none was skipped, [FAILED]
    otherwise. *)
Theorem run_summary_counts (uuid4 : nat -> N) (plan_run : string)
    (planned : ImplementationModel) ex summary ex' :
  JobExecutor_execute registry factory run_id
    (create_plan uuid4 plan_run planned) model ex = (Ret summary, ex') ->
  sum_completed_jobs summary + sum_failed_jobs summary
    + sum_skipped_jobs summary = sum_total_jobs summary /\
  (sum_skipped_jobs summary > 0 -> sum_failed_jobs summary >= 1) /\
  (sum_status summary = RUN_COMPLETED <->
     sum_failed_jobs summary = 0 /\ sum_skipped_jobs summary = 0) /\
  (sum_status summary <> RUN_COMPLETED -> sum_status summary = RUN_FAILED).
Proof.
  intros (ex2 & st & _ & Hst & _ & -> & _)%execute_returns.
  assert (Hc : counted (0 + Z.of_nat (length (plan_jobs
                  (create_plan uuid4 plan_run planned)))) st).
  { rewrite Hst. apply counted_fold. unfold counted. simpl.
    repeat split; try lia; done. }
  destruct Hc as (Hsum & Hc & Hf & Hs & Hgo & Hstop).
  unfold summarize.
  cbn [sum_completed_jobs sum_failed_jobs sum_skipped_jobs sum_total_jobs
       sum_status].
  change (plan_total_jobs (create_plan uuid4 plan_run planned))
    with (Z.of_nat (length (plan_jobs (create_plan uuid4 plan_run planned)))).
  split; [lia |]. split.
  - intros Hsk. destruct (stop_execution st) eqn:Hflag.
    + specialize (Hstop eq_refl). lia.
    + destruct (Hgo eq_refl). lia.
  - destruct (Z.eqb_spec (failed st) 0), (Z.eqb_spec (skipped st) 0);
      simpl; split; try split; intros; try done; try lia;
      destruct_and?; try done.
Qed.
End ExecutorFacts.

(** ** The adapter pool *)

Lemma dict_set_keys {V} (d : list (string * V)) (k : string) (v : V) :
  dict_keys (dict_set d k v)
  = if dict_contains d k then dict_keys d else dict_keys d ++ [k].
Proof.
  unfold dict_contains, dict_keys.
  induction d as [|[k' v'] d IH]; [done |]. simpl.
  destruct (String.eqb k' k); [done |]. simpl. rewrite IH.
  by destruct (dict_get d k).
Qed.

Lemma dict_get_None {V} (d : list (string * V)) (k : string) :
  dict_get d k = None <-> k ∉ dict_keys d.
Proof.
  unfold dict_keys. induction d as [|[k' v'] d IH]; simpl.
  - split; [intros _; apply not_elem_of_nil | done].
  - destruct (String.eqb_spec k' k) as [-> | Hne].
    + split; [done |]. intros Hn. exfalso. apply Hn. by left.
    + rewrite IH, not_elem_of_cons. split; [| tauto]. intros ?. split; congruence.
Qed.

Lemma dict_set_keys_NoDup {V} (d : list (string * V)) (k : string) (v : V) :
  NoDup (dict_keys d) -> NoDup (dict_keys (dict_set d k v)).
Proof.
  intros Hnd. rewrite dict_set_keys. unfold dict_contains.
  destruct (dict_get d k) eqn:Hget; [done |].
  apply dict_get_None in Hget. apply NoDup_app. split; [done |].
  split; [| apply NoDup_singleton].
  intros x Hx ->%list_elem_of_singleton. done.
Qed.

Lemma dict_get_set_eq {V} (d : list (string * V)) (k : string) (v : V) :
  dict_get (dict_set d k v) k = Some v.
Proof.
  induction d as [|[k' v'] d IH]; simpl.
  - by rewrite String.eqb_refl.
  - destruct (String.eqb_spec k' k) as [-> | Hne]; simpl.
    + by rewrite String.eqb_refl.
    + by destruct (String.eqb_spec k' k).
Qed.

Section AdapterPool.
Context {A S : Type} `{SAPAdapter A} `{StorageManager S}.
Variable registry : list (string * Plugin A).
Variable factory : list (string * (string -> string -> outcome A)).
Variable run_id : string.
Variable model : ImplementationModel.

Implicit Types (st : LoopState A S) (ex : JobExecutor A S).














End AdapterPool.

(** ** The parser *)

Lemma size_list_to_set_le (l : list string) :
  (size (list_to_set l : gset string) <= length l)%nat.
Proof.
  induction l as [|x l IH].
  - by rewrite list_to_set_nil, size_empty.
  - rewrite list_to_set_cons, size_union_alt, size_singleton. simpl.
    assert (Hle : (size (list_to_set l ∖ {[x]} : gset string)
                   <= size (list_to_set l : gset string))%nat).
    { apply subseteq_size, subseteq_difference_l. done. }
    lia.
Qed.

Lemma has_duplicates_false (ids : list string) :
  has_duplicates ids = false <-> NoDup ids.
Proof.
  unfold has_duplicates. rewrite negb_false_iff, Nat.eqb_eq. split.
  - induction ids as [|x ids IH]; [constructor |].
    rewrite list_to_set_cons. simpl. intros Hsize.
    destruct (decide (x ∈ ids)) as [Hin | Hnotin].
    + assert (Heq : ({[x]} ∪ list_to_set ids : gset string) = list_to_set ids).
      { apply subseteq_union_1_L, singleton_subseteq_l, elem_of_list_to_set.
        exact Hin. }
      rewrite Heq in Hsize. pose proof (size_list_to_set_le ids). lia.
    + apply NoDup_cons. split; [done |]. apply IH.
      rewrite size_union in Hsize.
      * rewrite size_singleton in Hsize. lia.
      * apply disjoint_singleton_l. by rewrite elem_of_list_to_set.
  - intros Hnd. symmetry. by apply size_list_to_set.
Qed.

Lemma has_duplicates_true (ids : list string) (i j : nat) (x : string) :
  i <> j -> ids !! i = Some x -> ids !! j = Some x ->
  has_duplicates ids = true.
Proof.
  intros Hne Hi Hj. destruct (has_duplicates ids) eqn:Hd; [done |].
  apply has_duplicates_false in Hd.
  by pose proof (NoDup_lookup ids i j x Hd Hi Hj).
Qed.

Section ParserFacts.
Variable safe_load : string -> yaml_load.
Variable pydantic_build : list (string * pyval) -> build_outcome.

(** C6. For a configuration that passes the syntax, structure and schema
    stages: when the landscape declares no system and ids are unique in
    each phase, [parse] succeeds whatever target systems the packages,
    objects and suites name; and when two migration objects share an id,
    [parse] fails with the semantic error that names the migration
    phase. *)
Theorem semantic_validation_rules (yaml_content : string)
    (config : list (string * pyval)) (model : ImplementationModel) :
  safe_load yaml_content = Loaded (PDict config) ->
  _validate_structure config = [] ->
  pydantic_build config = Built model ->
  (landscape_systems model = [] ->
   NoDup (map pkg_id (customizing_packages model)) ->
   NoDup (map obj_id (migration_objects model)) ->
   NoDup (map suite_id (testing_suites model)) ->
   parse safe_load pydantic_build yaml_content = Parsed model) /\
  (forall i j a b,
     i <> j ->
     migration_objects model !! i = Some a ->
     migration_objects model !! j = Some b ->
     obj_id a = obj_id b ->
     exists e,
       parse safe_load pydantic_build yaml_content = ParserErrorRaised e /\
       pe_message e = "Semantic validation failed" /\
       "Duplicate migration object IDs found" ∈ pe_errors e).
Proof.
  intros Hload Hstruct Hbuild.
  unfold parse, _parse_yaml. rewrite Hload, Hstruct, Hbuild. split.
  - intros Hsys Hp Ho Hs. unfold _validate_semantics. rewrite Hsys. simpl.
    apply has_duplicates_false in Hp, Ho, Hs. rewrite Hp, Ho, Hs.
    case_decide; [done |]. exfalso. eauto.
  - intros i j a b Hne Ha Hb Hid.
    assert (Hdup : has_duplicates (map obj_id (migration_objects model)) = true).
    { apply (has_duplicates_true _ i j (obj_id a) Hne).
      - by rewrite list_lookup_fmap, Ha.
      - by rewrite list_lookup_fmap, Hb, Hid. }
    assert (Hin : "Duplicate migration object IDs found"
                  ∈ _validate_semantics model).
    { unfold _validate_semantics. rewrite Hdup.
      apply elem_of_app. right. apply elem_of_app. right.
      apply elem_of_app. left. by left. }
    destruct (_validate_semantics model) as [|e es];
      [by apply elem_of_nil in Hin |].
    eexists. split; [reflexivity |]. split; done.
Qed.

(** C5, as the code has it. Every [ParserError] that [parse] raises has a
    message; its list of messages is non-empty when the document was
    loaded as a mapping (the failure then comes from the structure, schema
    or semantic stage) and empty otherwise, that is for a document that is
    not valid YAML, is empty, or is not a mapping at top level. *)
Theorem parser_error_messages (yaml_content : string) (e : ParserError) :
  parse safe_load pydantic_build yaml_content = ParserErrorRaised e ->
  pe_message e <> "" /\
  match safe_load yaml_content with
  | Loaded (PDict _) => pe_errors e <> []
  | _ => pe_errors e = []
  end.
Proof.
  unfold parse, _parse_yaml.
  destruct (safe_load yaml_content) as [err | [ | b | z | s | l | config]];
    try (intros [= <-]; by split).
  destruct (_validate_structure config) as [|e1 es1];
    [| intros [= <-]; by split].
  destruct (pydantic_build config) as [model | first others | msg];
    [| intros [= <-]; by split | done].
  destruct (_validate_semantics model) as [|e2 es2]; [done |].
  intros [= <-]. by split.
Qed.
End ParserFacts.

(** C5, as stated, fails: an empty document, a document whose top level is
    a list and a document with a syntax error each make [parse] fail with a
    [ParserError] whose list of messages is empty. *)
Lemma parse_failures_without_messages :
  (exists e, parse sample_safe_load sample_build "" = ParserErrorRaised e /\
             pe_errors e = []) /\
  (exists e, parse sample_safe_load sample_build "[just, a list]"
             = ParserErrorRaised e /\ pe_errors e = []) /\
  (exists e, parse sample_safe_load sample_build "{project: [" 
             = ParserErrorRaised e /\ pe_errors e = []).
Proof. repeat split; eexists; split; reflexivity. Qed.

Lemma parser_error_messages_witness :
  parse sample_safe_load sample_build doc_duplicate_objects
    = ParserErrorRaised
        {| pe_message := "Semantic validation failed";
           pe_errors := ["Duplicate migration object IDs found"] |} /\
  pe_message {| pe_message := "Semantic validation failed";
                pe_errors := ["Duplicate migration object IDs found"] |}
    <> "" /\
  match sample_safe_load doc_duplicate_objects with
  | Loaded (PDict _) =>
      pe_errors {| pe_message := "Semantic validation failed";
                   pe_errors := ["Duplicate migration object IDs found"] |}
        <> []
  | _ =>
      pe_errors {| pe_message := "Semantic validation failed";
                   pe_errors := ["Duplicate migration object IDs found"] |}
        = []
  end.
Proof.
  assert (Hrun : parse sample_safe_load sample_build doc_duplicate_objects
                 = ParserErrorRaised
                     {| pe_message := "Semantic validation failed";
                        pe_errors := ["Duplicate migration object IDs found"] |})
    by (vm_compute; reflexivity).
  split; [exact Hrun |].
  exact (parser_error_messages sample_safe_load sample_build _ _ Hrun).
Defined.

Lemma semantic_validation_rules_witness :
  parse sample_safe_load sample_build doc_unknown_target
    = Parsed model_unknown_target /\
  exists e,
    parse sample_safe_load sample_build doc_duplicate_objects
      = ParserErrorRaised e /\
    pe_message e = "Semantic validation failed" /\
    "Duplicate migration object IDs found" ∈ pe_errors e.
Proof.
  split.
  - apply (semantic_validation_rules sample_safe_load sample_build
             doc_unknown_target config_unknown_target model_unknown_target);
      try (vm_compute; reflexivity); simpl.
    + apply NoDup_singleton.
    + apply NoDup_nil_2.
    + apply NoDup_nil_2.
  - apply (semantic_validation_rules sample_safe_load sample_build
             doc_duplicate_objects config_duplicate_objects
             model_duplicate_objects ltac:(vm_compute; reflexivity)
             ltac:(vm_compute; reflexivity) ltac:(vm_compute; reflexivity))
      with (i := 0%nat) (j := 1%nat) (a := default_object "MAT")
           (b := default_object "MAT"); [lia | done | done | done].
Defined.

(** ** The customizing and testing handlers *)

Section HandlerFacts.
Context {A : Type} `{SAPAdapter A}.
Variable random : nat -> Q.












(** C10. A customizing package without steps and a test suite without
    cases come back [COMPLETED] with [records_processed = 0], although
    nothing succeeded. *)
Theorem empty_work_completes :
  (forall (env : Env A) (config : list (string * pyval)),
     get_default config "steps" (PList []) = PList [] ->
     exists r env',
       customizing_execute env config = (Ret r, env') /\
       res_status r = COMPLETED /\
       res_records_processed r = 0 /\
       res_records_success r = 0) /\
  (forall (env : Env A) (config : list (string * pyval)),
     get_default config "cases" (PList []) = PList [] ->
     exists r env',
       testing_execute random env config = (Ret r, env') /\
       res_status r = COMPLETED /\
       res_records_processed r = 0 /\
       res_records_success r = 0).
Proof.
  split; intros env config Hempty.
  - unfold customizing_execute. rewrite Hempty. simpl.
    eexists _, _. split; [reflexivity |]. done.
  - unfold testing_execute. rewrite Hempty. simpl.
    eexists _, _. split; [reflexivity |]. done.
Qed.
End HandlerFacts.

(** ** The pipeline on the sample inputs *)

(** The scenario of two customizing packages and no declared system: the
    model of [customizing_model] gives a plan of two jobs, the second
    depending on the first, and the order [P1, P2]. *)
Example two_packages_plan :
  let plan := create_plan sample_uuid4 "run1" customizing_model in
  plan_total_jobs plan = 2 /\
  map job_dependencies (plan_jobs plan) = [[]; ["cust_P1_000000"]] /\
  get_job_order plan = Some ["cust_P1_000000"; "cust_P2_000001"].
Proof. vm_compute. done. Qed.

Lemma pair_of_fst {X Y : Type} (p : X * Y) (x : X) : p.1 = x -> p = (x, p.2).
Proof. destruct p. simpl. by intros ->. Qed.

Lemma returned_Ret {X : Type} (o : outcome X) (x : X) :
  returned o = Some x -> o = Ret x.
Proof. destruct o; simpl; congruence. Qed.

(** C3 on the code. In a run of two customizing jobs the handler of the
    first job stores its entry in the bag of its context, and the handler
    of the second job is handed an empty bag: the executor builds a new
    context, with a new bag, for every job. *)
Lemma shared_bag_is_fresh_per_job :
  let plan := create_plan sample_uuid4 "run1" customizing_model in
  let run := JobExecutor_execute sample_registry sample_factory "run1" plan
               customizing_model sample_executor in
  sum_status <$> returned run.1 = Some RUN_COMPLETED /\
  calls run.2 =
    [EvCreateAdapter "DEV" "100"; EvConnect "DEV";
     EvValidate "cust_P1_000000"; EvExecute "cust_P1_000000" ∅;
     EvValidate "cust_P2_000001"; EvExecute "cust_P2_000001" ∅;
     EvDisconnect "DEV"] /\
  (job_config <$> plan_jobs plan !! 0%nat) ≫= (fun config =>
     ctx_shared_state (env_ctx (customizing_execute sample_env config).2)
       !! "customizing_P1")
  = Some (PDict [("success", PBool true); ("steps_executed", PInt 1)]) /\
  (∅ : gmap string pyval) !! "customizing_P1" = None.
Proof. cbn zeta. repeat split; vm_compute; reflexivity. Qed.

Lemma get_job_order_topological_witness :
  exists order,
    get_job_order (create_plan sample_uuid4 "run1" sample_model) = Some order /\
    order ≡ₚ map job_id (plan_jobs (create_plan sample_uuid4 "run1" sample_model)) /\
    forall job d,
      job ∈ plan_jobs (create_plan sample_uuid4 "run1" sample_model) ->
      d ∈ job_dependencies job ->
      exists i j, order !! i = Some d /\ order !! j = Some (job_id job) /\
                  (i < j)%nat.
Proof.
  apply (get_job_order_topological sample_uuid4 "run1" sample_model).
  - simpl. apply NoDup_cons. split; [| apply NoDup_singleton].
    intros Hin%list_elem_of_singleton. discriminate Hin.
  - simpl. apply NoDup_singleton.
  - simpl. apply NoDup_singleton.
Defined.

Lemma run_summary_counts_witness :
  match (JobExecutor_execute sample_registry sample_factory "run1"
           (create_plan sample_uuid4 "run1" sample_model) sample_model
           sample_executor).1 with
  | Ret summary =>
      sum_completed_jobs summary + sum_failed_jobs summary
        + sum_skipped_jobs summary = sum_total_jobs summary /\
      (sum_skipped_jobs summary > 0 -> sum_failed_jobs summary >= 1) /\
      (sum_status summary = RUN_COMPLETED <->
         sum_failed_jobs summary = 0 /\ sum_skipped_jobs summary = 0) /\
      (sum_status summary <> RUN_COMPLETED -> sum_status summary = RUN_FAILED)
  | Raise _ => False
  end.
Proof.
  destruct (JobExecutor_execute sample_registry sample_factory "run1"
              (create_plan sample_uuid4 "run1" sample_model) sample_model
              sample_executor).1 as [summary | msg] eqn:Hrun.
  - apply pair_of_fst in Hrun.
    exact (run_summary_counts sample_registry sample_factory "run1"
             sample_model sample_uuid4 "run1" sample_model sample_executor
             summary _ Hrun).
  - apply (f_equal (fun o => bool_decide (is_Some (returned o)))) in Hrun.
    vm_compute in Hrun. discriminate Hrun.
Defined.

Lemma fail_fast_law_witness :
  let plan := create_plan sample_uuid4 "run1" failing_model in
  let run := JobExecutor_execute sample_registry sample_factory "run1" plan
               failing_model sample_executor in
  let ex2 := (prepare sample_registry sample_factory "run1" plan
                failing_model sample_executor).2 in
  match plan_jobs plan, run.1 with
  | job :: post, Ret summary =>
      let after :=
        execute_step "run1" failing_model (initial_state ex2) job in
      map res_status (job_results after) = [FAILED] /\
      length post = 2%nat /\
      sum_job_results summary = job_results after ++ map skipped_result post /\
      Forall (fun r => res_status r = SKIPPED /\
                       res_error_message r
                         = Some "Skipped due to previous failure")
             (map skipped_result post) /\
      map res_job_id (map skipped_result post) = map job_id post /\
      sum_skipped_jobs summary = skipped after + Z.of_nat (length post) /\
      exists systems,
        calls run.2 = calls (executor after) ++ map EvDisconnect systems
  | _, _ => False
  end.
Proof.
  cbn zeta.
  set (plan := create_plan sample_uuid4 "run1" failing_model).
  set (run := JobExecutor_execute sample_registry sample_factory "run1" plan
                failing_model sample_executor).
  set (prep := prepare sample_registry sample_factory "run1" plan
                 failing_model sample_executor).
  assert (Hprep : prep = (Ret (), prep.2)).
  { apply pair_of_fst, returned_Ret. vm_compute. reflexivity. }
  destruct (plan_jobs plan) as [|job post] eqn:Hjobs;
    [vm_compute in Hjobs; discriminate Hjobs |].
  assert (Hpost : length post = 2%nat).
  { apply (f_equal length) in Hjobs. vm_compute in Hjobs. by injection Hjobs. }
  destruct run.1 as [summary | msg] eqn:Hrun.
  - apply pair_of_fst in Hrun.
    set (after := execute_step "run1" failing_model (initial_state prep.2) job).
    assert (Hstatus : map res_status (job_results after) = [FAILED]).
    { assert (Hjob : plan_jobs plan !! 0%nat = Some job) by (by rewrite Hjobs).
      vm_compute in Hjob. injection Hjob as <-. vm_compute. reflexivity. }
    split; [exact Hstatus |]. split; [exact Hpost |].
    destruct (job_results after) as [|failure rest] eqn:Hresults;
      [discriminate Hstatus |].
    injection Hstatus as Hfailed _.
    rewrite <- Hresults.
    apply (fail_fast_law sample_registry sample_factory "run1" failing_model
             plan sample_executor summary run.2 [] job post failure Hrun
             Hjobs prep.2 Hprep (initial_state prep.2) after eq_refl eq_refl);
      [| exact Hfailed].
    fold after. rewrite Hresults. simpl. left.
  - apply (f_equal (fun o => bool_decide (is_Some (returned o)))) in Hrun.
    vm_compute in Hrun. discriminate Hrun.
Defined.


Lemma empty_work_completes_witness :
  (exists r env',
     customizing_execute sample_env empty_package_config = (Ret r, env') /\
     res_status r = COMPLETED /\
     res_records_processed r = 0 /\
     res_records_success r = 0) /\
  (exists r env',
     testing_execute (fun _ => 1 # 2) sample_env empty_suite_config
       = (Ret r, env') /\
     res_status r = COMPLETED /\
     res_records_processed r = 0 /\
     res_records_success r = 0).
Proof.
  split.
  - exact (proj1 (empty_work_completes (A := MemoryAdapter) (fun _ => 1 # 2))
             sample_env empty_package_config eq_refl).
  - exact (proj2 (empty_work_completes (A := MemoryAdapter) (fun _ => 1 # 2))
             sample_env empty_suite_config eq_refl).
Defined.


(** ** [get_job_order] returns for every plan

    The bound on the rounds of the loop is never reached, whatever the
    plan: the ids in [result] and [available] are distinct keys of the
    dictionary. *)

Lemma build_job_deps_keys_NoDup (jobs : list JobDefinition) :
  NoDup (dict_keys (build_job_deps jobs)).
Proof.
  unfold build_job_deps.
  enough (Hgen : forall acc : list (string * list string),
            NoDup (dict_keys acc) ->
            NoDup (dict_keys
                     (fold_left (fun d job =>
                        dict_set d (job_id job) (job_dependencies job))
                        jobs acc)))
    by (apply Hgen; constructor).
  induction jobs as [|job jobs IH]; intros acc Hacc; [done |].
  simpl. apply IH. by apply dict_set_keys_NoDup.
Qed.

Lemma initially_available_keys (job_deps : list (string * list string))
    (k : string) :
  k ∈ initially_available job_deps -> k ∈ map fst job_deps.
Proof.
  unfold initially_available.
  intros ([k' ds] & Hin & Hk)%list_elem_of_In%in_flat_map.
  destruct ds; simpl in Hk; [| done]. destruct Hk as [<- | []].
  apply list_elem_of_fmap. exists (k', []). split; [done |].
  by apply list_elem_of_In.
Qed.

Lemma initially_available_NoDup (job_deps : list (string * list string)) :
  NoDup (map fst job_deps) -> NoDup (initially_available job_deps).
Proof.
  induction job_deps as [|[k ds] l IH]; [constructor |].
  intros [Hk Hl]%NoDup_cons. unfold initially_available. simpl.
  destruct ds; simpl; [| by apply IH].
  apply NoDup_cons. split; [| by apply IH].
  intros Hin. by apply Hk, initially_available_keys.
Qed.

Lemma kahn_loop_total (fuel : nat) (cur : list (string * list string))
    (available result : list string) :
  NoDup (result ++ available) ->
  (forall k, k ∈ result ++ available -> k ∈ map fst cur) ->
  (length cur <= fuel + length result)%nat ->
  is_Some (kahn_loop fuel cur available result).
Proof.
  revert cur available result.
  induction fuel as [|fuel IH]; intros cur available result Hnd Hkeys Hfuel.
  - destruct available as [|j available]; [by eexists |].
    assert (length (result ++ j :: available) <= length (map fst cur))%nat
      by (apply submseteq_length, NoDup_submseteq; done).
    rewrite length_app, length_map in *. simpl in *. lia.
  - destruct available as [|j available]; [by eexists |]. simpl.
    pose proof (release_deps j (result ++ [j]) cur available) as Hdeps.
    pose proof (release_avail_new j (result ++ [j]) cur available) as Hnew.
    pose proof (release_avail_NoDup j (result ++ [j]) cur available) as Hnd'.
    destruct (release j (result ++ [j]) cur available) as [cur' av'].
    simpl in Hdeps, Hnew, Hnd'.
    assert (Hfst : map fst cur' = map fst cur).
    { rewrite Hdeps, map_map. by apply map_ext. }
    apply NoDup_app in Hnd as (Hr & Hdisj & Hav).
    apply NoDup_cons in Hav as [Hj Hav].
    apply IH.
    + apply NoDup_app. split; [| split; [| by apply Hnd']].
      * apply NoDup_app. split; [done |]. split; [| apply NoDup_singleton].
        intros x Hx ->%list_elem_of_singleton. apply (Hdisj j Hx). by left.
      * intros x Hx Hx'. apply Hnew in Hx' as [Hold | [Hfresh _]]; [| done].
        apply elem_of_app in Hx as [Hx | ->%list_elem_of_singleton].
        -- apply (Hdisj x Hx). by right.
        -- done.
    + intros k Hk. rewrite Hfst.
      apply elem_of_app in Hk as [Hk | Hk].
      * apply Hkeys. apply elem_of_app in Hk as [Hk | ->%list_elem_of_singleton];
          apply elem_of_app; [by left | right; by left].
      * apply Hnew in Hk as [Hold | (_ & ds & Hds & _)].
        -- apply Hkeys, elem_of_app. right. by right.
        -- apply list_elem_of_fmap. by exists (k, ds).
    + assert (length cur' = length cur)
        by (by rewrite <- (length_map fst cur'), Hfst, length_map).
      rewrite length_app. simpl. lia.
Qed.

Lemma get_job_order_returns (plan : ExecutionPlan) :
  is_Some (get_job_order plan).
Proof.
  unfold get_job_order. apply kahn_loop_total.
  - simpl. apply initially_available_NoDup, build_job_deps_keys_NoDup.
  - simpl. apply initially_available_keys.
  - simpl. lia.
Qed.

(** * Further properties *)

(** ** Dictionaries *)

Lemma dict_get_set_ne {V} (d : list (string * V)) (k k' : string) (v : V) :
  k <> k' -> dict_get (dict_set d k v) k' = dict_get d k'.
Proof.
  intros Hne. induction d as [|[k0 v0] d IH]; simpl.
  - by destruct (String.eqb_spec k k').
  - destruct (String.eqb_spec k0 k) as [-> | Hne0]; simpl.
    + by destruct (String.eqb_spec k k').
    + by rewrite IH.
Qed.

Lemma dict_get_elem {V} (d : list (string * V)) (k : string) (v : V) :
  dict_get d k = Some v -> (k, v) ∈ d.
Proof.
  induction d as [|[k' v'] d IH]; [done |]. simpl.
  destruct (String.eqb_spec k' k) as [-> | Hne].
  - intros [= ->]. by left.
  - intros Hget. right. by apply IH.
Qed.

Lemma dict_elem_get {V} (d : list (string * V)) (k : string) (v : V) :
  NoDup (dict_keys d) -> (k, v) ∈ d -> dict_get d k = Some v.
Proof.
  unfold dict_keys. induction d as [|[k' v'] d IH]; intros Hnd Hin.
  { by apply elem_of_nil in Hin. }
  simpl in *. apply NoDup_cons in Hnd as [Hk' Hnd].
  apply elem_of_cons in Hin as [[= -> ->] | Hin].
  - by rewrite String.eqb_refl.
  - destruct (String.eqb_spec k' k) as [-> | Hne]; [| by apply IH].
    exfalso. apply Hk'. apply list_elem_of_fmap. by exists (k, v).
Qed.

Lemma dict_contains_keys {V} (d : list (string * V)) (k : string) :
  dict_contains d k = true <-> k ∈ dict_keys d.
Proof.
  unfold dict_contains. pose proof (dict_get_None d k) as Hnone.
  destruct (dict_get d k).
  - split; [| done]. intros _. destruct (decide (k ∈ dict_keys d)); [done |].
    assert (Some v = None) by (by apply Hnone). done.
  - split; [done |]. intros Hin. exfalso. by apply Hnone.
Qed.

Lemma append_assoc (s t u : string) : (s +:+ t) +:+ u = s +:+ (t +:+ u).
Proof.
  induction s as [|c s IH]; [by rewrite !append_nil |].
  by rewrite !append_cons, IH.
Qed.

Lemma dict_set_length_present {V} (d : list (string * V)) (k : string)
    (v : V) :
  is_Some (dict_get d k) -> length (dict_set d k v) = length d.
Proof.
  induction d as [|[k' v'] d IH]; simpl; [by intros [] |].
  destruct (String.eqb_spec k' k); [done |]. intros Hk. simpl.
  by rewrite IH.
Qed.

(** ** More on the parser *)

Lemma app_nil_iff {X : Type} (l1 l2 : list X) :
  l1 ++ l2 = [] <-> l1 = [] /\ l2 = [].
Proof. split; [by destruct l1, l2 | by intros [-> ->]]. Qed.

Lemma flat_map_nil_iff {X Y : Type} (f : X -> list Y) (l : list X) :
  flat_map f l = [] <-> Forall (fun x => f x = []) l.
Proof.
  induction l as [|x l IH]; simpl.
  - split; [constructor | done].
  - rewrite app_nil_iff, IH, Forall_cons. tauto.
Qed.

Lemma check_entries_nil (what : string) (i : nat) (items : list pyval) :
  check_entries what i items = [] <-> entries_ok (PList items).
Proof.
  simpl. revert i. induction items as [|x items IH]; intros i; simpl.
  - split; [constructor | done].
  - rewrite app_nil_iff, IH, Forall_cons. apply and_iff_compat_r.
    destruct x as [ | b | z | s | l | d];
      try (split; [done | intros (d' & Hd & _); done]).
    destruct (dict_contains d "id") eqn:Hid.
    + split; [eauto | done].
    + split; [done |]. intros (d' & [= <-] & Hid'). congruence.
Qed.

Lemma entries_section_nil (what msg : string) (v : pyval) :
  match v with
  | PList items => check_entries what 0 items
  | _ => [msg]
  end = [] <-> entries_ok v.
Proof.
  destruct v; try (split; done). apply check_entries_nil.
Qed.

Lemma list_section_nil (msg : string) (v : pyval) :
  match v with PList _ => [] | _ => [msg] end = [] <-> is_list v.
Proof. destruct v; split; done. Qed.

Lemma validate_structure_nil (config : list (string * pyval)) :
  _validate_structure config = [] <-> well_structured config.
Proof.
  unfold _validate_structure, well_structured.
  rewrite !app_nil_iff.
  assert (Hproject :
    (match dict_get config "project" with
     | None => ["Missing required section: 'project'"]
     | Some (PDict _) => []
     | Some _ => ["Section 'project' must be a mapping"]
     end = [] /\
     match dict_get config "project" with
     | Some (PDict project) =>
         (if dict_contains project "name" then []
          else ["project.name is required"]) ++
         (if dict_contains project "customer" then []
          else ["project.customer is required"])
     | _ => []
     end = []) <->
    exists project,
      dict_get config "project" = Some (PDict project) /\
      dict_contains project "name" = true /\
      dict_contains project "customer" = true).
  { destruct (dict_get config "project") as [[ | b | z | s | l | project] |];
      try (split; [intros [? _]; done | intros (? & ? & _); done]).
    rewrite app_nil_iff. split.
    - intros [_ [Hn Hc]]. exists project.
      destruct (dict_contains project "name"),
               (dict_contains project "customer"); done.
    - intros (p & [= <-] & -> & ->). done. }
  assert (Hsection : forall (name key what msg : string),
    match dict_get config name with
    | Some (PDict section) =>
        match get_default section key (PList []) with
        | PList items => check_entries what 0 items
        | _ => [msg]
        end
    | _ => []
    end = [] <->
    forall section, dict_get config name = Some (PDict section) ->
                    entries_ok (get_default section key (PList []))).
  { intros name key what msg.
    destruct (dict_get config name) as [[ | b | z | s | l | section] |];
      try (split; [intros _ ? [=] | done]).
    rewrite entries_section_nil. split; [by intros ? ? [= <-] | eauto]. }
  assert (Hlist : forall (name key msg : string),
    match dict_get config name with
    | Some (PDict section) =>
        match get_default section key (PList []) with
        | PList _ => []
        | _ => [msg]
        end
    | _ => []
    end = [] <->
    forall section, dict_get config name = Some (PDict section) ->
                    is_list (get_default section key (PList []))).
  { intros name key msg.
    destruct (dict_get config name) as [[ | b | z | s | l | section] |];
      try (split; [intros _ ? [=] | done]).
    rewrite list_section_nil. split; [by intros ? ? [= <-] | eauto]. }
  rewrite <- Hproject.
  rewrite <- (Hsection "landscape" "systems" "landscape.systems"
                "landscape.systems must be a list").
  rewrite <- (Hsection "customizing" "packages" "customizing.packages"
                "customizing.packages must be a list").
  rewrite <- (Hlist "migration" "objects" "migration.objects must be a list").
  rewrite <- (Hlist "testing" "suites" "testing.suites must be a list").
  tauto.
Qed.

(** X1. [_validate_structure] reports nothing exactly for the
    configurations described by [well_structured]: in particular it does
    not look into the entries of [migration.objects] and [testing.suites],
    nor into an optional section that is not a mapping. *)
Theorem validate_structure_accepts (config : list (string * pyval)) :
  _validate_structure config = [] <-> well_structured config.
Proof. exact (validate_structure_nil config). Qed.

Lemma system_ids_empty (systems : list SystemConfig) :
  (list_to_set (map sys_id systems) : gset string) = ∅ <-> systems = [].
Proof.
  destruct systems as [|s systems]; [done |]. split; [| done].
  rewrite map_cons, list_to_set_cons. intros Hempty.
  assert (sys_id s ∈ (∅ : gset string)) as Hin
    by (rewrite <- Hempty; apply elem_of_union_l, elem_of_singleton; done).
  by apply not_elem_of_empty in Hin.
Qed.

Lemma has_duplicates_check (ids : list string) (msg : string) :
  (if has_duplicates ids then [msg] else []) = [] <-> NoDup ids.
Proof.
  rewrite <- has_duplicates_false. by destruct (has_duplicates ids).
Qed.

Lemma reference_check_nil {X : Type} (target : X -> string)
    (message : X -> string) (system_ids : gset string) (items : list X) :
  flat_map (fun x => if decide (target x ∈ system_ids) then []
                     else [message x]) items = []
  <-> Forall (fun x => target x ∈ system_ids) items.
Proof.
  rewrite flat_map_nil_iff. apply Forall_proper; [| done].
  intros x. by case_decide.
Qed.

Lemma validate_semantics_nil (model : ImplementationModel) :
  _validate_semantics model = [] <-> semantically_valid model.
Proof.
  unfold _validate_semantics, semantically_valid.
  rewrite !app_nil_iff, !has_duplicates_check.
  apply and_iff_compat_r.
  case_decide as Hempty.
  - apply system_ids_empty in Hempty. split; [by intros _ ? | done].
  - rewrite !app_nil_iff, !reference_check_nil.
    assert (Hmem : forall x,
              x ∈ (list_to_set (map sys_id (landscape_systems model))
                     : gset string)
              <-> x ∈ map sys_id (landscape_systems model))
      by (intros x; apply elem_of_list_to_set).
    rewrite (Forall_proper _ _ (fun pkg => Hmem (pkg_target pkg)) _ _ eq_refl).
    rewrite (Forall_proper _ _ (fun obj => Hmem (obj_target obj)) _ _ eq_refl).
    rewrite (Forall_proper _ _ (fun suite => Hmem (suite_target suite)) _ _
               eq_refl).
    split; [by intros ? _ |]. intros Hall. apply Hall.
    intros Hnil. apply Hempty, system_ids_empty, Hnil.
Qed.

(** X2. [_validate_semantics] reports nothing exactly for the models
    described by [semantically_valid]: targets are checked against the
    landscape only when it declares a system, ids must be unique within
    each of the three phases, and nothing else is checked. *)
Theorem validate_semantics_accepts (model : ImplementationModel) :
  _validate_semantics model = [] <-> semantically_valid model.
Proof. exact (validate_semantics_nil model). Qed.

Section ParserMore.
Variable safe_load : string -> yaml_load.
Variable pydantic_build : list (string * pyval) -> build_outcome.

(** X3. [parse] returns a model only through all four stages: the
    document loads as a mapping that passes the structure checks, pydantic
    builds the model from it, and the model is semantically valid.  Every
    model [parse] returns therefore has unique ids in each phase and, when
    systems are declared, only declared targets. *)
Theorem parse_returns_valid_model (yaml_content : string)
    (model : ImplementationModel) :
  parse safe_load pydantic_build yaml_content = Parsed model <->
  exists config,
    safe_load yaml_content = Loaded (PDict config) /\
    well_structured config /\
    pydantic_build config = Built model /\
    semantically_valid model.
Proof.
  unfold parse, _parse_yaml. split.
  - destruct (safe_load yaml_content) as [err | [ | b | z | s | l | config]];
      try done.
    destruct (_validate_structure config) as [|e es] eqn:Hstruct; [| done].
    destruct (pydantic_build config) as [m | first others | msg] eqn:Hbuild;
      try done.
    destruct (_validate_semantics m) as [|e es] eqn:Hsem; [| done].
    intros [= <-]. exists config. split; [done |].
    split; [by apply validate_structure_nil |]. split; [done |].
    by apply validate_semantics_nil.
  - intros (config & -> & Hstruct & Hbuild & Hsem).
    apply validate_structure_nil in Hstruct.
    apply validate_semantics_nil in Hsem.
    by rewrite Hstruct, Hbuild, Hsem.
Qed.

(** X4. [validate_only] answers [(False, [])], invalid with nothing to
    show, exactly for a document that fails before the structure checks:
    one that is not valid YAML, is empty, or is not a mapping.  It answers
    [(True, errors)] only with an empty list, and it raises only what
    pydantic raised other than a validation error. *)
Theorem validate_only_report (yaml_content : string) :
  (validate_only safe_load pydantic_build yaml_content = Ret (false, []) <->
   match safe_load yaml_content with
   | Loaded (PDict _) => False
   | _ => True
   end) /\
  (forall errors,
     validate_only safe_load pydantic_build yaml_content = Ret (true, errors)
     -> errors = [] /\
        exists model,
          parse safe_load pydantic_build yaml_content = Parsed model) /\
  (forall msg,
     validate_only safe_load pydantic_build yaml_content = Raise msg ->
     exists config,
       safe_load yaml_content = Loaded (PDict config) /\
       pydantic_build config = BuildRaises msg).
Proof.
  unfold validate_only, parse, _parse_yaml.
  destruct (safe_load yaml_content) as [err | [ | b | z | s | l | config]];
    try (split; [by split | by split; intros]).
  destruct (_validate_structure config) as [|e es];
    [| split; [by split | by split; intros]].
  destruct (pydantic_build config) as [m | first others | msg'] eqn:Hbuild.
  - destruct (_validate_semantics m) as [|e es];
      [| split; [by split | by split; intros]].
    split; [by split |]. split; [| done]. intros errors [= <-]. eauto.
  - split; [by split | by split; intros].
  - split; [by split |]. split; [done |]. intros msg [= <-]. eauto.
Qed.
End ParserMore.

(** ** More on the planner *)

Lemma build_job_deps_keys (jobs : list JobDefinition) (k : string) :
  k ∈ dict_keys (build_job_deps jobs) <-> k ∈ map job_id jobs.
Proof.
  unfold build_job_deps.
  enough (Hgen : forall acc : list (string * list string),
            k ∈ dict_keys
                  (fold_left (fun d job =>
                     dict_set d (job_id job) (job_dependencies job))
                     jobs acc)
            <-> k ∈ dict_keys acc \/ k ∈ map job_id jobs).
  { rewrite Hgen. simpl. split; [| by right].
    intros [Hin | Hin]; [by apply elem_of_nil in Hin | done]. }
  induction jobs as [|job jobs IH]; intros acc; simpl.
  { split; [by left |]. intros [Hin | Hin]; [done |].
    by apply elem_of_nil in Hin. }
  rewrite IH, dict_set_keys, elem_of_cons.
  destruct (dict_contains acc (job_id job)) eqn:Hc.
  - apply dict_contains_keys in Hc. split; [tauto |].
    intros [Hin | [-> | Hin]]; tauto.
  - rewrite elem_of_app, list_elem_of_singleton. tauto.
Qed.

Lemma initially_available_elem (job_deps : list (string * list string))
    (k : string) :
  k ∈ initially_available job_deps <-> (k, []) ∈ job_deps.
Proof.
  unfold initially_available. rewrite list_elem_of_In, in_flat_map. split.
  - intros ([k' ds] & Hin & Hk). destruct ds; simpl in Hk; [| done].
    destruct Hk as [<- | []]. by apply list_elem_of_In.
  - intros Hin. exists (k, []). split; [by apply list_elem_of_In |].
    by left.
Qed.

Lemma list_remove_first_other (x d : string) (l : list string) :
  d ∈ l -> d <> x -> d ∈ list_remove_first x l.
Proof.
  induction l as [|y l IH]; [done |]. simpl. intros Hin Hne.
  apply elem_of_cons in Hin as [-> | Hin].
  - destruct (String.eqb_spec y x); [done | by left].
  - destruct (String.eqb_spec y x); [done |]. right. by apply IH.
Qed.

Section AnyOrder.
(** Any dictionary with distinct keys: dependencies may be missing from
    it, repeated or circular. *)
Variable deps0 : list (string * list string).
Hypothesis keys_NoDup : NoDup (map fst deps0).

Lemma order_inv_init :
  order_inv deps0 deps0 (initially_available deps0) [].
Proof.
  split.
  - done.
  - intros i k ds Hi. exists ds. split; [done |]. by left.
  - simpl. by apply initially_available_NoDup.
  - simpl. intros k. by rewrite initially_available_elem.
  - simpl. intros k. by rewrite initially_available_elem.
  - intros i k ds Hi. done.
Qed.

Lemma order_inv_step cur j available result :
  order_inv deps0 cur (j :: available) result ->
  order_inv deps0 (release j (result ++ [j]) cur available).1
            (release j (result ++ [j]) cur available).2 (result ++ [j]).
Proof.
  intros [Hkeys Hshrunk Hnd Hreleased Hready Hresp].
  pose proof (release_deps j (result ++ [j]) cur available) as Hdeps.
  pose proof (release_avail_new j (result ++ [j]) cur available) as Hnew.
  pose proof (release_avail_incl j (result ++ [j]) cur available) as Hincl.
  pose proof (release_avail_NoDup j (result ++ [j]) cur available) as Hnd'.
  destruct (release j (result ++ [j]) cur available) as [cur' av'].
  simpl in *. subst cur'.
  apply NoDup_app in Hnd as (Hr & Hdisj & Hav).
  apply NoDup_cons in Hav as [Hj Hav].
  assert (Hold : forall k, k ∈ result ++ j :: available ->
            (k, []) ∈ map (fun kv : string * list string =>
                             (kv.1, if str_in j kv.2
                                    then list_remove_first j kv.2
                                    else kv.2)) cur).
  { intros k Hk. apply list_elem_of_fmap. exists (k, []).
    split; [done | by apply Hreleased]. }
  split.
  - rewrite <- Hkeys, map_map. by apply map_ext.
  - intros i k ds Hi. destruct (Hshrunk i k ds Hi) as (ds' & Hcur & Hds').
    eexists. rewrite list_lookup_fmap, Hcur. split; [done |]. simpl.
    intros d Hd. destruct (decide (d = j)) as [-> | Hne].
    { right. apply elem_of_app. right. by left. }
    destruct (Hds' d Hd) as [Hin | Hin].
    + left. destruct (str_in j ds'); [| done].
      by apply list_remove_first_other.
    + right. apply elem_of_app. by left.
  - apply NoDup_app. split; [| split; [| by apply Hnd']].
    + apply NoDup_app. split; [done |]. split; [| apply NoDup_singleton].
      intros x Hx ->%list_elem_of_singleton. apply (Hdisj j Hx). by left.
    + intros x Hx Hx'. apply Hnew in Hx' as [Hx' | [Hfresh _]]; [| done].
      apply elem_of_app in Hx as [Hx | ->%list_elem_of_singleton].
      * apply (Hdisj x Hx). by right.
      * done.
  - intros k Hk. apply elem_of_app in Hk as [Hk | Hk].
    + apply Hold. apply elem_of_app in Hk as [Hk | ->%list_elem_of_singleton];
        apply elem_of_app; [by left | right; by left].
    + apply Hnew in Hk as [Hk | (_ & ds & Hds & Hjds & Hrm)].
      * apply Hold, elem_of_app. right. by right.
      * apply list_elem_of_fmap. exists (k, ds). split; [| done]. simpl.
        apply str_in_spec in Hjds. by rewrite Hjds, Hrm.
  - intros k Hk. apply Hready in Hk.
    apply elem_of_app in Hk as [Hk | Hk].
    + apply elem_of_app. left. apply elem_of_app. by left.
    + apply elem_of_cons in Hk as [-> | Hk].
      * apply elem_of_app. left. apply elem_of_app. right. by left.
      * apply elem_of_app. right. by apply Hincl.
  - intros i k ds Hi Hk d Hd.
    destruct (decide (i < length result)%nat) as [Hlt | Hge].
    + rewrite lookup_app_l in Hi by done.
      rewrite take_app_le by lia. by apply (Hresp i k ds).
    + assert (i = length result) as ->.
      { apply lookup_lt_Some in Hi. rewrite length_app in Hi.
        simpl in Hi. lia. }
      rewrite lookup_app_r in Hi by lia.
      replace (length result - length result)%nat with 0%nat in Hi by lia.
      injection Hi as <-.
      rewrite take_app_le, take_ge by lia.
      apply list_elem_of_lookup in Hk as [i0 Hi0].
      destruct (Hshrunk i0 j ds Hi0) as (ds' & Hcur & Hds').
      assert (Hempty : (j, []) ∈ cur).
      { apply Hreleased, elem_of_app. right. by left. }
      apply list_elem_of_lookup in Hempty as [i1 Hi1].
      assert (i0 = i1) as <-.
      { apply (NoDup_lookup (map fst cur) i0 i1 j).
        - by rewrite Hkeys.
        - by rewrite list_lookup_fmap, Hcur.
        - by rewrite list_lookup_fmap, Hi1. }
      assert (ds' = []) as -> by congruence.
      destruct (Hds' d Hd) as [Hin | Hin]; [| done].
      by apply elem_of_nil in Hin.
Qed.

Lemma kahn_loop_order_inv fuel cur available result order :
  order_inv deps0 cur available result ->
  kahn_loop fuel cur available result = Some order ->
  exists cur', order_inv deps0 cur' [] order.
Proof.
  revert cur available result.
  induction fuel as [|fuel IH]; intros cur available result Hinv Hrun.
  - destruct available; [| done]. injection Hrun as <-. by exists cur.
  - destruct available as [|j available].
    { injection Hrun as <-. by exists cur. }
    simpl in Hrun. pose proof (order_inv_step _ _ _ _ Hinv) as Hstep.
    destruct (release j (result ++ [j]) cur available) as [cur' av'].
    by apply (IH _ _ _ Hstep).
Qed.

Lemma kahn_any_order order :
  kahn_loop (length deps0) deps0 (initially_available deps0) [] = Some order
  -> NoDup order /\
     (forall k, k ∈ order -> k ∈ map fst deps0) /\
     (forall k, (k, []) ∈ deps0 -> k ∈ order) /\
     respects deps0 order.
Proof.
  intros Hrun.
  destruct (kahn_loop_order_inv _ _ _ _ _ order_inv_init Hrun)
    as [cur [Hkeys _ Hnd Hreleased Hready Hresp]].
  rewrite app_nil_r in *. split; [done |]. split; [| done].
  intros k Hk. rewrite <- Hkeys. apply list_elem_of_fmap.
  exists (k, []). split; [done | by apply Hreleased].
Qed.
End AnyOrder.

Lemma get_job_order_general (plan : ExecutionPlan) :
  exists order,
    get_job_order plan = Some order /\
    NoDup order /\
    (forall k, k ∈ order -> k ∈ map job_id (plan_jobs plan)) /\
    (forall k, dict_get (build_job_deps (plan_jobs plan)) k = Some [] ->
       k ∈ order) /\
    (forall i k ds d,
       order !! i = Some k ->
       dict_get (build_job_deps (plan_jobs plan)) k = Some ds ->
       d ∈ ds -> d ∈ take i order).
Proof.
  destruct (get_job_order_returns plan) as [order Horder].
  exists order. split; [done |].
  pose proof (build_job_deps_keys_NoDup (plan_jobs plan)) as Hkeys.
  destruct (kahn_any_order _ Hkeys order Horder)
    as (Hnd & Hin & Hready & Hresp).
  split; [done |]. split; [| split].
  - intros k Hk. by apply build_job_deps_keys, Hin.
  - intros k Hk. by apply Hready, dict_get_elem.
  - intros i k ds d Hi Hk Hd.
    apply (Hresp i k ds); [done | by apply dict_get_elem | done].
Qed.

(** X5. [get_job_order] answers for every plan, also one the planner did
    not build: the order has no id twice, holds only ids of the plan's
    jobs, holds every job recorded without dependencies, and every id in
    it comes after all the dependencies recorded for it. *)
Theorem get_job_order_any_plan (plan : ExecutionPlan) :
  exists order,
    get_job_order plan = Some order /\
    NoDup order /\
    (forall k, k ∈ order -> k ∈ map job_id (plan_jobs plan)) /\
    (forall k, dict_get (build_job_deps (plan_jobs plan)) k = Some [] ->
       k ∈ order) /\
    (forall i k ds d,
       order !! i = Some k ->
       dict_get (build_job_deps (plan_jobs plan)) k = Some ds ->
       d ∈ ds -> d ∈ take i order).
Proof. exact (get_job_order_general plan). Qed.

Lemma depends_on_earlier (plan : ExecutionPlan) (order : list string)
    (k d : string) :
  get_job_order plan = Some order ->
  depends_on (build_job_deps (plan_jobs plan)) k d ->
  forall i, order !! i = Some k ->
    exists j, (j < i)%nat /\ order !! j = Some d.
Proof.
  intros Horder Hdep.
  destruct (get_job_order_general plan)
    as (order' & Horder' & _ & _ & _ & Hresp).
  assert (order' = order) as -> by congruence.
  induction Hdep as [k d (ds & Hds & Hd) | k m d (ds & Hds & Hm) _ IH];
    intros i Hi.
  - pose proof (Hresp i k ds d Hi Hds Hd) as Hin.
    apply list_elem_of_lookup in Hin as [j Hj].
    assert (j < i)%nat
      by (apply lookup_lt_Some in Hj; rewrite length_take in Hj; lia).
    exists j. split; [done |]. by rewrite lookup_take_lt in Hj.
  - pose proof (Hresp i k ds m Hi Hds Hm) as Hin.
    apply list_elem_of_lookup in Hin as [j Hj].
    assert (j < i)%nat
      by (apply lookup_lt_Some in Hj; rewrite length_take in Hj; lia).
    rewrite lookup_take_lt in Hj by done.
    destruct (IH j Hj) as (j' & Hlt & Hj'). exists j'. split; [lia | done].
Qed.

(** X6. [get_job_order] reports no error for dependencies that cannot be
    met: a job that depends, directly or through other jobs, on itself or
    on an id that no job of the plan has is left out of the returned
    order. *)
Theorem get_job_order_drops (plan : ExecutionPlan) (order : list string)
    (k d : string) :
  get_job_order plan = Some order ->
  depends_on (build_job_deps (plan_jobs plan)) k d ->
  d = k \/ d ∉ map job_id (plan_jobs plan) ->
  k ∉ order.
Proof.
  intros Horder Hdep Hbad [i Hi]%list_elem_of_lookup.
  destruct (depends_on_earlier plan order k d Horder Hdep i Hi)
    as (j & Hlt & Hj).
  destruct (get_job_order_general plan)
    as (order' & Horder' & Hnd & Hids & _).
  assert (order' = order) as -> by congruence.
  destruct Hbad as [-> | Hmissing].
  - assert (j = i) by (by apply (NoDup_lookup order j i k)). lia.
  - apply Hmissing, Hids. by apply list_elem_of_lookup_2 in Hj.
Qed.

Lemma get_job_order_drops_witness :
  get_job_order tangled_plan = Some ["d"] /\
  ("a" ∉ ["d"]) /\ ("b" ∉ ["d"]).
Proof.
  split; [reflexivity |]. split.
  - apply (get_job_order_drops tangled_plan ["d"] "a" "ghost").
    + reflexivity.
    + apply tc_once. exists ["ghost"]. split; [reflexivity | by left].
    + right. vm_compute. intros Hin.
      repeat (apply elem_of_cons in Hin as [Hin | Hin]; [done |]).
      by apply elem_of_nil in Hin.
  - apply (get_job_order_drops tangled_plan ["d"] "b" "b").
    + reflexivity.
    + apply (tc_l _ _ "c").
      * exists ["c"]. split; [reflexivity | by left].
      * apply tc_once. exists ["b"]. split; [reflexivity | by left].
    + by left.
Defined.

Section PlanMore.
Variable uuid4 : nat -> N.
Variable run_id : string.
Variable model : ImplementationModel.

(** X7. In every plan [create_plan] builds, each dependency of a job is
    the id of a job that stands earlier in [plan.jobs]: the declared
    order, which is the order the executor runs the jobs in, never puts a
    job before one it depends on. *)
Theorem create_plan_declared_order (i : nat) (job : JobDefinition)
    (d : string) :
  plan_jobs (create_plan uuid4 run_id model) !! i = Some job ->
  d ∈ job_dependencies job ->
  exists j before,
    (j < i)%nat /\
    plan_jobs (create_plan uuid4 run_id model) !! j = Some before /\
    job_id before = d.
Proof.
  rewrite (plan_jobs_phases uuid4 run_id model).
  apply plan_deps_earlier.
Qed.

(** X8. For a semantically valid model the job ids of the plan are
    pairwise distinct, whatever values [uuid4] draws: the identifier of
    the package, object or suite is part of the id and the random suffix
    has a fixed length. *)
Theorem create_plan_ids_distinct :
  semantically_valid model ->
  NoDup (map job_id (plan_jobs (create_plan uuid4 run_id model))).
Proof.
  intros (_ & Hpkg & Hobj & Hsuite). by apply plan_ids_NoDup.
Qed.
End PlanMore.

Lemma create_plan_declared_order_witness :
  exists j before,
    (j < 2)%nat /\
    plan_jobs (create_plan sample_uuid4 "run1" sample_model) !! j
      = Some before /\
    job_id before = "cust_pkg2_000001".
Proof.
  destruct (plan_jobs (create_plan sample_uuid4 "run1" sample_model) !! 2%nat)
    as [job|] eqn:Hjob; [| by vm_compute in Hjob].
  apply (create_plan_declared_order sample_uuid4 "run1" sample_model 2 job
           "cust_pkg2_000001" Hjob).
  vm_compute in Hjob. injection Hjob as <-. simpl. right. by left.
Defined.

Lemma create_plan_ids_distinct_witness :
  semantically_valid sample_model /\
  NoDup (map job_id (plan_jobs (create_plan sample_uuid4 "run1" sample_model))).
Proof.
  assert (Hvalid : semantically_valid sample_model)
    by (apply validate_semantics_nil; reflexivity).
  split; [done |].
  by apply (create_plan_ids_distinct sample_uuid4 "run1" sample_model).
Defined.

(** ** More on the executor *)

Lemma dict_set_keeps {V} (d : list (string * V)) (k k' : string) (v : V) :
  is_Some (dict_get d k) -> is_Some (dict_get (dict_set d k' v) k).
Proof.
  intros Hk. destruct (decide (k' = k)) as [-> | Hne].
  - rewrite dict_get_set_eq. by eexists.
  - by rewrite dict_get_set_ne.
Qed.

Lemma pool_kept_refl {A S} (ex : JobExecutor A S) : pool_kept ex ex.
Proof.
  split; [done |]. exists []. split; [by rewrite app_nil_r | constructor].
Qed.

Lemma pool_kept_trans {A S} (ex1 ex2 ex3 : JobExecutor A S) :
  pool_kept ex1 ex2 -> pool_kept ex2 ex3 -> pool_kept ex1 ex3.
Proof.
  intros [Hp1 (a1 & Hc1 & Ha1)] [Hp2 (a2 & Hc2 & Ha2)]. split; [auto |].
  exists (a1 ++ a2). split; [by rewrite Hc2, Hc1, app_assoc |].
  by apply Forall_app.
Qed.

Section ExecutorMore.
Context {A S : Type} `{SAPAdapter A} `{StorageManager S}.
Variable registry : list (string * Plugin A).
Variable factory : list (string * (string -> string -> outcome A)).
Variable run_id : string.
Variable model : ImplementationModel.

Lemma get_or_create_keeps system_id (ex : JobExecutor A S) r ex' :
  _get_or_create_adapter factory system_id model ex = (r, ex') ->
  _plugins ex' = _plugins ex /\ _current_run ex' = _current_run ex /\
  pool_kept ex ex' /\
  (forall adapter, r = Ret adapter ->
     is_Some (dict_get (_adapters ex') system_id)).
Proof.
  unfold _get_or_create_adapter, pool_kept.
  destruct (dict_get (_adapters ex) system_id) as [adapter|] eqn:Hget.
  { intros [= <- <-]. split; [done |]. split; [done |].
    split; [apply pool_kept_refl |]. intros _ _. by eexists. }
  destruct (AdapterFactory_create _ _ _ _) as [adapter | e].
  - destruct (connect adapter) as [[ok | e] adapter'];
      intros [= <- <-]; simpl.
    + split; [done |]. split; [done |]. split.
      * split; [intros k Hk; by apply dict_set_keeps |].
        eexists. rewrite <- app_assoc. split; [done |].
        repeat constructor; by intros [].
      * intros _ _. rewrite dict_get_set_eq. by eexists.
    + split; [done |]. split; [done |]. split; [| done].
      split; [done |]. eexists. rewrite <- app_assoc. split; [done |].
      repeat constructor; by intros [].
  - intros [= <- <-]. split; [done |]. split; [done |].
    split; [apply pool_kept_refl | done].
Qed.

Lemma initialize_adapters_keeps systems (ex : JobExecutor A S) r ex' :
  initialize_adapters factory systems model ex = (r, ex') ->
  _plugins ex' = _plugins ex /\ _current_run ex' = _current_run ex /\
  pool_kept ex ex' /\
  (r = Ret () ->
     forall system_id, system_id ∈ systems ->
       is_Some (dict_get (_adapters ex') system_id)).
Proof.
  revert ex. induction systems as [|system_id systems IH]; intros ex; simpl.
  { intros [= <- <-]. split; [done |]. split; [done |].
    split; [apply pool_kept_refl |]. intros _ k Hk.
    by apply elem_of_nil in Hk. }
  destruct (_get_or_create_adapter factory system_id model ex)
    as [[adapter | e] ex1] eqn:Hone.
  - apply get_or_create_keeps in Hone as (Hp1 & Hr1 & Hk1 & Hin1).
    intros Hrest. apply IH in Hrest as (Hp2 & Hr2 & Hk2 & Hin2).
    split; [congruence |]. split; [congruence |].
    split; [by apply (pool_kept_trans _ ex1) |].
    intros Hret k [-> | Hk]%elem_of_cons; [| by apply Hin2].
    destruct Hk2 as [Hpool _]. apply Hpool. by apply (Hin1 adapter).
  - apply get_or_create_keeps in Hone as (Hp1 & Hr1 & Hk1 & _).
    intros [= <- <-]. done.
Qed.

Lemma initialize_plugins_resolved (ex : JobExecutor A S) ex' :
  _initialize_plugins registry ex = (Ret (), ex') ->
  forall t, is_Some (get_by_type registry t).
Proof.
  unfold _initialize_plugins. simpl.
  destruct (get_by_type registry CUSTOMIZING) eqn:Hc; [| done].
  destruct (get_by_type registry MIGRATION) eqn:Hm; [| done].
  destruct (get_by_type registry TESTING) eqn:Ht; [| done].
  intros _ []; by eexists.
Qed.

Lemma initialize_plugins_state (ex : JobExecutor A S) :
  (_initialize_plugins registry ex).2 = set_plugins ex (get_by_type registry).
Proof. unfold _initialize_plugins. by destruct (find _ _). Qed.

Lemma prepare_keeps plan (ex : JobExecutor A S) r ex' :
  prepare registry factory run_id plan model ex = (r, ex') ->
  _current_run ex' = Some run_id /\
  _plugins ex' = get_by_type registry /\
  pool_kept ex ex' /\
  (r = Ret () -> ready plan ex').
Proof.
  unfold prepare.
  pose proof (initialize_plugins_state (set_current_run ex (Some run_id)))
    as Hstate.
  assert (Hkept : pool_kept ex
            (set_plugins (set_current_run ex (Some run_id))
                         (get_by_type registry))).
  { split; [done |]. exists []. simpl. by rewrite app_nil_r. }
  destruct (_initialize_plugins registry (set_current_run ex (Some run_id)))
    as [[[] | e] ex1] eqn:Hplug; simpl in Hstate; subst ex1.
  - pose proof (initialize_plugins_resolved _ _ Hplug) as Hall.
    intros (Hp & Hr & Hk & Hin)%initialize_adapters_keeps.
    simpl in Hp, Hr. split; [done |]. split; [done |].
    split; [exact (pool_kept_trans _ _ _ Hkept Hk) |].
    intros Hret. split.
    + intros t. rewrite Hp. apply Hall.
    + intros job Hjob. apply (Hin Hret). apply elem_of_remove_dups.
      apply list_elem_of_fmap. by exists job.
  - intros [= <- <-]. done.
Qed.

Lemma execute_job_keeps job (ex : JobExecutor A S) r ex' :
  _execute_job job model run_id ex = (r, ex') ->
  _plugins ex' = _plugins ex /\ _current_run ex' = _current_run ex /\
  pool_kept ex ex'.
Proof.
  unfold _execute_job, pool_kept.
  destruct (_plugins ex (job_type job)) as [plugin|].
  2: { intros [= <- <-]. split; [done |]. split; [done |].
       apply pool_kept_refl. }
  destruct (dict_get (_adapters ex) (job_target_system job)) as [adapter|].
  2: { intros [= <- <-]. split; [done |]. split; [done |].
       apply pool_kept_refl. }
  destruct (validate plugin (job_config job)) as [[|e es] | e].
  - destruct (execute plugin _ _) as [r' env']. intros [= <- <-]. simpl.
    split; [done |]. split; [done |]. split.
    + intros k Hk. by apply dict_set_keeps.
    + eexists. rewrite <- app_assoc. split; [done |].
      repeat constructor; by intros [].
  - intros [= <- <-]. simpl. split; [done |]. split; [done |].
    split; [done |]. eexists. split; [done |].
    repeat constructor; by intros [].
  - intros [= <- <-]. simpl. split; [done |]. split; [done |].
    split; [done |]. eexists. split; [done |].
    repeat constructor; by intros [].
Qed.

Lemma execute_step_keeps (st : LoopState A S) job :
  _plugins (executor (execute_step run_id model st job))
    = _plugins (executor st) /\
  _current_run (executor (execute_step run_id model st job))
    = _current_run (executor st) /\
  pool_kept (executor st) (executor (execute_step run_id model st job)).
Proof.
  unfold execute_step. destruct (stop_execution st).
  { simpl. split; [done |]. split; [done |]. apply pool_kept_refl. }
  destruct (_execute_job job model run_id (executor st))
    as [[result | e] ex1] eqn:Hjob;
    apply execute_job_keeps in Hjob as (Hp & Hr & Hk).
  - destruct (save_job_result _ _ _ _ _) as [[path | e] st1].
    + case_decide; simpl; done.
    + simpl. done.
  - simpl. done.
Qed.

Lemma execute_fold_keeps jobs (st : LoopState A S) :
  _plugins (executor (fold_left (execute_step run_id model) jobs st))
    = _plugins (executor st) /\
  _current_run (executor (fold_left (execute_step run_id model) jobs st))
    = _current_run (executor st) /\
  pool_kept (executor st)
            (executor (fold_left (execute_step run_id model) jobs st)).
Proof.
  revert st. induction jobs as [|job jobs IH]; intros st; simpl.
  { split; [done |]. split; [done |]. apply pool_kept_refl. }
  destruct (IH (execute_step run_id model st job)) as (Hp & Hr & Hk).
  destruct (execute_step_keeps st job) as (Hp1 & Hr1 & Hk1).
  split; [congruence |]. split; [congruence |].
  by apply (pool_kept_trans _ (executor (execute_step run_id model st job))).
Qed.

Lemma ready_kept plan (ex ex' : JobExecutor A S) :
  ready plan ex -> _plugins ex' = _plugins ex -> pool_kept ex ex' ->
  ready plan ex'.
Proof.
  intros [Hplug Hpool] Hp [Hk _]. split.
  - intros t. rewrite Hp. apply Hplug.
  - intros job Hjob. by apply Hk, Hpool.
Qed.

(** X9. When the preparation of [execute] returns, the executor is ready
    for the plan: a handler is resolved for each of the three job types
    and the pool holds an adapter for the target system of every job; and
    it stays ready after any number of jobs have been handled.  A job
    handed to [_execute_job] in a ready executor reaches its handler's
    [validate]: the results "No plugin for job type" and "No adapter for
    system" cannot come out of a run. *)
Theorem prepare_makes_ready plan (ex ex2 : JobExecutor A S) :
  prepare registry factory run_id plan model ex = (Ret (), ex2) ->
  ready plan ex2 /\
  (forall jobs,
     ready plan
       (executor (fold_left (execute_step run_id model) jobs
                            (initial_state ex2)))) /\
  (forall (ex3 : JobExecutor A S) job,
     ready plan ex3 -> job ∈ plan_jobs plan ->
     exists rest,
       calls (_execute_job job model run_id ex3).2
       = calls ex3 ++ EvValidate (job_id job) :: rest).
Proof.
  intros (_ & _ & _ & Hready)%prepare_keeps. specialize (Hready eq_refl).
  split; [done |]. split.
  - intros jobs.
    destruct (execute_fold_keeps jobs (initial_state ex2)) as (Hp & _ & Hk).
    by apply (ready_kept plan ex2).
  - intros ex3 job [Hplug Hpool] Hjob. unfold _execute_job.
    destruct (Hplug (job_type job)) as [plugin ->].
    destruct (Hpool job Hjob) as [adapter ->].
    destruct (validate plugin (job_config job)) as [[|e es] | e].
    + destruct (execute plugin _ _) as [r' env']. simpl.
      eexists. by rewrite <- app_assoc.
    + simpl. by eexists.
    + simpl. by eexists.
Qed.

(** X10. A plan whose [total_jobs] is 0 although it has jobs, which is
    what the field defaults to, makes [execute] raise [division by zero]
    at the first job, after the preparation has connected the adapters:
    no handler is called and nothing is disconnected. *)
Theorem zero_total_jobs_raises plan (ex ex2 : JobExecutor A S) :
  plan_total_jobs plan = 0 -> plan_jobs plan <> [] ->
  prepare registry factory run_id plan model ex = (Ret (), ex2) ->
  JobExecutor_execute registry factory run_id plan model ex
    = (Raise "division by zero", ex2) /\
  ready plan ex2 /\ pool_kept ex ex2.
Proof.
  intros Hzero Hjobs Hprep. unfold JobExecutor_execute. rewrite Hprep.
  destruct (plan_jobs plan) as [|job jobs] eqn:Hplan; [done |].
  simpl. rewrite Hzero. simpl. split; [done |].
  apply prepare_keeps in Hprep as (_ & _ & Hk & Hready).
  split; [| done]. by apply Hready.
Qed.

Lemma execute_loop_raises plan jobs (st : LoopState A S) e :
  execute_loop run_id plan model jobs st = Raise e ->
  e = "division by zero" /\ plan_total_jobs plan = 0 /\ jobs <> [].
Proof.
  revert st. induction jobs as [|job jobs IH]; intros st; [done |]. simpl.
  destruct (Z.eqb_spec (plan_total_jobs plan) 0) as [Hz | Hnz].
  - intros [= <-]. done.
  - intros Hrest. apply IH in Hrest as (_ & Hz & _). done.
Qed.

Lemma execute_loop_fold plan jobs (st st' : LoopState A S) :
  execute_loop run_id plan model jobs st = Ret st' ->
  st' = fold_left (execute_step run_id model) jobs st.
Proof.
  revert st. induction jobs as [|job jobs IH]; intros st; simpl.
  - by intros [= <-].
  - destruct (plan_total_jobs plan =? 0); [done |]. apply IH.
Qed.

Lemma disconnect_all_returns items (ex : JobExecutor A S) :
  (disconnect_all items ex).1 = Ret ().
Proof.
  revert ex. induction items as [|[system_id adapter] items IH]; intros ex.
  - done.
  - simpl. destruct (disconnect adapter) as [[[] | e] adapter']; apply IH.
Qed.

Lemma cleanup_returns (ex : JobExecutor A S) : (_cleanup ex).1 = Ret ().
Proof.
  unfold _cleanup. pose proof (disconnect_all_returns (_adapters ex) ex).
  destruct (disconnect_all (_adapters ex) ex) as [[[] | e] ex']; done.
Qed.

Lemma execute_loop_with_callback_spec callback percent_of plan jobs i
    (st : LoopState A S) r st' :
  execute_loop_with_callback callback percent_of run_id plan model i jobs st
    = (r, st') ->
  match r with
  | Ret _ =>
      st' = fold_left (execute_step run_id model) jobs st /\
      (plan_total_jobs plan <> 0 \/ jobs = []) /\
      (forall j job,
         jobs !! j = Some job ->
         _report_progress callback (i + j) run_id
           (percent_of (i + j)%nat (plan_total_jobs plan)) (job_name job)
         = Ret ())
  | Raise e =>
      exists n job,
        jobs !! n = Some job /\
        st' = fold_left (execute_step run_id model) (take n jobs) st /\
        ((e = "division by zero" /\ plan_total_jobs plan = 0 /\ n = 0%nat) \/
         (plan_total_jobs plan <> 0 /\
          (forall j job',
             (j < n)%nat -> jobs !! j = Some job' ->
             _report_progress callback (i + j) run_id
               (percent_of (i + j)%nat (plan_total_jobs plan)) (job_name job')
             = Ret ()) /\
          _report_progress callback (i + n) run_id
            (percent_of (i + n)%nat (plan_total_jobs plan)) (job_name job)
          = Raise e))
  end.
Proof.
  revert i st. induction jobs as [|job jobs IH]; intros i st; simpl.
  { intros [= <- <-]. split; [done |]. split; [by right |]. done. }
  destruct (Z.eqb_spec (plan_total_jobs plan) 0) as [Hz | Hnz].
  { intros [= <- <-]. exists 0%nat, job. split; [done |]. split; [done |].
    by left. }
  destruct (_report_progress callback i run_id _ (job_name job))
    as [[] | e0] eqn:Hcall.
  - intros Hrest. apply IH in Hrest. destruct r as [[] | e].
    + destruct Hrest as (Hst & _ & Hcalls). split; [done |].
      split; [by left |]. intros [|j] job' Hjob.
      * injection Hjob as <-. by rewrite Nat.add_0_r.
      * replace (i + Datatypes.S j)%nat with (Datatypes.S i + j)%nat by lia.
        by apply Hcalls.
    + destruct Hrest as (n & job' & Hjob & Hst & Hsource).
      exists (Datatypes.S n), job'. split; [done |]. split; [done |]. right.
      destruct Hsource as [(_ & Hz & _) | (_ & Hbefore & Hsource)]; [done |].
      split; [done |]. split.
      * intros [|j] job'' Hlt Hjob''.
        -- injection Hjob'' as <-. by rewrite Nat.add_0_r.
        -- replace (i + Datatypes.S j)%nat with (Datatypes.S i + j)%nat
             by lia.
           apply Hbefore; [lia | done].
      * by replace (i + Datatypes.S n)%nat with (Datatypes.S i + n)%nat
          by lia.
  - intros [= <- <-]. exists 0%nat, job. split; [done |]. split; [done |].
    right. split; [done |]. split; [intros j job' Hlt; lia |].
    by rewrite Nat.add_0_r.
Qed.

Lemma execute_loop_with_callback_returns callback percent_of plan jobs i
    (st : LoopState A S) :
  plan_total_jobs plan <> 0 \/ jobs = [] ->
  (forall j job,
     jobs !! j = Some job ->
     _report_progress callback (i + j) run_id
       (percent_of (i + j)%nat (plan_total_jobs plan)) (job_name job)
     = Ret ()) ->
  execute_loop_with_callback callback percent_of run_id plan model i jobs st
  = (Ret (), fold_left (execute_step run_id model) jobs st).
Proof.
  revert i st. induction jobs as [|job jobs IH]; intros i st Htotal Hcalls;
    simpl; [done |].
  destruct Htotal as [Hnz | Hnil]; [| done].
  destruct (Z.eqb_spec (plan_total_jobs plan) 0) as [Hz | _]; [done |].
  pose proof (Hcalls 0%nat job eq_refl) as Hfirst.
  rewrite Nat.add_0_r in Hfirst. rewrite Hfirst.
  apply IH; [by left |]. intros j job' Hjob.
  replace (Datatypes.S i + j)%nat with (i + Datatypes.S j)%nat by lia.
  by apply Hcalls.
Qed.

Lemma execute_loop_with_callback_stops callback percent_of plan jobs i
    (st : LoopState A S) n job e :
  plan_total_jobs plan <> 0 ->
  jobs !! n = Some job ->
  (forall j job',
     (j < n)%nat -> jobs !! j = Some job' ->
     _report_progress callback (i + j) run_id
       (percent_of (i + j)%nat (plan_total_jobs plan)) (job_name job')
     = Ret ()) ->
  _report_progress callback (i + n) run_id
    (percent_of (i + n)%nat (plan_total_jobs plan)) (job_name job)
  = Raise e ->
  execute_loop_with_callback callback percent_of run_id plan model i jobs st
  = (Raise e, fold_left (execute_step run_id model) (take n jobs) st).
Proof.
  intros Hnz. revert i st n.
  induction jobs as [|first jobs IH]; intros i st n Hjob Hbefore Hcall;
    [done |].
  simpl. destruct (Z.eqb_spec (plan_total_jobs plan) 0) as [Hz | _]; [done |].
  destruct n as [|n].
  - injection Hjob as ->. rewrite Nat.add_0_r in Hcall. by rewrite Hcall.
  - pose proof (Hbefore 0%nat first ltac:(lia) eq_refl) as Hfirst.
    rewrite Nat.add_0_r in Hfirst. rewrite Hfirst. simpl. apply IH.
    + done.
    + intros j job' Hlt Hjob'.
      replace (Datatypes.S i + j)%nat with (i + Datatypes.S j)%nat by lia.
      apply Hbefore; [lia | done].
    + by replace (Datatypes.S i + n)%nat with (i + Datatypes.S n)%nat by lia.
Qed.

(** A callback that never raises, or none at all, leaves the loop and
    [execute] as they are without one. *)
Lemma execute_loop_quiet_callback callback percent_of plan jobs i
    (st : LoopState A S) :
  (forall k r percent current_job,
     _report_progress callback k r percent current_job = Ret ()) ->
  execute_loop_with_callback callback percent_of run_id plan model i jobs st
  = match execute_loop run_id plan model jobs st with
    | Ret st' => (Ret (), st')
    | Raise e => (Raise e, st)
    end.
Proof.
  intros Hquiet. revert i st.
  induction jobs as [|job jobs IH]; intros i st; simpl; [done |].
  destruct (Z.eqb_spec (plan_total_jobs plan) 0) as [Hz | Hnz]; [done |].
  rewrite Hquiet, IH.
  destruct (execute_loop run_id plan model jobs
              (execute_step run_id model st job)) as [st' | e] eqn:Hloop;
    [done |].
  by apply execute_loop_raises in Hloop as (_ & Hz & _).
Qed.

Lemma execute_quiet_callback callback percent_of plan (ex : JobExecutor A S) :
  (forall k r percent current_job,
     _report_progress callback k r percent current_job = Ret ()) ->
  JobExecutor_execute_with_callback registry factory callback percent_of
    run_id plan model ex
  = JobExecutor_execute registry factory run_id plan model ex.
Proof.
  intros Hquiet. unfold JobExecutor_execute_with_callback, JobExecutor_execute.
  destruct (prepare registry factory run_id plan model ex)
    as [[[] | e0] ex2]; [| done].
  rewrite execute_loop_quiet_callback by done.
  destruct (execute_loop run_id plan model (plan_jobs plan)
              (initial_state ex2)) as [st | e0]; [| done].
  destruct (save_summary run_id _ _) as [[[] | e0] st1]; [| done].
  destruct (save_artifact run_id _ _ _ _) as [[path | e0] st2]; [| done].
  by rewrite Hquiet.
Qed.

(** X11. Whenever [execute] raises, with or without a progress callback,
    the cleanup has not run: the executor is left with the run still
    noted as current, its pool still holds an adapter for every system it
    held one for, and no adapter has been disconnected.  [execute] raises
    in exactly six cases, never because of a job or of the cleanup: the
    preparation raises; [total_jobs] is 0 and there is a job, which is a
    division by zero at the first job; the progress callback raises before
    job [i], the calls before it having returned, which leaves the
    executor as the [i] jobs before it have made it and the remaining jobs
    not handled; and, when the loop has come to its end, [save_summary]
    raises on the summary of the run in the storage the loop has left,
    [save_artifact] raises on that summary, or the progress callback
    raises when it is told that the run is complete, after the summary has
    been saved. *)
Theorem execute_raise_skips_cleanup callback percent_of plan
    (ex ex' : JobExecutor A S) e :
  (JobExecutor_execute_with_callback registry factory callback percent_of
     run_id plan model ex = (Raise e, ex') ->
   _current_run ex' = Some run_id /\ pool_kept ex ex') /\
  (JobExecutor_execute_with_callback registry factory callback percent_of
     run_id plan model ex = (Raise e, ex') <->
   prepare registry factory run_id plan model ex = (Raise e, ex') \/
   exists ex2,
     prepare registry factory run_id plan model ex = (Ret (), ex2) /\
     let st := fold_left (execute_step run_id model) (plan_jobs plan)
                         (initial_state ex2) in
     let summary := summarize run_id plan model st in
     let loop_ends :=
       (plan_total_jobs plan <> 0 \/ plan_jobs plan = []) /\
       forall j job,
         plan_jobs plan !! j = Some job ->
         _report_progress callback j run_id
           (percent_of j (plan_total_jobs plan)) (job_name job) = Ret () in
     ((e = "division by zero" /\ plan_total_jobs plan = 0 /\
       plan_jobs plan <> [] /\ ex' = ex2) \/
      (exists i job,
         plan_jobs plan !! i = Some job /\ plan_total_jobs plan <> 0 /\
         (forall j job',
            (j < i)%nat -> plan_jobs plan !! j = Some job' ->
            _report_progress callback j run_id
              (percent_of j (plan_total_jobs plan)) (job_name job')
            = Ret ()) /\
         _report_progress callback i run_id
           (percent_of i (plan_total_jobs plan)) (job_name job) = Raise e /\
         ex' = executor (fold_left (execute_step run_id model)
                           (take i (plan_jobs plan)) (initial_state ex2))) \/
      (loop_ends /\
       exists st1,
         save_summary run_id summary (storage (executor st))
           = (Raise e, st1) /\
         ex' = set_storage (executor st) st1) \/
      (loop_ends /\
       exists st1 st2,
         save_summary run_id summary (storage (executor st))
           = (Ret (), st1) /\
         save_artifact run_id "" "summary.json" summary st1
           = (Raise e, st2) /\
         ex' = set_storage (executor st) st2) \/
      (loop_ends /\
       exists st1 path st2,
         save_summary run_id summary (storage (executor st))
           = (Ret (), st1) /\
         save_artifact run_id "" "summary.json" summary st1
           = (Ret path, st2) /\
         _report_progress callback (length (plan_jobs plan)) run_id 100
           "Complete" = Raise e /\
         ex' = set_storage (executor st) st2))).
Proof.
  assert (Hsources :
    JobExecutor_execute_with_callback registry factory callback percent_of
      run_id plan model ex = (Raise e, ex') <->
    prepare registry factory run_id plan model ex = (Raise e, ex') \/
    exists ex2,
      prepare registry factory run_id plan model ex = (Ret (), ex2) /\
      let st := fold_left (execute_step run_id model) (plan_jobs plan)
                          (initial_state ex2) in
      let summary := summarize run_id plan model st in
      let loop_ends :=
        (plan_total_jobs plan <> 0 \/ plan_jobs plan = []) /\
        forall j job,
          plan_jobs plan !! j = Some job ->
          _report_progress callback j run_id
            (percent_of j (plan_total_jobs plan)) (job_name job) = Ret () in
      ((e = "division by zero" /\ plan_total_jobs plan = 0 /\
        plan_jobs plan <> [] /\ ex' = ex2) \/
       (exists i job,
          plan_jobs plan !! i = Some job /\ plan_total_jobs plan <> 0 /\
          (forall j job',
             (j < i)%nat -> plan_jobs plan !! j = Some job' ->
             _report_progress callback j run_id
               (percent_of j (plan_total_jobs plan)) (job_name job')
             = Ret ()) /\
          _report_progress callback i run_id
            (percent_of i (plan_total_jobs plan)) (job_name job) = Raise e /\
          ex' = executor (fold_left (execute_step run_id model)
                            (take i (plan_jobs plan)) (initial_state ex2))) \/
       (loop_ends /\
        exists st1,
          save_summary run_id summary (storage (executor st))
            = (Raise e, st1) /\
          ex' = set_storage (executor st) st1) \/
       (loop_ends /\
        exists st1 st2,
          save_summary run_id summary (storage (executor st))
            = (Ret (), st1) /\
          save_artifact run_id "" "summary.json" summary st1
            = (Raise e, st2) /\
          ex' = set_storage (executor st) st2) \/
       (loop_ends /\
        exists st1 path st2,
          save_summary run_id summary (storage (executor st))
            = (Ret (), st1) /\
          save_artifact run_id "" "summary.json" summary st1
            = (Ret path, st2) /\
          _report_progress callback (length (plan_jobs plan)) run_id 100
            "Complete" = Raise e /\
          ex' = set_storage (executor st) st2))).
  { cbn zeta. unfold JobExecutor_execute_with_callback. split.
    - destruct (prepare registry factory run_id plan model ex)
        as [[[] | e0] ex2] eqn:Hprep; [| intros [= <- <-]; by left].
      intros Hrun. right. exists ex2. split; [done |]. revert Hrun.
      destruct (execute_loop_with_callback callback percent_of run_id plan
                  model 0 (plan_jobs plan) (initial_state ex2))
        as [[[] | e0] st] eqn:Hloop;
        apply execute_loop_with_callback_spec in Hloop.
      2: { intros [= <- <-].
           destruct Hloop as (n & job & Hjob & -> & Hsource).
           destruct Hsource as [(-> & Hz & ->) | (Hnz & Hbefore & Hcall)].
           - left. split; [done |]. split; [done |]. split; [| done].
             intros Hnil. by rewrite Hnil in Hjob.
           - right. left. by exists n, job. }
      destruct Hloop as (-> & Htotal & Hcalls).
      destruct (save_summary run_id _ _) as [[[] | e0] st1] eqn:Hsum.
      2: { intros [= <- <-]. right. right. left. split; [done |].
           by exists st1. }
      destruct (save_artifact run_id "" "summary.json" _ st1)
        as [[path | e0] st2] eqn:Hart.
      2: { intros [= <- <-]. right. right. right. left. split; [done |].
           by exists st1, st2. }
      destruct (_report_progress callback (length (plan_jobs plan)) run_id
                  100 "Complete") as [[] | e0] eqn:Hcall.
      2: { intros [= <- <-]. do 4 right. split; [done |].
           by exists st1, path, st2. }
      match goal with
      | |- context [_cleanup ?x] =>
          pose proof (cleanup_returns x) as Hclean;
          destruct (_cleanup x) as [[[] | e0] ex5]
      end; done.
    - intros [Hprep | (ex2 & Hprep & Hsource)]; rewrite Hprep; [done |].
      destruct Hsource
        as [(-> & Hz & Hjobs & ->)
           | [(i & job & Hjob & Hnz & Hbefore & Hcall & ->)
             | [([Htotal Hcalls] & st1 & Hsum & ->)
               | [([Htotal Hcalls] & st1 & st2 & Hsum & Hart & ->)
                 | ([Htotal Hcalls] & st1 & path & st2 & Hsum & Hart
                    & Hcall & ->)]]]].
      + destruct (plan_jobs plan) as [|job jobs]; [done |]. simpl.
        by rewrite Hz.
      + by rewrite (execute_loop_with_callback_stops callback percent_of
                      plan (plan_jobs plan) 0 (initial_state ex2) i job e).
      + rewrite execute_loop_with_callback_returns by done.
        by rewrite Hsum.
      + rewrite execute_loop_with_callback_returns by done.
        by rewrite Hsum, Hart.
      + rewrite execute_loop_with_callback_returns by done.
        by rewrite Hsum, Hart, Hcall. }
  split; [| exact Hsources].
  intros Hrun. apply Hsources in Hrun. cbn zeta in Hrun.
  destruct Hrun as [Hprep | (ex2 & Hprep & Hsource)].
  { apply prepare_keeps in Hprep as (Hr & _ & Hk & _). done. }
  apply prepare_keeps in Hprep as (Hr & _ & Hk & _).
  assert (Hfold : forall jobs,
            _current_run (executor (fold_left (execute_step run_id model) jobs
                                      (initial_state ex2))) = Some run_id /\
            pool_kept ex (executor (fold_left (execute_step run_id model) jobs
                                      (initial_state ex2)))).
  { intros jobs.
    destruct (execute_fold_keeps jobs (initial_state ex2)) as (_ & Hr' & Hk').
    simpl in Hr', Hk'. split; [congruence |].
    exact (pool_kept_trans _ _ _ Hk Hk'). }
  destruct Hsource
    as [(_ & _ & _ & ->)
       | [(i & job & _ & _ & _ & _ & ->)
         | [(_ & st1 & _ & ->)
           | [(_ & st1 & st2 & _ & _ & ->)
             | (_ & st1 & path & st2 & _ & _ & _ & ->)]]]].
  - done.
  - apply Hfold.
  - apply (Hfold (plan_jobs plan)).
  - apply (Hfold (plan_jobs plan)).
  - apply (Hfold (plan_jobs plan)).
Qed.

Lemma results_inv_step n (st : LoopState A S) job :
  results_inv n st ->
  results_inv (n + 1) (execute_step run_id model st job).
Proof.
  unfold results_inv, execute_step. intros [Hgo Hstop].
  destruct (stop_execution st) eqn:Hflag.
  - destruct (Hstop eq_refl) as (Hf & Hlen & Hex). simpl.
    split; [done |]. intros _. rewrite length_app. simpl.
    split; [done |]. split; [lia |]. apply Exists_app. by left.
  - destruct (Hgo eq_refl) as (Hf & Hlen & Hall).
    destruct (_execute_job job model run_id (executor st))
      as [[result | e] ex1].
    + destruct (save_job_result _ _ _ _ _) as [[path | e] st1].
      * case_decide as Hstatus; simpl.
        -- split; [| done]. intros _. rewrite length_app. simpl.
           split; [done |]. split; [lia |]. apply Forall_app.
           split; [done |]. constructor; [| constructor]. simpl.
           split; [done |]. by destruct (res_artifacts result).
        -- split; [done |]. intros _. rewrite length_app. simpl.
           split; [lia |]. split; [lia |]. apply Exists_app. right.
           by constructor.
      * simpl. split; [done |]. intros _. rewrite !length_app. simpl.
        split; [lia |]. split; [lia |]. apply Exists_app. right.
        by constructor.
    + simpl. split; [done |]. intros _. rewrite length_app. simpl.
      split; [lia |]. split; [lia |]. apply Exists_app. right.
      by constructor.
Qed.

Lemma results_inv_fold jobs n (st : LoopState A S) :
  results_inv n st ->
  results_inv (n + length jobs)
              (fold_left (execute_step run_id model) jobs st).
Proof.
  revert n st. induction jobs as [|job jobs IH]; intros n st Hinv; simpl.
  - by rewrite Nat.add_0_r.
  - replace (n + Datatypes.S (length jobs))%nat
      with (n + 1 + length jobs)%nat by lia.
    by apply IH, results_inv_step.
Qed.

Lemma run_state plan (ex : JobExecutor A S) summary ex' :
  JobExecutor_execute registry factory run_id plan model ex
    = (Ret summary, ex') ->
  exists st : LoopState A S,
    summary = summarize run_id plan model st /\
    results_inv (length (plan_jobs plan)) st /\
    counted (Z.of_nat (length (plan_jobs plan))) st.
Proof.
  unfold JobExecutor_execute.
  destruct (prepare registry factory run_id plan model ex)
    as [[[] | e0] ex2]; [| done].
  destruct (execute_loop run_id plan model (plan_jobs plan)
              (initial_state ex2)) as [st | e0] eqn:Hloop; [| done].
  apply execute_loop_fold in Hloop.
  destruct (save_summary run_id _ _) as [[[] | e0] st1]; [| done].
  destruct (save_artifact run_id _ _ _ _) as [[path | e0] st2]; [| done].
  destruct (_cleanup _) as [[[] | e0] ex4]; [| done].
  intros [= <- <-]. exists st. split; [done |]. rewrite Hloop. split.
  - apply (results_inv_fold _ 0). unfold results_inv. simpl.
    split; [| done]. intros _. split; [done |]. split; [done | constructor].
  - replace (Z.of_nat (length (plan_jobs plan)))
      with (0 + Z.of_nat (length (plan_jobs plan))) by lia.
    apply counted_fold. unfold counted. simpl. repeat split; try lia; done.
Qed.

(** X12. For every plan, whatever its [total_jobs] says, the summary of a
    run counts every job of [plan.jobs] once as completed, failed or
    skipped; at most one job is counted as failed; and the list of job
    results has one entry per job, or one more when a failure left two
    entries behind. *)
Theorem run_counts_any_plan plan (ex : JobExecutor A S) summary ex' :
  JobExecutor_execute registry factory run_id plan model ex
    = (Ret summary, ex') ->
  sum_completed_jobs summary + sum_failed_jobs summary
    + sum_skipped_jobs summary = Z.of_nat (length (plan_jobs plan)) /\
  0 <= sum_failed_jobs summary <= 1 /\
  (length (plan_jobs plan) <= length (sum_job_results summary)
   <= length (plan_jobs plan) + Z.to_nat (sum_failed_jobs summary))%nat.
Proof.
  intros (st & -> & [Hgo Hstop] & Hsum & _)%run_state. simpl.
  split; [done |].
  destruct (stop_execution st).
  - destruct (Hstop eq_refl) as (-> & Hlen & _). split; [lia |].
    simpl. lia.
  - destruct (Hgo eq_refl) as (-> & Hlen & _). split; [lia |]. simpl. lia.
Qed.

(** X13. A run has the status [COMPLETED] exactly when every job result
    in its summary is [COMPLETED]; the summary then holds exactly one
    result per job and every result carries at least one artifact
    path. *)
Theorem run_completed_results plan (ex : JobExecutor A S) summary ex' :
  JobExecutor_execute registry factory run_id plan model ex
    = (Ret summary, ex') ->
  (sum_status summary = RUN_COMPLETED <->
   Forall (fun r => res_status r = COMPLETED) (sum_job_results summary)) /\
  (sum_status summary = RUN_COMPLETED ->
   length (sum_job_results summary) = length (plan_jobs plan) /\
   Forall (fun r => res_artifacts r <> []) (sum_job_results summary)).
Proof.
  intros (st & -> & [Hgo Hstop] & Hcounted)%run_state. simpl.
  destruct Hcounted as (_ & _ & _ & _ & Hzero & Hone).
  destruct (stop_execution st).
  - destruct (Hstop eq_refl) as (Hf & _ & Hex). rewrite Hf. simpl.
    split; [| done]. split; [done |]. intros Hall. exfalso.
    apply Exists_exists in Hex as (r & Hr & Hne).
    rewrite Forall_forall in Hall. by apply Hne, Hall.
  - destruct (Hgo eq_refl) as (Hf & Hlen & Hall).
    destruct (Hzero eq_refl) as [_ Hs]. rewrite Hf, Hs. simpl. split.
    + split; [| done]. intros _. eapply Forall_impl; [exact Hall |].
      by intros r [? _].
    + intros _. split; [done |]. eapply Forall_impl; [exact Hall |].
      by intros r [_ ?].
Qed.
End ExecutorMore.

Lemma prepare_makes_ready_witness :
  let plan := create_plan sample_uuid4 "run1" sample_model in
  let ex2 := (prepare sample_registry sample_factory "run1" plan sample_model
                sample_executor).2 in
  ready plan ex2 /\
  (forall jobs,
     ready plan
       (executor (fold_left (execute_step "run1" sample_model) jobs
                            (initial_state ex2)))) /\
  (forall (ex3 : JobExecutor MemoryAdapter MemoryStorage) job,
     ready plan ex3 -> job ∈ plan_jobs plan ->
     exists rest,
       calls (_execute_job job sample_model "run1" ex3).2
       = calls ex3 ++ EvValidate (job_id job) :: rest).
Proof.
  cbn zeta.
  apply (prepare_makes_ready sample_registry sample_factory "run1"
           sample_model (create_plan sample_uuid4 "run1" sample_model)
           sample_executor).
  apply pair_of_fst, returned_Ret. vm_compute. reflexivity.
Defined.

Lemma zero_total_jobs_raises_witness :
  let ex2 := (prepare sample_registry sample_factory "run1" uncounted_plan
                customizing_model sample_executor).2 in
  JobExecutor_execute sample_registry sample_factory "run1" uncounted_plan
    customizing_model sample_executor
    = (Raise "division by zero", ex2) /\
  ready uncounted_plan ex2 /\ pool_kept sample_executor ex2.
Proof.
  cbn zeta.
  apply (zero_total_jobs_raises sample_registry sample_factory "run1"
           customizing_model uncounted_plan sample_executor).
  - reflexivity.
  - discriminate.
  - apply pair_of_fst, returned_Ret. vm_compute. reflexivity.
Defined.

Lemma execute_raise_skips_cleanup_witness :
  (let run := JobExecutor_execute_with_callback sample_registry
                sample_factory (Some failing_callback) quarter_percent "run1"
                (create_plan sample_uuid4 "run1" sample_model) sample_model
                sample_executor in
   run.1 = Raise "progress store unavailable" /\
   _current_run run.2 = Some "run1" /\ pool_kept sample_executor run.2 /\
   length (ms_written (storage run.2)) = 1%nat) /\
  (let run := JobExecutor_execute_with_callback sample_registry
                sample_factory None quarter_percent "run1" uncounted_plan
                customizing_model sample_executor in
   run.1 = Raise "division by zero" /\
   _current_run run.2 = Some "run1" /\ pool_kept sample_executor run.2).
Proof.
  cbn zeta. split.
  - assert (Hrun : (JobExecutor_execute_with_callback sample_registry
                      sample_factory (Some failing_callback) quarter_percent
                      "run1" (create_plan sample_uuid4 "run1" sample_model)
                      sample_model sample_executor).1
                   = Raise "progress store unavailable")
      by (vm_compute; reflexivity).
    split; [exact Hrun |].
    apply pair_of_fst in Hrun.
    destruct (proj1 (execute_raise_skips_cleanup sample_registry
                       sample_factory "run1" sample_model
                       (Some failing_callback) quarter_percent
                       (create_plan sample_uuid4 "run1" sample_model)
                       sample_executor _ _) Hrun)
      as (Hcurrent & Hkept).
    split; [exact Hcurrent |]. split; [exact Hkept |].
    vm_compute. reflexivity.
  - assert (Hrun : (JobExecutor_execute_with_callback sample_registry
                      sample_factory None quarter_percent "run1"
                      uncounted_plan customizing_model sample_executor).1
                   = Raise "division by zero")
      by (vm_compute; reflexivity).
    split; [exact Hrun |].
    apply pair_of_fst in Hrun.
    destruct (proj1 (execute_raise_skips_cleanup sample_registry
                       sample_factory "run1" customizing_model None
                       quarter_percent uncounted_plan sample_executor _ _)
                Hrun)
      as (Hcurrent & Hkept).
    split; [exact Hcurrent | exact Hkept].
Defined.

Lemma run_counts_any_plan_witness :
  match (JobExecutor_execute sample_registry sample_factory "run1"
           (create_plan sample_uuid4 "run1" failing_model) failing_model
           sample_executor).1 with
  | Ret summary =>
      sum_completed_jobs summary + sum_failed_jobs summary
        + sum_skipped_jobs summary = 3 /\
      0 <= sum_failed_jobs summary <= 1 /\
      (3 <= length (sum_job_results summary)
       <= 3 + Z.to_nat (sum_failed_jobs summary))%nat
  | Raise _ => False
  end.
Proof.
  destruct (JobExecutor_execute sample_registry sample_factory "run1"
              (create_plan sample_uuid4 "run1" failing_model) failing_model
              sample_executor).1 as [summary | msg] eqn:Hrun.
  - apply pair_of_fst in Hrun.
    exact (run_counts_any_plan sample_registry sample_factory "run1"
             failing_model (create_plan sample_uuid4 "run1" failing_model)
             sample_executor summary _ Hrun).
  - apply (f_equal (fun o => bool_decide (is_Some (returned o)))) in Hrun.
    vm_compute in Hrun. discriminate Hrun.
Defined.

Lemma run_completed_results_witness :
  match (JobExecutor_execute sample_registry sample_factory "run1"
           (create_plan sample_uuid4 "run1" customizing_model)
           customizing_model sample_executor).1 with
  | Ret summary =>
      (sum_status summary = RUN_COMPLETED <->
       Forall (fun r => res_status r = COMPLETED)
              (sum_job_results summary)) /\
      (sum_status summary = RUN_COMPLETED ->
       length (sum_job_results summary) = 2%nat /\
       Forall (fun r => res_artifacts r <> []) (sum_job_results summary))
  | Raise _ => False
  end.
Proof.
  destruct (JobExecutor_execute sample_registry sample_factory "run1"
              (create_plan sample_uuid4 "run1" customizing_model)
              customizing_model sample_executor).1
    as [summary | msg] eqn:Hrun.
  - apply pair_of_fst in Hrun.
    exact (run_completed_results sample_registry sample_factory "run1"
             customizing_model
             (create_plan sample_uuid4 "run1" customizing_model)
             sample_executor summary _ Hrun).
  - apply (f_equal (fun o => bool_decide (is_Some (returned o)))) in Hrun.
    vm_compute in Hrun. discriminate Hrun.
Defined.

(** ** The registries *)

Lemma find_snoc {X : Type} (f : X -> bool) (l : list X) (x : X) :
  find f (l ++ [x])
  = match find f l with
    | Some y => Some y
    | None => if f x then Some x else None
    end.
Proof.
  induction l as [|y l IH]; simpl; [done |]. by destruct (f y).
Qed.

(** X14. [PluginRegistry.register] of a class under a name that is not
    yet taken: [get] finds the class under its name and every other name
    as before, the name is listed last, and [get_by_type] answers as
    before for every type that already had a handler: a second handler
    for a type never replaces the first one registered. *)
Theorem register_new_plugin {A : Type} (registry : list (string * Plugin A))
    (plugin_class : Plugin A) :
  dict_get registry (PLUGIN_NAME plugin_class) = None ->
  let registry' := PluginRegistry_register registry plugin_class in
  PluginRegistry_get registry' (PLUGIN_NAME plugin_class)
    = Some plugin_class /\
  (forall name, name <> PLUGIN_NAME plugin_class ->
     PluginRegistry_get registry' name = PluginRegistry_get registry name) /\
  PluginRegistry_available registry'
    = PluginRegistry_available registry ++ [PLUGIN_NAME plugin_class] /\
  (forall t,
     get_by_type registry' t
     = match get_by_type registry t with
       | Some first => Some first
       | None =>
           if decide (PLUGIN_TYPE plugin_class = t) then Some plugin_class
           else None
       end).
Proof.
  intros Hnew registry'. subst registry'.
  unfold PluginRegistry_register, PluginRegistry_get,
    PluginRegistry_available.
  split; [apply dict_get_set_eq |].
  split; [intros name Hne; by apply dict_get_set_ne |].
  apply dict_get_None in Hnew. rewrite (dict_set_fresh _ _ _ Hnew).
  split; [unfold dict_keys; by rewrite map_app |].
  intros t. unfold get_by_type. rewrite find_snoc.
  destruct (find _ registry) as [[name first]|]; [done |]. simpl.
  unfold bool_decide. by destruct (decide_rel eq _ _).
Qed.

Lemma register_new_plugin_witness :
  let registry' := PluginRegistry_register sample_registry audit_plugin in
  PluginRegistry_get registry' "audit" = Some audit_plugin /\
  (forall name, name <> "audit" ->
     PluginRegistry_get registry' name
     = PluginRegistry_get sample_registry name) /\
  PluginRegistry_available registry'
    = ["customizing"; "migration"; "testing"; "audit"] /\
  (forall t,
     get_by_type registry' t
     = match get_by_type sample_registry t with
       | Some first => Some first
       | None =>
           if decide (CUSTOMIZING = t) then Some audit_plugin else None
       end).
Proof.
  apply (register_new_plugin sample_registry audit_plugin). reflexivity.
Defined.

Section UnknownAdapter.
Context {A S : Type} `{SAPAdapter A} `{StorageManager S}.
Variable registry : list (string * Plugin A).
Variable factory : list (string * (string -> string -> outcome A)).
Variable run_id : string.
Variable model : ImplementationModel.

(** X15. With an adapter type that [AdapterFactory] does not know, a run
    of a plan with at least one job on an executor whose pool is empty
    raises before any job: the message names the type and lists the
    registered ones, no adapter has been created and no handler called;
    only the run id and the resolved handlers have been noted. *)
Theorem unknown_adapter_type_raises plan (ex : JobExecutor A S) :
  dict_get factory (adapter_type ex) = None ->
  (forall t, is_Some (get_by_type registry t)) ->
  plan_jobs plan <> [] ->
  _adapters ex = [] ->
  JobExecutor_execute registry factory run_id plan model ex
  = (Raise ("Unknown adapter type: " +:+ adapter_type ex +:+ ". Available: "
              +:+ py_repr (PList (map PStr (available_adapters factory)))),
     set_plugins (set_current_run ex (Some run_id)) (get_by_type registry)).
Proof.
  intros Hunknown Hall Hjobs Hpool.
  unfold JobExecutor_execute, prepare, _initialize_plugins. simpl.
  destruct (Hall CUSTOMIZING) as [pc ->].
  destruct (Hall MIGRATION) as [pm ->].
  destruct (Hall TESTING) as [pt ->]. simpl.
  destruct (remove_dups (map job_target_system (plan_jobs plan)))
    as [|system_id systems] eqn:Hsystems.
  { destruct (plan_jobs plan) as [|job jobs]; [done |].
    assert (Hin : job_target_system job
                  ∈ remove_dups (map job_target_system (job :: jobs)))
      by (apply elem_of_remove_dups; by left).
    rewrite Hsystems in Hin. by apply elem_of_nil in Hin. }
  simpl. unfold _get_or_create_adapter. simpl. rewrite Hpool. simpl.
  unfold AdapterFactory_create. simpl. by rewrite Hunknown.
Qed.
End UnknownAdapter.

Lemma unknown_adapter_type_raises_witness :
  let ex := new_executor {| ms_base := "./artifacts"; ms_written := [] |}
              "rfc" in
  (JobExecutor_execute sample_registry sample_factory "run1"
     (create_plan sample_uuid4 "run1" customizing_model) customizing_model
     ex).1
  = Raise "Unknown adapter type: rfc. Available: ['fake']".
Proof.
  cbn zeta.
  rewrite (unknown_adapter_type_raises sample_registry sample_factory "run1"
             customizing_model
             (create_plan sample_uuid4 "run1" customizing_model)).
  - reflexivity.
  - reflexivity.
  - intros []; by eexists.
  - discriminate.
  - reflexivity.
Defined.

(** ** Planned jobs and the handlers *)

Lemma py_in_strs_str (a : string) (xs : list string) :
  py_in_strs (PStr a) xs = true <-> a ∈ xs.
Proof.
  unfold py_in_strs. rewrite existsb_exists. split.
  - intros (x & Hx & Heq). simpl in Heq. apply String.eqb_eq in Heq.
    subst x. by apply list_elem_of_In.
  - intros Ha. exists a. split; [by apply list_elem_of_In |].
    simpl. apply String.eqb_refl.
Qed.

Lemma validate_steps_dict (i : nat) (d : list (string * pyval))
    (rest : list pyval) (a : string) :
  dict_get d "action" = Some (PStr a) ->
  dict_contains d "table" = true -> dict_contains d "key" = true ->
  dict_contains d "bapi" = true ->
  validate_steps i (PDict d :: rest)
  = match validate_steps (S i) rest with
    | Ret errors =>
        Ret ((if py_in_strs (PStr a) SUPPORTED_ACTIONS then []
              else ["Step " +:+ pretty i +:+ ": Unknown action '" +:+ a
                      +:+ "'. Supported: "
                      +:+ py_repr (PList (map PStr SUPPORTED_ACTIONS))])
             ++ errors)
    | Raise e => Raise e
    end.
Proof.
  intros Haction Htable Hkey Hbapi. cbn [validate_steps].
  unfold get_default. rewrite Haction, Htable, Hkey, Hbapi.
  destruct (validate_steps (S i) rest) as [errors | e]; [| done].
  by destruct (py_eq (PStr a) (PStr "set_table")),
       (py_eq (PStr a) (PStr "call_bapi")).
Qed.

(** The dumped steps of a package pass the steps loop of [validate]
    except for unknown actions: every dumped step has the keys [table],
    [key] and [bapi]. *)
Lemma validate_dumped_steps (i : nat) (steps : list CustomizingStep) :
  exists errors,
    validate_steps i (map step_model_dump steps) = Ret errors /\
    (errors = [] <->
     Forall (fun s => step_action s ∈ SUPPORTED_ACTIONS) steps).
Proof.
  revert i. induction steps as [|s steps IH]; intros i.
  { exists []. split; [done |]. split; [constructor | done]. }
  destruct (IH (S i)) as (errors & Hrest & Hiff).
  cbn [map]. unfold step_model_dump at 1.
  rewrite (validate_steps_dict i _ _ (step_action s)) by reflexivity.
  rewrite Hrest. eexists. split; [reflexivity |].
  rewrite Forall_cons, <- Hiff, <- py_in_strs_str.
  destruct (py_in_strs (PStr (step_action s)) SUPPORTED_ACTIONS).
  - cbn [app]. tauto.
  - split; [done |]. by intros [? _].
Qed.

Lemma validate_cases_dict (i : nat) (d : list (string * pyval))
    (rest : list pyval) (t : string) :
  dict_contains d "id" = true -> dict_get d "type" = Some (PStr t) ->
  validate_cases i (PDict d :: rest)
  = match validate_cases (S i) rest with
    | Ret errors =>
        Ret ((if py_in_strs (PStr t) SUPPORTED_TYPES then []
              else ["Test case " +:+ pretty i +:+ ": Unknown type '" +:+ t
                      +:+ "'. Supported: "
                      +:+ py_repr (PList (map PStr SUPPORTED_TYPES))])
             ++ errors)
    | Raise e => Raise e
    end.
Proof.
  intros Hid Htype. cbn [validate_cases]. rewrite Hid, Htype.
  by destruct (validate_cases (S i) rest).
Qed.

Lemma validate_dumped_cases (i : nat) (cases : list TestCase) :
  exists errors,
    validate_cases i (map case_model_dump cases) = Ret errors /\
    (errors = [] <->
     Forall (fun c => case_type c ∈ SUPPORTED_TYPES) cases).
Proof.
  revert i. induction cases as [|c cases IH]; intros i.
  { exists []. split; [done |]. split; [constructor | done]. }
  destruct (IH (S i)) as (errors & Hrest & Hiff).
  cbn [map]. unfold case_model_dump at 1.
  rewrite (validate_cases_dict i _ _ (case_type c)) by reflexivity.
  rewrite Hrest. eexists. split; [reflexivity |].
  rewrite Forall_cons, <- Hiff, <- py_in_strs_str.
  destruct (py_in_strs (PStr (case_type c)) SUPPORTED_TYPES).
  - cbn [app]. tauto.
  - split; [done |]. by intros [? _].
Qed.

Section PlannedJobs.
Variable uuid4 : nat -> N.

Lemma customizing_loop_config packages previous k i job :
  customizing_loop uuid4 packages previous k !! i = Some job ->
  exists package,
    packages !! i = Some package /\
    job_type job = CUSTOMIZING /\
    job_name job = "Customizing: " +:+ pkg_id package /\
    job_id job
      = "cust_" +:+ pkg_id package +:+ "_" +:+ hex6 (uuid4 (k + i)%nat) /\
    job_config job
      = [("id", PStr (pkg_id package));
         ("target", PStr (pkg_target package));
         ("steps", PList (map step_model_dump (pkg_steps package)));
         ("description", opt_str (pkg_description package))].
Proof.
  revert previous k i.
  induction packages as [|p ps IH]; intros previous k i; [done |].
  destruct i as [|i]; simpl.
  - intros [= <-]. exists p. rewrite Nat.add_0_r. done.
  - intros Hjob. apply IH in Hjob as (package & Hp & Hrest).
    exists package. split; [done |].
    by replace (k + S i)%nat with (S k + i)%nat by lia.
Qed.

Lemma migration_loop_config objects deps k i job :
  migration_loop uuid4 objects deps k !! i = Some job ->
  exists obj,
    objects !! i = Some obj /\
    job_type job = MIGRATION /\
    job_name job = "Migration: " +:+ obj_id obj /\
    dict_get (job_config job) "id" = Some (PStr (obj_id obj)) /\
    dict_get (job_config job) "source" = Some (PStr (obj_source obj)) /\
    dict_get (job_config job) "mapping"
      = Some (PDict (map (fun kv => (kv.1, PStr kv.2)) (obj_mapping obj))).
Proof.
  revert k i. induction objects as [|o os IH]; intros k i; [done |].
  destruct i as [|i]; simpl.
  - intros [= <-]. by exists o.
  - intros Hjob. by apply IH in Hjob.
Qed.

Lemma testing_loop_config suites deps k i job :
  testing_loop uuid4 suites deps k !! i = Some job ->
  exists suite,
    suites !! i = Some suite /\
    job_type job = TESTING /\
    job_name job = "Testing: " +:+ suite_id suite /\
    job_id job
      = "test_" +:+ suite_id suite +:+ "_" +:+ hex6 (uuid4 (k + i)%nat) /\
    job_config job
      = [("id", PStr (suite_id suite));
         ("target", PStr (suite_target suite));
         ("cases", PList (map case_model_dump (suite_cases suite)));
         ("description", opt_str (suite_description suite))].
Proof.
  revert k i. induction suites as [|s ss IH]; intros k i; [done |].
  destruct i as [|i]; simpl.
  - intros [= <-]. exists s. rewrite Nat.add_0_r. done.
  - intros Hjob. apply IH in Hjob as (suite & Hs & Hrest).
    exists suite. split; [done |].
    by replace (k + S i)%nat with (S k + i)%nat by lia.
Qed.

(** Every job of a plan comes from a package, an object or a suite of
    the model. *)
Lemma plan_job_origin run_id model job :
  job ∈ plan_jobs (create_plan uuid4 run_id model) ->
  (exists package k i,
     package ∈ customizing_packages model /\
     job_type job = CUSTOMIZING /\
     job_name job = "Customizing: " +:+ pkg_id package /\
     job_id job
       = "cust_" +:+ pkg_id package +:+ "_" +:+ hex6 (uuid4 (k + i)%nat) /\
     job_config job
       = [("id", PStr (pkg_id package));
          ("target", PStr (pkg_target package));
          ("steps", PList (map step_model_dump (pkg_steps package)));
          ("description", opt_str (pkg_description package))]) \/
  (exists obj,
     obj ∈ migration_objects model /\
     job_type job = MIGRATION /\
     job_name job = "Migration: " +:+ obj_id obj /\
     dict_get (job_config job) "id" = Some (PStr (obj_id obj)) /\
     dict_get (job_config job) "source" = Some (PStr (obj_source obj)) /\
     dict_get (job_config job) "mapping"
       = Some (PDict (map (fun kv => (kv.1, PStr kv.2)) (obj_mapping obj))))
  \/
  (exists suite k i,
     suite ∈ testing_suites model /\
     job_type job = TESTING /\
     job_name job = "Testing: " +:+ suite_id suite /\
     job_id job
       = "test_" +:+ suite_id suite +:+ "_" +:+ hex6 (uuid4 (k + i)%nat) /\
     job_config job
       = [("id", PStr (suite_id suite));
          ("target", PStr (suite_target suite));
          ("cases", PList (map case_model_dump (suite_cases suite)));
          ("description", opt_str (suite_description suite))]).
Proof.
  rewrite (plan_jobs_phases uuid4 run_id model).
  intros [Hjob | [Hjob | Hjob]%elem_of_app]%elem_of_app;
    apply list_elem_of_lookup in Hjob as [i Hi].
  - left. apply customizing_loop_config in Hi as (package & Hp & Hrest).
    exists package, 0%nat, i. split; [| done].
    by apply list_elem_of_lookup_2 in Hp.
  - right. left. apply migration_loop_config in Hi as (obj & Ho & Hrest).
    exists obj. split; [| done]. by apply list_elem_of_lookup_2 in Ho.
  - right. right. apply testing_loop_config in Hi as (suite & Hs & Hrest).
    eexists suite, _, i. split; [| exact Hrest].
    by apply list_elem_of_lookup_2 in Hs.
Qed.

(** X16. The [validate] of the handler of its type never raises on the
    configuration of a planned job, and it checks little of a model: a
    customizing job is accepted exactly when every step has a supported
    action (a [set_table] step without table or key passes, because the
    dumped step has the keys), a migration job exactly when its source
    is a supported one, a testing job exactly when every case has a
    supported type. *)
Theorem planned_jobs_validation run_id model job :
  job ∈ plan_jobs (create_plan uuid4 run_id model) ->
  (exists package errors,
     package ∈ customizing_packages model /\
     job_type job = CUSTOMIZING /\
     job_name job = "Customizing: " +:+ pkg_id package /\
     customizing_validate (job_config job) = Ret errors /\
     (errors = [] <->
      Forall (fun s => step_action s ∈ SUPPORTED_ACTIONS)
             (pkg_steps package))) \/
  (exists obj errors,
     obj ∈ migration_objects model /\
     job_type job = MIGRATION /\
     job_name job = "Migration: " +:+ obj_id obj /\
     migration_validate (job_config job) = Ret errors /\
     (errors = [] <-> obj_source obj ∈ SUPPORTED_SOURCES)) \/
  (exists suite errors,
     suite ∈ testing_suites model /\
     job_type job = TESTING /\
     job_name job = "Testing: " +:+ suite_id suite /\
     testing_validate (job_config job) = Ret errors /\
     (errors = [] <->
      Forall (fun c => case_type c ∈ SUPPORTED_TYPES) (suite_cases suite))).
Proof.
  intros [(package & k & i & Hin & Hty & Hname & _ & Hcfg)
         | [(obj & Hin & Hty & Hname & Hid & Hsrc & Hmap)
           | (suite & k & i & Hin & Hty & Hname & _ & Hcfg)]]%plan_job_origin.
  - left. destruct (validate_dumped_steps 0 (pkg_steps package))
      as (errors & Hsteps & Hiff).
    exists package, errors. split; [done |]. split; [done |].
    split; [done |]. rewrite Hcfg. unfold customizing_validate.
    cbn [dict_contains dict_get String.eqb Ascii.eqb Bool.eqb].
    rewrite Hsteps. done.
  - right. left. eexists obj, _. split; [done |]. split; [done |].
    split; [done |]. unfold migration_validate, dict_contains, get_default.
    rewrite Hid, Hsrc, Hmap. split; [reflexivity |].
    rewrite <- py_in_strs_str.
    by destruct (py_in_strs (PStr (obj_source obj)) SUPPORTED_SOURCES).
  - right. right. destruct (validate_dumped_cases 0 (suite_cases suite))
      as (errors & Hcases & Hiff).
    exists suite, errors. split; [done |]. split; [done |].
    split; [done |]. rewrite Hcfg. unfold testing_validate.
    cbn [dict_contains dict_get String.eqb Ascii.eqb Bool.eqb].
    rewrite Hcases. done.
Qed.
End PlannedJobs.

Lemma planned_jobs_validation_witness :
  exists job,
    plan_jobs (create_plan sample_uuid4 "run1" sample_model) !! 0%nat
      = Some job /\
    ((exists package errors,
        package ∈ customizing_packages sample_model /\
        job_type job = CUSTOMIZING /\
        job_name job = "Customizing: " +:+ pkg_id package /\
        customizing_validate (job_config job) = Ret errors /\
        (errors = [] <->
         Forall (fun s => step_action s ∈ SUPPORTED_ACTIONS)
                (pkg_steps package))) \/
     (exists obj errors,
        obj ∈ migration_objects sample_model /\
        job_type job = MIGRATION /\
        job_name job = "Migration: " +:+ obj_id obj /\
        migration_validate (job_config job) = Ret errors /\
        (errors = [] <-> obj_source obj ∈ SUPPORTED_SOURCES)) \/
     (exists suite errors,
        suite ∈ testing_suites sample_model /\
        job_type job = TESTING /\
        job_name job = "Testing: " +:+ suite_id suite /\
        testing_validate (job_config job) = Ret errors /\
        (errors = [] <->
         Forall (fun c => case_type c ∈ SUPPORTED_TYPES)
                (suite_cases suite)))).
Proof.
  destruct (plan_jobs (create_plan sample_uuid4 "run1" sample_model) !! 0%nat)
    as [job|] eqn:Hjob; [| by vm_compute in Hjob].
  exists job. split; [done |].
  apply (planned_jobs_validation sample_uuid4 "run1" sample_model job).
  by apply list_elem_of_lookup_2 in Hjob.
Defined.

Section PlannedSteps.
Context {A : Type} `{SAPAdapter A}.
Variable random : nat -> Q.

(** X17. The model of a customizing step has no field for the parameter
    name and value of a [set_parameter] step or for the report and variant
    of an [execute_report] step, so the dumped step of a planned job never
    carries them: every planned [set_parameter] step writes the value
    [None] for the parameter [UNKNOWN] to table [TPARA], and every planned
    [execute_report] step posts to the report [UNKNOWN] with an empty
    variant, whatever the configuration said. *)
Theorem planned_steps_lose_arguments (s : CustomizingStep)
    (d : list (string * pyval)) (adapter : A) :
  step_model_dump s = PDict d ->
  (step_action s = "set_parameter" ->
   _execute_step adapter d
   = match set_table (PStr "TPARA") (PDict [("PARAMID", PStr "UNKNOWN")])
                     (PDict [("PARVAL", PStr "None")]) adapter with
     | (Ret result, adapter') =>
         (Ret {| sr_success := tor_success result;
                 sr_message := "Parameter UNKNOWN set to None" |}, adapter')
     | (Raise e, adapter') => (Raise e, adapter')
     end) /\
  (step_action s = "execute_report" ->
   _execute_step adapter d
   = match call_api (PStr "/sap/bc/bsp/sap/zbsp_report/UNKNOWN")
                    (PStr "POST") PNone (PDict [("variant", PStr "")])
                    adapter with
     | (Ret result, adapter') =>
         (Ret {| sr_success := api_status_code result =? 200;
                 sr_message := "Report UNKNOWN executed" |}, adapter')
     | (Raise e, adapter') => (Raise e, adapter')
     end).
Proof.
  intros [= <-]. split; intros Haction; unfold _execute_step, get_default;
    cbn [dict_get String.eqb Ascii.eqb Bool.eqb]; rewrite Haction;
    reflexivity.
Qed.

(** X18. A planned test case of type [api] that declares no
    [expected_status] can never pass: the dumped case carries the key with
    the value [None], so the default 200 is not used and the status code
    of the response is compared with [None]. *)
Theorem planned_api_case_never_passes (c : TestCase)
    (d : list (string * pyval)) (env env' : Env A) (r : CaseResult) :
  case_model_dump c = PDict d ->
  case_type c = "api" ->
  case_expected_status c = None ->
  _execute_test_case random env d = (Ret r, env') ->
  cr_passed r = false.
Proof.
  intros [= <-] Htype Hstatus. unfold _execute_test_case, get_default.
  cbn [dict_get String.eqb Ascii.eqb Bool.eqb]. rewrite Htype.
  cbn [py_eq String.eqb Ascii.eqb Bool.eqb]. unfold _test_api, get_default.
  cbn [dict_get String.eqb Ascii.eqb Bool.eqb]. rewrite Hstatus.
  destruct (call_api _ _ _ _ _) as [[response | e] adapter']; [| done].
  cbn [py_eq andb]. by intros [= <- _].
Qed.
End PlannedSteps.

Lemma planned_steps_lose_arguments_witness :
  (_execute_step (ctx_adapter (env_ctx sample_env))
     [("action", PStr "set_parameter"); ("table", PNone); ("key", PNone);
      ("values", PNone); ("bapi", PNone); ("params", PNone)]).1
  = Ret {| sr_success := true;
           sr_message := "Parameter UNKNOWN set to None" |} /\
  (_execute_step (ctx_adapter (env_ctx sample_env))
     [("action", PStr "execute_report"); ("table", PNone); ("key", PNone);
      ("values", PNone); ("bapi", PNone); ("params", PNone)]).1
  = Ret {| sr_success := false; sr_message := "Report UNKNOWN executed" |}.
Proof.
  split.
  - rewrite (proj1 (planned_steps_lose_arguments parameter_step
                      [("action", PStr "set_parameter"); ("table", PNone);
                       ("key", PNone); ("values", PNone); ("bapi", PNone);
                       ("params", PNone)]
                      (ctx_adapter (env_ctx sample_env)) eq_refl) eq_refl).
    reflexivity.
  - rewrite (proj2 (planned_steps_lose_arguments report_step
                      [("action", PStr "execute_report"); ("table", PNone);
                       ("key", PNone); ("values", PNone); ("bapi", PNone);
                       ("params", PNone)]
                      (ctx_adapter (env_ctx sample_env)) eq_refl) eq_refl).
    reflexivity.
Defined.

Lemma planned_api_case_never_passes_witness :
  cr_passed <$>
    returned (_execute_test_case (fun _ => 1 # 2) sample_env
                [("id", PStr "t1"); ("type", PStr "api");
                 ("endpoint", PStr "/sap/health"); ("method", PStr "GET");
                 ("expected_status", PNone); ("expected_data", PNone);
                 ("description", PNone)]).1
  = Some false.
Proof.
  destruct (_execute_test_case (fun _ => 1 # 2) sample_env
              [("id", PStr "t1"); ("type", PStr "api");
               ("endpoint", PStr "/sap/health"); ("method", PStr "GET");
               ("expected_status", PNone); ("expected_data", PNone);
               ("description", PNone)])
    as [[r | e] env'] eqn:Hrun.
  - simpl. f_equal.
    exact (planned_api_case_never_passes (fun _ => 1 # 2) api_case
             [("id", PStr "t1"); ("type", PStr "api");
              ("endpoint", PStr "/sap/health"); ("method", PStr "GET");
              ("expected_status", PNone); ("expected_data", PNone);
              ("description", PNone)]
             sample_env env' r eq_refl eq_refl eq_refl Hrun).
  - vm_compute in Hrun. discriminate Hrun.
Defined.

Lemma append_longer (s t : string) : t <> "" -> s <> s +:+ t.
Proof.
  intros Ht Heq. apply (f_equal String.length) in Heq.
  rewrite append_length in Heq. destruct t; [done |]. simpl in Heq. lia.
Qed.

Section HandlerIds.
Context {A : Type} `{SAPAdapter A}.
Variable random : nat -> Q.
Variable uuid4 : nat -> N.

Lemma customizing_execute_id (env env' : Env A)
    (config : list (string * pyval)) (r : JobResult) :
  customizing_execute env config = (Ret r, env') ->
  res_job_id r = "cust_" +:+ py_str (get_default config "id" (PStr "UNKNOWN"))
  /\ res_job_type r = CUSTOMIZING.
Proof.
  unfold customizing_execute.
  destruct (py_len _) as [total | e]; [| done].
  destruct (py_iter _) as [steps | e]; [| done].
  destruct (customizing_steps _ _ _ _ _) as [[totals | e] env1]; [| done].
  destruct (if failed_steps totals =? 0 then _ else _) as [status final_log].
  by intros [= <- _].
Qed.

Lemma testing_execute_id (env env' : Env A)
    (config : list (string * pyval)) (r : JobResult) :
  testing_execute random env config = (Ret r, env') ->
  res_job_id r = "test_" +:+ py_str (get_default config "id" (PStr "UNKNOWN"))
  /\ res_job_type r = TESTING.
Proof.
  unfold testing_execute.
  destruct (py_len _) as [total | e]; [| done].
  destruct (py_iter _) as [cases | e]; [| done].
  destruct (testing_cases _ _ _ _ _ _) as [[totals | e] env1]; [| done].
  destruct (if failed_tests totals =? 0 then _ else _) as [status final_log].
  by intros [= <- _].
Qed.

(** X19. The result a handler returns for a planned job does not carry
    the job's id: the customizing and the testing handler rebuild an id
    from the package or suite identifier alone, so the id in the result
    is the job id without its last seven characters, the underscore and
    the random suffix.  A job result of a run cannot be matched with its
    job in the plan by id. *)
Theorem handler_result_id_differs run_id model job (env env' : Env A)
    (r : JobResult) :
  job ∈ plan_jobs (create_plan uuid4 run_id model) ->
  (job_type job = CUSTOMIZING /\
   customizing_execute env (job_config job) = (Ret r, env')) \/
  (job_type job = TESTING /\
   testing_execute random env (job_config job) = (Ret r, env')) ->
  res_job_id r <> job_id job /\
  exists suffix,
    String.length suffix = 6%nat /\
    job_id job = res_job_id r +:+ "_" +:+ suffix.
Proof.
  intros Hjob Hrun.
  assert (Hsuffix : exists suffix,
            String.length suffix = 6%nat /\
            job_id job = res_job_id r +:+ "_" +:+ suffix).
  { apply plan_job_origin in Hjob
      as [(package & k & i & _ & Hty & _ & Hid & Hcfg)
         | [(obj & _ & Hty & _)
           | (suite & k & i & _ & Hty & _ & Hid & Hcfg)]];
      destruct Hrun as [[Hty' Hrun] | [Hty' Hrun]]; try congruence.
    - apply customizing_execute_id in Hrun as [-> _]. rewrite Hcfg, Hid.
      eexists. split; [apply hex6_length |].
      unfold get_default. simpl dict_get. simpl py_str.
      by rewrite append_assoc.
    - apply testing_execute_id in Hrun as [-> _]. rewrite Hcfg, Hid.
      eexists. split; [apply hex6_length |].
      unfold get_default. simpl dict_get. simpl py_str.
      by rewrite append_assoc. }
  split; [| done]. destruct Hsuffix as (suffix & Hlen & ->).
  apply append_longer. done.
Qed.
End HandlerIds.

Lemma handler_result_id_differs_witness :
  exists job r,
    plan_jobs (create_plan sample_uuid4 "run1" customizing_model) !! 0%nat
      = Some job /\
    returned (customizing_execute sample_env (job_config job)).1 = Some r /\
    res_job_id r <> job_id job /\
    exists suffix,
      String.length suffix = 6%nat /\
      job_id job = res_job_id r +:+ "_" +:+ suffix.
Proof.
  destruct (plan_jobs (create_plan sample_uuid4 "run1" customizing_model)
              !! 0%nat) as [job|] eqn:Hjob; [| by vm_compute in Hjob].
  exists job.
  destruct (customizing_execute sample_env (job_config job))
    as [[r | e] env'] eqn:Hrun.
  - exists r. split; [done |]. split; [done |].
    apply (handler_result_id_differs (fun _ => 1 # 2) sample_uuid4 "run1"
             customizing_model job sample_env env' r).
    + by apply list_elem_of_lookup_2 in Hjob.
    + left. split; [| done]. vm_compute in Hjob. by injection Hjob as <-.
  - exfalso. vm_compute in Hjob. injection Hjob as <-.
    apply (f_equal (fun p => bool_decide (is_Some (returned p.1)))) in Hrun.
    vm_compute in Hrun. discriminate Hrun.
Defined.

(** ** The storage layer *)

Section StorageFacts.
Variable isalnum : ascii -> bool.

(** X20. The file name [save_job_result] derives from a job name has the
    length of the name, consists only of alphanumeric characters, [-]
    and [_], and is left as it is by a second pass; so it holds no path
    separator, and the artifact stays in the directory of its job
    type. *)
Theorem safe_name_is_safe (job_name : string) :
  String.length (safe_name isalnum job_name) = String.length job_name /\
  Forall (fun c => isalnum c = true \/ c = "-"%char \/ c = "_"%char)
         (list_ascii_of_string (safe_name isalnum job_name)) /\
  safe_name isalnum (safe_name isalnum job_name) = safe_name isalnum job_name
  /\
  (isalnum "/" = false ->
   "/"%char ∉ list_ascii_of_string (safe_name isalnum job_name)).
Proof.
  assert (Hsafe : Forall (fun c => isalnum c = true \/ c = "-"%char
                                   \/ c = "_"%char)
                    (list_ascii_of_string (safe_name isalnum job_name))).
  { induction job_name as [|c rest IH]; [constructor |]. simpl.
    constructor; [| done].
    destruct (isalnum c) eqn:Halnum; simpl; [by left |].
    destruct (Ascii.eqb_spec c "-") as [-> | _]; simpl; [right; by left |].
    destruct (Ascii.eqb_spec c "_") as [-> | _]; simpl; right; by right. }
  split; [| split; [done | split]].
  - clear Hsafe. induction job_name as [|c rest IH]; [done |]. simpl.
    by rewrite IH.
  - induction job_name as [|c rest IH]; [done |]. simpl.
    apply Forall_cons in Hsafe as [Hc Hrest]. rewrite (IH Hrest). f_equal.
    destruct Hc as [-> | [-> | ->]]; [done | |].
    + by destruct (isalnum "-").
    + by destruct (isalnum "_").
  - intros Hslash Hin. rewrite Forall_forall in Hsafe.
    destruct (Hsafe _ Hin) as [Halnum | [Heq | Heq]]; congruence.
Qed.
End StorageFacts.

(** Two package identifiers that share an artifact file. *)
Example safe_name_collision :
  safe_name ascii_isalnum "A/B" = safe_name ascii_isalnum "A_B".
Proof. reflexivity. Qed.

(** ** The simulated system *)

Lemma dict_get_remove_eq {V} (d : list (string * V)) (k : string) :
  dict_get (dict_remove d k) k = None.
Proof.
  induction d as [|[k' v] d IH]; [done |]. simpl.
  destruct (String.eqb_spec k' k) as [-> | Hne]; [done |]. simpl.
  by destruct (String.eqb_spec k' k).
Qed.

Lemma dict_get_remove_ne {V} (d : list (string * V)) (k k' : string) :
  k <> k' -> dict_get (dict_remove d k) k' = dict_get d k'.
Proof.
  intros Hne. induction d as [|[k0 v] d IH]; [done |]. simpl.
  destruct (String.eqb_spec k0 k) as [-> | Hne0].
  - by destruct (String.eqb_spec k k').
  - simpl. by rewrite IH.
Qed.

Lemma dict_get_update {V} (d e : list (string * V)) (k : string) :
  NoDup (dict_keys e) ->
  dict_get (dict_update d e) k
  = match dict_get e k with Some v => Some v | None => dict_get d k end.
Proof.
  unfold dict_update, dict_keys. revert d.
  induction e as [|[k' v] e IH]; intros d Hnd; [done |]. simpl in *.
  apply NoDup_cons in Hnd as [Hk' Hnd]. rewrite (IH _ Hnd).
  destruct (String.eqb_spec k' k) as [-> | Hne].
  - assert (dict_get e k = None) as -> by (by apply dict_get_None).
    apply dict_get_set_eq.
  - destruct (dict_get e k); [done |]. by apply dict_get_set_ne.
Qed.

Section FakeSAPFacts.
Variable random : nat -> Q.
Variable isoformat : nat -> string.
Variable strftime : nat -> string.

Lemma latency_keeps_rate (a : FakeSAPAdapter.t) :
  FakeSAPAdapter.failure_rate (FakeSAPAdapter._simulate_latency a)
  = FakeSAPAdapter.failure_rate a /\
  FakeSAPAdapter._tables (FakeSAPAdapter._simulate_latency a)
  = FakeSAPAdapter._tables a /\
  FakeSAPAdapter._api_calls (FakeSAPAdapter._simulate_latency a)
  = FakeSAPAdapter._api_calls a /\
  FakeSAPAdapter.clock (FakeSAPAdapter._simulate_latency a)
  = FakeSAPAdapter.clock a /\
  FakeSAPAdapter._connected (FakeSAPAdapter._simulate_latency a)
  = FakeSAPAdapter._connected a.
Proof.
  unfold FakeSAPAdapter._simulate_latency.
  by destruct (FakeSAPAdapter.simulate_latency a).
Qed.

Lemma load_records_counts object_type target_table mapping i data st :
  let st' := FakeSAPAdapter.load_records random isoformat strftime
               object_type target_table mapping i data st in
  FakeSAPAdapter.ls_loaded st' + FakeSAPAdapter.ls_failed st'
  = FakeSAPAdapter.ls_loaded st + FakeSAPAdapter.ls_failed st
    + Z.of_nat (length data) /\
  FakeSAPAdapter.ls_loaded st <= FakeSAPAdapter.ls_loaded st' /\
  FakeSAPAdapter.ls_failed st <= FakeSAPAdapter.ls_failed st' /\
  Z.of_nat (length (FakeSAPAdapter.ls_errors st'))
  = Z.of_nat (length (FakeSAPAdapter.ls_errors st))
    + (FakeSAPAdapter.ls_failed st' - FakeSAPAdapter.ls_failed st).
Proof.
  cbn zeta. revert i st. induction data as [|record data IH]; intros i st.
  { simpl. repeat split; try lia. }
  cbn [FakeSAPAdapter.load_records length].
  destruct (FakeSAPAdapter._should_fail random (FakeSAPAdapter.ls_adapter st))
    as [fail a1] eqn:Hfail.
  destruct fail.
  - match goal with |- context [FakeSAPAdapter.load_records _ _ _ _ _ _ _ _ ?s] =>
      destruct (IH (S i) s) as (Hsum & Hl & Hf & Herr) end.
    cbn [FakeSAPAdapter.ls_loaded FakeSAPAdapter.ls_failed
         FakeSAPAdapter.ls_errors FakeSAPAdapter.ls_adapter] in *.
    rewrite length_app in Herr. simpl in Herr.
    repeat split; lia.
  - match goal with |- context [FakeSAPAdapter.load_records _ _ _ _ _ _ _ _ ?s] =>
      destruct (IH (S i) s) as (Hsum & Hl & Hf & Herr) end.
    cbn [FakeSAPAdapter.ls_loaded FakeSAPAdapter.ls_failed
         FakeSAPAdapter.ls_errors FakeSAPAdapter.ls_adapter] in *.
    repeat split; lia.
Qed.

(** X21. [load_data] accounts for every record, whatever the failure
    rate: the loaded and the failed records add up to the records given,
    there is one error entry per failed record, the load counts as a
    success exactly when no record failed and as reconciled exactly when
    every record was loaded, and the result is kept under the object
    type. *)
Theorem load_data_accounts (object_type : string)
    (data : list (list (string * pyval))) (mapping : list (string * string))
    (a : FakeSAPAdapter.t) :
  let result := (FakeSAPAdapter.load_data random isoformat strftime
                   object_type data mapping a).1 in
  let a' := (FakeSAPAdapter.load_data random isoformat strftime
               object_type data mapping a).2 in
  dl_records_total result = Z.of_nat (length data) /\
  dl_records_loaded result + dl_records_failed result
    = dl_records_total result /\
  0 <= dl_records_loaded result /\ 0 <= dl_records_failed result /\
  Z.of_nat (length (dl_errors result)) = dl_records_failed result /\
  (dl_success result = true <-> dl_records_failed result = 0) /\
  (dict_get (dl_reconciliation result) "reconciled" = Some (PBool true)
   <-> dl_records_loaded result = dl_records_total result) /\
  dict_get (FakeSAPAdapter._migrations a') object_type = Some result.
Proof.
  cbn zeta. unfold FakeSAPAdapter.load_data. cbn zeta.
  match goal with |- context [FakeSAPAdapter.load_records _ _ _ ?o ?t ?m 0 data ?s] =>
    pose proof (load_records_counts o t m 0%nat data s) as Hcounts;
    cbn zeta in Hcounts;
    destruct (FakeSAPAdapter.load_records random isoformat strftime o t m 0
                data s) as [a3 loaded failed errors] end.
  cbn [FakeSAPAdapter.ls_loaded FakeSAPAdapter.ls_failed
       FakeSAPAdapter.ls_errors FakeSAPAdapter.ls_adapter] in Hcounts.
  destruct Hcounts as (Hsum & Hl & Hf & Herr). simpl in Herr.
  cbn [fst snd dl_records_total dl_records_loaded dl_records_failed
       dl_errors dl_success dl_reconciliation FakeSAPAdapter.ls_loaded
       FakeSAPAdapter.ls_failed FakeSAPAdapter.ls_errors
       FakeSAPAdapter.ls_adapter].
  split; [done |]. split; [lia |]. split; [lia |]. split; [lia |].
  split; [lia |]. split; [apply Z.eqb_eq |]. split.
  - cbn [dict_get String.eqb Ascii.eqb Bool.eqb].
    destruct (Z.eqb_spec loaded (Z.of_nat (length data))); split;
      intros; congruence.
  - simpl. apply dict_get_set_eq.
Qed.

(** [random.random()] returns a value of the interval from 0 to 1. *)
Hypothesis random_range : forall k, (0 <= random k)%Q.

Lemma should_fail_never (a : FakeSAPAdapter.t) :
  (FakeSAPAdapter.failure_rate a <= 0)%Q ->
  FakeSAPAdapter._should_fail random a
  = (false, FakeSAPAdapter.set_draws a (S (FakeSAPAdapter.draws a))).
Proof.
  intros Hrate. unfold FakeSAPAdapter._should_fail. f_equal.
  apply negb_false_iff, Qle_bool_iff.
  eapply Qle_trans; [exact Hrate | apply random_range].
Qed.

Lemma load_records_no_failure object_type target_table mapping i data st :
  (FakeSAPAdapter.failure_rate (FakeSAPAdapter.ls_adapter st) <= 0)%Q ->
  FakeSAPAdapter.ls_failed
    (FakeSAPAdapter.load_records random isoformat strftime object_type
       target_table mapping i data st)
  = FakeSAPAdapter.ls_failed st.
Proof.
  revert i st. induction data as [|record data IH]; intros i st Hrate.
  { done. }
  cbn [FakeSAPAdapter.load_records]. rewrite (should_fail_never _ Hrate).
  by rewrite IH.
Qed.

Lemma set_table_succeeds (table : string) (key values : list (string * pyval))
    (a : FakeSAPAdapter.t) :
  (FakeSAPAdapter.failure_rate a <= 0)%Q ->
  let rows := default [] (dict_get (FakeSAPAdapter._tables a) table) in
  let key_str := FakeSAPAdapter._make_key table key in
  let entry :=
    dict_set
      (dict_set (dict_update (dict_update [] key) values) "_MODIFIED_AT"
                (PStr (isoformat (FakeSAPAdapter.clock a))))
      "_MODIFIED_BY" (PStr "SAP_FACTORY") in
  let operation := if dict_contains rows key_str then "update" else "insert" in
  (FakeSAPAdapter.set_table random isoformat table key values a).1
  = {| tor_success := true; tor_operation := operation;
       tor_message := "Successfully " +:+ operation +:+ "ed entry";
       tor_affected_rows := 1 |} /\
  dict_get (FakeSAPAdapter._tables
              (FakeSAPAdapter.set_table random isoformat table key values a).2)
           table
  = Some (dict_set rows key_str entry) /\
  (forall other, other <> table ->
     dict_get (FakeSAPAdapter._tables
                 (FakeSAPAdapter.set_table random isoformat table key values
                    a).2) other
     = dict_get (FakeSAPAdapter._tables a) other) /\
  FakeSAPAdapter.failure_rate
    (FakeSAPAdapter.set_table random isoformat table key values a).2
  = FakeSAPAdapter.failure_rate a.
Proof.
  intros Hrate. cbn zeta. unfold FakeSAPAdapter.set_table.
  destruct (latency_keeps_rate a) as (Hr & Ht & _ & Hc & _).
  rewrite should_fail_never by (simpl; by rewrite Hr).
  cbn [FakeSAPAdapter._tables FakeSAPAdapter.set_draws
       FakeSAPAdapter.count_operation FakeSAPAdapter.clock
       FakeSAPAdapter.set_clock FakeSAPAdapter.set_tables
       FakeSAPAdapter.failure_rate fst snd].
  rewrite Ht, Hc, Hr.
  assert (Hrows : default [] (dict_get
                    (if dict_contains (FakeSAPAdapter._tables a) table
                     then FakeSAPAdapter._tables a
                     else dict_set (FakeSAPAdapter._tables a) table []) table)
                  = default [] (dict_get (FakeSAPAdapter._tables a) table)).
  { unfold dict_contains.
    destruct (dict_get (FakeSAPAdapter._tables a) table) eqn:Hget.
    - by rewrite Hget.
    - by rewrite dict_get_set_eq. }
  rewrite Hrows.
  split; [by destruct (dict_contains _ (FakeSAPAdapter._make_key table key)) |].
  split; [apply dict_get_set_eq |]. split; [| done].
  intros other Hne. rewrite dict_get_set_ne by done.
  destruct (dict_contains (FakeSAPAdapter._tables a) table); [done |].
  by apply dict_get_set_ne.
Qed.

Lemma get_table_all (table : string) (a : FakeSAPAdapter.t) :
  (FakeSAPAdapter.get_table table None None a).1
  = map snd (default [] (dict_get (FakeSAPAdapter._tables a) table)).
Proof.
  unfold FakeSAPAdapter.get_table.
  destruct (latency_keeps_rate a) as (_ & -> & _).
  by destruct (dict_get (FakeSAPAdapter._tables a) table).
Qed.

Lemma set_table_stores (table : string)
    (key values : list (string * pyval)) (a : FakeSAPAdapter.t) :
  (FakeSAPAdapter.failure_rate a <= 0)%Q ->
  NoDup (dict_keys key) -> NoDup (dict_keys values) ->
  let result :=
    (FakeSAPAdapter.set_table random isoformat table key values a).1 in
  let a' :=
    (FakeSAPAdapter.set_table random isoformat table key values a).2 in
  let rows := default [] (dict_get (FakeSAPAdapter._tables a) table) in
  let key_str := FakeSAPAdapter._make_key table key in
  tor_success result = true /\
  (tor_operation result = "insert" <-> dict_get rows key_str = None) /\
  (tor_operation result = "update" <-> is_Some (dict_get rows key_str)) /\
  exists entry,
    (FakeSAPAdapter.get_table table None None a').1
      = map snd (dict_set rows key_str entry) /\
    (forall field, field <> "_MODIFIED_AT" -> field <> "_MODIFIED_BY" ->
       dict_get entry field
       = match dict_get values field with
         | Some value => Some value
         | None => dict_get key field
         end) /\
    dict_get entry "_MODIFIED_BY" = Some (PStr "SAP_FACTORY").
Proof.
  intros Hrate Hkey Hvalues. cbn zeta.
  destruct (set_table_succeeds table key values a Hrate)
    as (Hresult & Htable & _ & _). cbn zeta in Hresult, Htable.
  rewrite Hresult, get_table_all, Htable. cbn [tor_success tor_operation].
  split; [done |]. unfold dict_contains.
  destruct (dict_get (default [] (dict_get (FakeSAPAdapter._tables a) table))
              (FakeSAPAdapter._make_key table key)) as [old|].
  - split; [done |]. split; [split; [by eexists | done] |].
    eexists. split; [reflexivity |]. split; [| apply dict_get_set_eq].
    intros field Hat Hby. rewrite !dict_get_set_ne by done.
    rewrite (dict_get_update _ values) by done.
    destruct (dict_get values field); [done |].
    rewrite (dict_get_update _ key) by done.
    by destruct (dict_get key field).
  - split; [done |]. split; [split; [done | by intros []] |].
    eexists. split; [reflexivity |]. split; [| apply dict_get_set_eq].
    intros field Hat Hby. rewrite !dict_get_set_ne by done.
    rewrite (dict_get_update _ values) by done.
    destruct (dict_get values field); [done |].
    rewrite (dict_get_update _ key) by done.
    by destruct (dict_get key field).
Qed.

Lemma key_parts_dict (key : list (string * pyval)) (key_fields : list string) :
  FakeSAPAdapter.key_parts (PDict key) key_fields
  = Ret (map (fun f => py_str (get_default key f (PStr ""))) key_fields).
Proof.
  induction key_fields as [|f fs IH]; [done |]. simpl. by rewrite IH.
Qed.

Lemma make_key_any_dict (table : string) (key : list (string * pyval)) :
  FakeSAPAdapter._make_key_any table (PDict key)
  = Ret (FakeSAPAdapter._make_key table key).
Proof.
  unfold FakeSAPAdapter._make_key_any, FakeSAPAdapter._make_key.
  by rewrite key_parts_dict.
Qed.

Lemma key_fields_nonempty (table : string) :
  default ["KEY"] (dict_get FakeSAPAdapter.TABLE_DEFINITIONS table) <> [].
Proof.
  destruct (dict_get FakeSAPAdapter.TABLE_DEFINITIONS table)
    as [fields|] eqn:Hget; [| done].
  apply dict_get_elem in Hget. simpl. intros ->.
  unfold FakeSAPAdapter.TABLE_DEFINITIONS in Hget.
  repeat (apply elem_of_cons in Hget as [Hget | Hget]; [done |]).
  by apply elem_of_nil in Hget.
Qed.

Lemma make_key_any_raises (table : string) (key : pyval) :
  (forall d, key <> PDict d) ->
  FakeSAPAdapter._make_key_any table key
  = Raise ("'" +:+ type_name key +:+ "' object has no attribute 'get'").
Proof.
  intros Hkey. unfold FakeSAPAdapter._make_key_any.
  pose proof (key_fields_nonempty table) as Hfields.
  destruct (default ["KEY"] (dict_get FakeSAPAdapter.TABLE_DEFINITIONS table))
    as [|f fs]; [done |].
  destruct key; try done. by destruct (Hkey d).
Qed.

(** On dictionaries [set_table_any] is [set_table]. *)
Lemma set_table_any_dict (table : string) (key values : list (string * pyval))
    (a : FakeSAPAdapter.t) :
  FakeSAPAdapter.set_table_any random isoformat table (PDict key)
    (PDict values) a
  = (Ret (FakeSAPAdapter.set_table random isoformat table key values a).1,
     (FakeSAPAdapter.set_table random isoformat table key values a).2).
Proof.
  unfold FakeSAPAdapter.set_table_any, FakeSAPAdapter.set_table.
  destruct (FakeSAPAdapter._should_fail random _) as [fail a1].
  destruct fail; [done |]. by rewrite make_key_any_dict.
Qed.

(** Where an exception leaves the adapter: the operation is counted, the
    table is there, and no row has changed. *)
Lemma set_table_any_interrupted (table : string) (key values : pyval)
    (a : FakeSAPAdapter.t) (e : string) :
  (FakeSAPAdapter.failure_rate a <= 0)%Q ->
  (FakeSAPAdapter.set_table_any random isoformat table key values a).1
  = Raise e ->
  let a' :=
    (FakeSAPAdapter.set_table_any random isoformat table key values a).2 in
  FakeSAPAdapter._operation_count a'
  = FakeSAPAdapter._operation_count a + 1 /\
  dict_get (FakeSAPAdapter._tables a') table
  = Some (default [] (dict_get (FakeSAPAdapter._tables a) table)) /\
  (forall other, other <> table ->
     dict_get (FakeSAPAdapter._tables a') other
     = dict_get (FakeSAPAdapter._tables a) other).
Proof.
  intros Hrate. cbn zeta. unfold FakeSAPAdapter.set_table_any.
  destruct (latency_keeps_rate a) as (Hr & Ht & _).
  rewrite should_fail_never by (simpl; by rewrite Hr).
  assert (Hstate :
    FakeSAPAdapter._operation_count (FakeSAPAdapter._simulate_latency a)
    = FakeSAPAdapter._operation_count a).
  { unfold FakeSAPAdapter._simulate_latency.
    by destruct (FakeSAPAdapter.simulate_latency a). }
  cbn [FakeSAPAdapter._tables FakeSAPAdapter.set_draws
       FakeSAPAdapter.count_operation FakeSAPAdapter.set_tables].
  rewrite Ht.
  assert (Hleft :
    FakeSAPAdapter._operation_count a + 1
    = FakeSAPAdapter._operation_count a + 1 /\
    dict_get (if dict_contains (FakeSAPAdapter._tables a) table
              then FakeSAPAdapter._tables a
              else dict_set (FakeSAPAdapter._tables a) table []) table
    = Some (default [] (dict_get (FakeSAPAdapter._tables a) table)) /\
    (forall other, other <> table ->
       dict_get (if dict_contains (FakeSAPAdapter._tables a) table
                 then FakeSAPAdapter._tables a
                 else dict_set (FakeSAPAdapter._tables a) table []) other
       = dict_get (FakeSAPAdapter._tables a) other)).
  { split; [done |]. unfold dict_contains.
    destruct (dict_get (FakeSAPAdapter._tables a) table) eqn:Hget.
    - split; [by rewrite Hget | done].
    - split; [by rewrite dict_get_set_eq |].
      intros other Hne. by apply dict_get_set_ne. }
  destruct (FakeSAPAdapter._make_key_any table key) as [key_str | e0].
  - destruct (FakeSAPAdapter.merge_entry key values) as [merged | e0];
      [done |].
    intros _. simpl. by rewrite Hstate.
  - intros _. simpl. by rewrite Hstate.
Qed.

(** X22. With a failure rate of 0, the default, [set_table] on a key and
    values that are dictionaries succeeds, as the typed [set_table] does,
    and [get_table] then shows it: the operation is an insert exactly
    when the table held no row under the key string of the key, an update
    otherwise; the rows of the table are those of before with the new
    entry under that key string, at the end for an insert and in place of
    the old row, of which nothing is kept, for an update; the entry holds
    the fields of the key overridden by those of the values, and the two
    modification fields.  It does not always succeed: on a key that is
    not a dictionary, such as the [None] the customizing handler passes
    for a planned step without [key], it raises at [key.get], and on
    values that are not a dictionary at the merge of key and values; the
    operation has then been counted and the table initialised, and no row
    is stored. *)
Theorem set_table_then_get_table (table : string) (key values : pyval)
    (a : FakeSAPAdapter.t) :
  (FakeSAPAdapter.failure_rate a <= 0)%Q ->
  let call :=
    FakeSAPAdapter.set_table_any random isoformat table key values a in
  let rows := default [] (dict_get (FakeSAPAdapter._tables a) table) in
  let interrupted :=
    FakeSAPAdapter._operation_count call.2
    = FakeSAPAdapter._operation_count a + 1 /\
    dict_get (FakeSAPAdapter._tables call.2) table = Some rows /\
    (forall other, other <> table ->
       dict_get (FakeSAPAdapter._tables call.2) other
       = dict_get (FakeSAPAdapter._tables a) other) in
  (forall key_fields value_fields,
     key = PDict key_fields -> values = PDict value_fields ->
     NoDup (dict_keys key_fields) -> NoDup (dict_keys value_fields) ->
     let key_str := FakeSAPAdapter._make_key table key_fields in
     call = (Ret (FakeSAPAdapter.set_table random isoformat table key_fields
                    value_fields a).1,
             (FakeSAPAdapter.set_table random isoformat table key_fields
                value_fields a).2) /\
     exists result,
       call.1 = Ret result /\
       tor_success result = true /\
       (tor_operation result = "insert" <-> dict_get rows key_str = None) /\
       (tor_operation result = "update"
        <-> is_Some (dict_get rows key_str)) /\
       exists entry,
         (FakeSAPAdapter.get_table table None None call.2).1
           = map snd (dict_set rows key_str entry) /\
         (forall field, field <> "_MODIFIED_AT" -> field <> "_MODIFIED_BY" ->
            dict_get entry field
            = match dict_get value_fields field with
              | Some value => Some value
              | None => dict_get key_fields field
              end) /\
         dict_get entry "_MODIFIED_BY" = Some (PStr "SAP_FACTORY")) /\
  ((forall d, key <> PDict d) ->
     call.1 = Raise ("'" +:+ type_name key
                       +:+ "' object has no attribute 'get'") /\
     interrupted) /\
  (forall key_fields,
     key = PDict key_fields -> (forall d, values <> PDict d) ->
     call.1 = Raise ("'" +:+ type_name values
                       +:+ "' object is not a mapping") /\
     interrupted).
Proof.
  intros Hrate. cbn zeta. split; [| split].
  - intros key_fields value_fields -> -> Hkey Hvalues.
    rewrite set_table_any_dict. split; [done |]. simpl.
    eexists. split; [reflexivity |].
    exact (set_table_stores table key_fields value_fields a Hrate Hkey
             Hvalues).
  - intros Hkey.
    assert (Hraise :
      (FakeSAPAdapter.set_table_any random isoformat table key values a).1
      = Raise ("'" +:+ type_name key +:+ "' object has no attribute 'get'")).
    { unfold FakeSAPAdapter.set_table_any.
      destruct (latency_keeps_rate a) as (Hr & _).
      rewrite should_fail_never by (simpl; by rewrite Hr).
      by rewrite make_key_any_raises. }
    split; [exact Hraise |].
    exact (set_table_any_interrupted table key values a _ Hrate Hraise).
  - intros key_fields -> Hvalues.
    assert (Hraise :
      (FakeSAPAdapter.set_table_any random isoformat table (PDict key_fields)
         values a).1
      = Raise ("'" +:+ type_name values +:+ "' object is not a mapping")).
    { unfold FakeSAPAdapter.set_table_any.
      destruct (latency_keeps_rate a) as (Hr & _).
      rewrite should_fail_never by (simpl; by rewrite Hr).
      rewrite make_key_any_dict. unfold FakeSAPAdapter.merge_entry.
      destruct values; try done. by destruct (Hvalues d). }
    split; [exact Hraise |].
    exact (set_table_any_interrupted table _ values a _ Hrate Hraise).
Qed.

Lemma make_key_undefined (table : string) (key : list (string * pyval)) :
  dict_get FakeSAPAdapter.TABLE_DEFINITIONS table = None ->
  dict_get key "KEY" = None ->
  FakeSAPAdapter._make_key table key = "".
Proof.
  intros Htable Hkey. unfold FakeSAPAdapter._make_key. rewrite Htable.
  cbn [default map join]. unfold get_default. by rewrite Hkey.
Qed.

(** X23. For a table that is not among the defined ones the key string
    is built from the one field [KEY]; two keys without that field have
    the same, empty key string, so the second [set_table] is an update
    that replaces the row of the first: however many successful calls are
    made with such keys, the table holds one row, the last one.  The
    parameters of the customizing handler's [set_parameter], written to
    [TPARA] under [PARAMID], all share that row. *)
Theorem undefined_table_keys_collide (table : string)
    (key1 values1 key2 values2 : list (string * pyval))
    (a : FakeSAPAdapter.t) :
  (FakeSAPAdapter.failure_rate a <= 0)%Q ->
  dict_get FakeSAPAdapter.TABLE_DEFINITIONS table = None ->
  dict_get key1 "KEY" = None -> dict_get key2 "KEY" = None ->
  let a1 :=
    (FakeSAPAdapter.set_table random isoformat table key1 values1 a).2 in
  let result2 :=
    (FakeSAPAdapter.set_table random isoformat table key2 values2 a1).1 in
  let a2 :=
    (FakeSAPAdapter.set_table random isoformat table key2 values2 a1).2 in
  tor_success result2 = true /\ tor_operation result2 = "update" /\
  length (FakeSAPAdapter.get_table table None None a2).1
  = length (FakeSAPAdapter.get_table table None None a1).1 /\
  (dict_get (FakeSAPAdapter._tables a) table = None ->
   exists entry,
     (FakeSAPAdapter.get_table table None None a2).1 = [entry] /\
     forall field, field <> "_MODIFIED_AT" -> field <> "_MODIFIED_BY" ->
       dict_get entry field
       = dict_get (dict_update (dict_update [] key2) values2) field).
Proof.
  intros Hrate Htable Hkey1 Hkey2. cbn zeta.
  destruct (set_table_succeeds table key1 values1 a Hrate)
    as (_ & Htable1 & _ & Hrate1). cbn zeta in Htable1.
  rewrite <- Hrate1 in Hrate.
  destruct (set_table_succeeds table key2 values2 _ Hrate)
    as (Hresult2 & Htable2 & _ & _). cbn zeta in Hresult2, Htable2.
  rewrite Hresult2, !get_table_all, Htable2, Htable1.
  rewrite !(make_key_undefined table) by done. cbn [default].
  unfold id, dict_contains. rewrite dict_get_set_eq. cbn [tor_success tor_operation].
  split; [done |]. split; [done |]. split.
  - rewrite !length_map. apply dict_set_length_present.
    rewrite dict_get_set_eq. by eexists.
  - intros ->. simpl. eexists. split; [reflexivity |].
    intros field Hat Hby. by rewrite !dict_get_set_ne.
Qed.

(** X24. [delete_table] after a successful [set_table] with the same
    table and key deletes the row: it answers [Entry deleted], the table
    no longer holds a row under the key string while every other row
    stays, and a second [delete_table] answers [Entry not found].  For a
    table the adapter has never seen it answers [Table not found].  No
    failure is ever simulated for a delete. *)
Theorem delete_table_after_set_table (table : string)
    (key values : list (string * pyval)) (a : FakeSAPAdapter.t) :
  (FakeSAPAdapter.failure_rate a <= 0)%Q ->
  let a1 :=
    (FakeSAPAdapter.set_table random isoformat table key values a).2 in
  let key_str := FakeSAPAdapter._make_key table key in
  let rows := default [] (dict_get (FakeSAPAdapter._tables a) table) in
  (FakeSAPAdapter.delete_table table key a1).1
  = {| tor_success := true; tor_operation := "delete";
       tor_message := "Entry deleted"; tor_affected_rows := 1 |} /\
  (exists rows',
     dict_get (FakeSAPAdapter._tables
                 (FakeSAPAdapter.delete_table table key a1).2) table
     = Some rows' /\
     dict_get rows' key_str = None /\
     forall other, other <> key_str ->
       dict_get rows' other = dict_get rows other) /\
  (FakeSAPAdapter.delete_table table key
     (FakeSAPAdapter.delete_table table key a1).2).1
  = {| tor_success := false; tor_operation := "delete";
       tor_message := "Entry not found"; tor_affected_rows := 0 |} /\
  (forall unseen,
     dict_get (FakeSAPAdapter._tables a1) unseen = None ->
     (FakeSAPAdapter.delete_table unseen key a1).1
     = {| tor_success := false; tor_operation := "delete";
          tor_message := "Table not found"; tor_affected_rows := 0 |}).
Proof.
  intros Hrate. cbn zeta.
  destruct (set_table_succeeds table key values a Hrate)
    as (_ & Htable & _ & _). cbn zeta in Htable.
  set (a1 := (FakeSAPAdapter.set_table random isoformat table key values a).2)
    in *.
  assert (Hdel : forall b rows0,
            dict_get (FakeSAPAdapter._tables b) table = Some rows0 ->
            FakeSAPAdapter.delete_table table key b
            = if dict_contains rows0 (FakeSAPAdapter._make_key table key)
              then
                ({| tor_success := true; tor_operation := "delete";
                    tor_message := "Entry deleted";
                    tor_affected_rows := 1 |},
                 FakeSAPAdapter.set_tables
                   (FakeSAPAdapter.count_operation
                      (FakeSAPAdapter._simulate_latency b))
                   (dict_set (FakeSAPAdapter._tables b) table
                      (dict_remove rows0
                         (FakeSAPAdapter._make_key table key))))
              else
                ({| tor_success := false; tor_operation := "delete";
                    tor_message := "Entry not found";
                    tor_affected_rows := 0 |},
                 FakeSAPAdapter.count_operation
                   (FakeSAPAdapter._simulate_latency b))).
  { intros b rows0 Hb. unfold FakeSAPAdapter.delete_table.
    destruct (latency_keeps_rate b) as (_ & Ht & _). simpl.
    by rewrite Ht, Hb. }
  rewrite (Hdel a1 _ Htable). unfold dict_contains at 1 2 3.
  rewrite dict_get_set_eq. cbn [fst snd].
  split; [done |]. split; [| split].
  - eexists. simpl. rewrite dict_get_set_eq. split; [reflexivity |].
    split; [apply dict_get_remove_eq |].
    intros other Hne. rewrite dict_get_remove_ne by done.
    by apply dict_get_set_ne.
  - erewrite Hdel by (simpl; apply dict_get_set_eq).
    unfold dict_contains. by rewrite dict_get_remove_eq.
  - intros unseen Hunseen. unfold FakeSAPAdapter.delete_table.
    destruct (latency_keeps_rate a1) as (_ & Ht & _). simpl.
    by rewrite Ht, Hunseen.
Qed.



(** On a function name that is a string and parameters that are a
    dictionary [call_bapi_any] is [call_bapi]. *)
Lemma call_bapi_any_dict (bapi : string) (params : list (string * pyval))
    (a : FakeSAPAdapter.t) :
  FakeSAPAdapter.call_bapi_any random (PStr bapi) (PDict params) a
  = (Ret (FakeSAPAdapter.call_bapi random bapi params a).1,
     (FakeSAPAdapter.call_bapi random bapi params a).2).
Proof.
  unfold FakeSAPAdapter.call_bapi_any, FakeSAPAdapter.call_bapi.
  cbn [py_get py_str].
  destruct (FakeSAPAdapter._should_fail random _) as [fail a1].
  by destruct fail.
Qed.

(** X26. With a failure rate of 0, the default, no failure is simulated:
    [connect] answers [True] and leaves the adapter connected,
    [load_data] loads every record it is given and reports success and a
    reconciled load, and [call_bapi] with parameters that are a dictionary
    and a function name that is hashable answers with a return of type
    [S], as the typed [call_bapi] does.  [call_bapi] can still raise:
    with parameters that are not a dictionary, such as the [None] the
    customizing handler passes for a planned step without [params], it
    raises at
    [params.get] before anything else than the latency has happened, and
    with a function name that is a list or a dictionary it raises at the
    lookup. *)
Theorem default_rate_outcomes (a : FakeSAPAdapter.t) :
  (FakeSAPAdapter.failure_rate a <= 0)%Q ->
  (FakeSAPAdapter.connect random a).1 = true /\
  FakeSAPAdapter._connected (FakeSAPAdapter.connect random a).2 = true /\
  (forall bapi params,
     (forall items, bapi <> PList items) -> (forall d, bapi <> PDict d) ->
     exists response message,
       (FakeSAPAdapter.call_bapi_any random bapi (PDict params) a).1
       = Ret response /\
       dict_get response "RETURN"
       = Some (PDict [("TYPE", PStr "S"); ("MESSAGE", PStr message)])) /\
  (forall bapi params,
     FakeSAPAdapter.call_bapi_any random (PStr bapi) (PDict params) a
     = (Ret (FakeSAPAdapter.call_bapi random bapi params a).1,
        (FakeSAPAdapter.call_bapi random bapi params a).2)) /\
  (forall bapi params,
     (forall d, params <> PDict d) ->
     FakeSAPAdapter.call_bapi_any random bapi params a
     = (Raise ("'" +:+ type_name params
                 +:+ "' object has no attribute 'get'"),
        FakeSAPAdapter._simulate_latency a)) /\
  (forall bapi params,
     (exists items, bapi = PList items) \/ (exists d, bapi = PDict d) ->
     (FakeSAPAdapter.call_bapi_any random bapi (PDict params) a).1
     = Raise ("unhashable type: '" +:+ type_name bapi +:+ "'")) /\
  (forall object_type data mapping,
     let result := (FakeSAPAdapter.load_data random isoformat strftime
                      object_type data mapping a).1 in
     dl_success result = true /\
     dl_records_loaded result = Z.of_nat (length data) /\
     dl_records_failed result = 0 /\ dl_errors result = [] /\
     dict_get (dl_reconciliation result) "reconciled" = Some (PBool true)).
Proof.
  intros Hrate. destruct (latency_keeps_rate a) as (Hr & _).
  assert (Hrate' : (FakeSAPAdapter.failure_rate
                      (FakeSAPAdapter._simulate_latency a) <= 0)%Q)
    by (by rewrite Hr).
  split; [| split; [| split; [| split; [| split; [| split]]]]].
  - unfold FakeSAPAdapter.connect. by rewrite should_fail_never.
  - unfold FakeSAPAdapter.connect. by rewrite should_fail_never.
  - intros bapi params Hlist Hdict. unfold FakeSAPAdapter.call_bapi_any.
    cbn [py_get]. rewrite should_fail_never by done.
    destruct bapi as [| flag | z | name | items | d];
      [by eexists _, _ | by eexists _, _ | by eexists _, _ | |
       by destruct (Hlist items) | by destruct (Hdict d)].
    cbn [fst dict_get].
    repeat match goal with
           | |- context [String.eqb ?s name] =>
               destruct (String.eqb_spec s name) as [<- | _];
                 [by eexists _, _ |]
           end.
    by eexists _, _.
  - intros bapi params. apply call_bapi_any_dict.
  - intros bapi params Hparams. unfold FakeSAPAdapter.call_bapi_any.
    destruct params; try done. by destruct (Hparams d).
  - intros bapi params Hbapi. unfold FakeSAPAdapter.call_bapi_any.
    cbn [py_get]. rewrite should_fail_never by done.
    by destruct Hbapi as [[items ->] | [d ->]].
  - intros object_type data mapping. cbn zeta.
    unfold FakeSAPAdapter.load_data. cbn zeta.
    match goal with
    | |- context [FakeSAPAdapter.load_records _ _ _ ?o ?t ?m 0 data ?s] =>
        pose proof (load_records_counts o t m 0%nat data s) as Hcounts;
        pose proof (load_records_no_failure o t m 0%nat data s) as Hnone;
        cbn zeta in Hcounts;
        destruct (FakeSAPAdapter.load_records random isoformat strftime
                    o t m 0 data s) as [a3 loaded failed errors]
    end.
    cbn [FakeSAPAdapter.ls_loaded FakeSAPAdapter.ls_failed
         FakeSAPAdapter.ls_errors FakeSAPAdapter.ls_adapter] in Hcounts, Hnone.
    destruct Hcounts as (Hsum & _ & _ & Herr). simpl in Herr.
    assert (failed = 0) as ->.
    { apply Hnone. by destruct (dict_contains _ _). }
    assert (loaded = Z.of_nat (length data)) as -> by lia.
    assert (errors = []) as -> by (destruct errors; [done | simpl in Herr; lia]).
    cbn [fst dl_success dl_records_loaded dl_records_failed dl_errors
         dl_reconciliation dict_get String.eqb Ascii.eqb Bool.eqb
         FakeSAPAdapter.ls_loaded FakeSAPAdapter.ls_failed
         FakeSAPAdapter.ls_errors].
    by rewrite !Z.eqb_refl.
Qed.

Lemma fold_mapping_keys (mapping : list (string * string))
    (record acc : list (string * pyval)) (k : string) :
  k ∈ dict_keys
        (fold_left (fun mapped_record (field : string * string) =>
                      match dict_get record field.1 with
                      | Some value => dict_set mapped_record field.2 value
                      | None => mapped_record
                      end) mapping acc) ->
  k ∈ dict_keys acc \/ k ∈ map snd mapping.
Proof.
  revert acc. induction mapping as [|[s t] mapping IH]; intros acc; simpl.
  { by left. }
  intros [Hk | Hk]%IH; [| right; by right].
  destruct (dict_get record s); [| by left].
  rewrite dict_set_keys in Hk. destruct (dict_contains acc t); [by left |].
  apply elem_of_app in Hk as [Hk | ->%list_elem_of_singleton]; [by left |].
  right. by left.
Qed.

Lemma keep_unmapped_keys (mapping : list (string * string))
    (record acc : list (string * pyval)) (k : string) :
  k ∈ dict_keys
        (fold_left (fun new_record (item : string * pyval) =>
                      if dict_contains mapping item.1 then new_record
                      else dict_set new_record item.1 item.2) record acc) ->
  k ∈ dict_keys acc \/ dict_contains mapping k = false.
Proof.
  revert acc. induction record as [|[k0 v0] record IH]; intros acc; simpl.
  { by left. }
  destruct (dict_contains mapping k0) eqn:Hmapped; [apply IH |].
  intros [Hk | Hk]%IH; [| by right].
  rewrite dict_set_keys in Hk. destruct (dict_contains acc k0); [by left |].
  apply elem_of_app in Hk as [Hk | ->%list_elem_of_singleton]; [by left |].
  by right.
Qed.

Lemma transform_record_keys (mapping : list (string * string))
    (record : list (string * pyval)) (k : string) :
  k ∈ dict_keys (transform_record mapping record) ->
  k ∈ map snd mapping \/ dict_contains mapping k = false.
Proof.
  unfold transform_record, FakeSAPAdapter.apply_mapping.
  intros [Hk | Hk]%keep_unmapped_keys; [| by right].
  apply fold_mapping_keys in Hk as [Hk | Hk]; [| by left].
  by apply elem_of_nil in Hk.
Qed.

Lemma apply_mapping_nothing (mapping : list (string * string))
    (record : list (string * pyval)) :
  (forall s t, (s, t) ∈ mapping -> dict_get record s = None) ->
  FakeSAPAdapter.apply_mapping mapping record = [].
Proof.
  unfold FakeSAPAdapter.apply_mapping. generalize (@nil (string * pyval)).
  induction mapping as [|[s t] mapping IH]; intros acc Hnone; [done |].
  simpl. rewrite (Hnone s t) by (by left). apply IH.
  intros s' t' Hin. apply (Hnone s' t'). by right.
Qed.

Lemma remapped_record_is_empty (mapping : list (string * string))
    (record : list (string * pyval)) :
  (forall s t, (s, t) ∈ mapping -> dict_contains mapping t = false) ->
  FakeSAPAdapter.apply_mapping mapping (transform_record mapping record) = [].
Proof.
  intros Hdisjoint. apply apply_mapping_nothing. intros s t Hin.
  assert (Hsource : dict_contains mapping s = true).
  { apply dict_contains_keys, list_elem_of_fmap. by exists (s, t). }
  apply dict_get_None.
  intros [Htarget | Hunmapped]%transform_record_keys; [| congruence].
  apply list_elem_of_fmap in Htarget as ([s0 t0] & Heq & Hin0).
  simpl in Heq. subst t0. rewrite (Hdisjoint s0 s Hin0) in Hsource. done.
Qed.

Lemma load_records_rows object_type target_table mapping i data st :
  Forall (fun record => FakeSAPAdapter.apply_mapping mapping record = [])
         data ->
  forall key_str row,
    dict_get (default [] (dict_get
                (FakeSAPAdapter._tables
                   (FakeSAPAdapter.ls_adapter
                      (FakeSAPAdapter.load_records random isoformat strftime
                         object_type target_table mapping i data st)))
                target_table)) key_str = Some row ->
    dict_get (default [] (dict_get
                (FakeSAPAdapter._tables (FakeSAPAdapter.ls_adapter st))
                target_table)) key_str = Some row \/
    dict_keys row = ["_LOADED_AT"; "_BATCH_ID"].
Proof.
  intros Hdata. revert i st.
  induction Hdata as [|record data Hrecord _ IH]; intros i st key_str row.
  { by left. }
  cbn [FakeSAPAdapter.load_records]. rewrite Hrecord.
  unfold FakeSAPAdapter._should_fail. cbn iota.
  destruct (negb _).
  - intros Hrow. apply IH in Hrow. exact Hrow.
  - intros Hrow. apply IH in Hrow as [Hrow | Hnew]; [| by right].
    cbn [FakeSAPAdapter.ls_adapter FakeSAPAdapter._tables
         FakeSAPAdapter.set_clock FakeSAPAdapter.set_tables
         FakeSAPAdapter.set_draws] in Hrow.
    rewrite dict_get_set_eq in Hrow. cbn [default from_option] in Hrow.
    unfold id in Hrow.
    match type of Hrow with
    | dict_get (dict_set _ ?ks _) _ = _ =>
        destruct (decide (ks = key_str)) as [<- | Hne]
    end.
    + rewrite dict_get_set_eq in Hrow. injection Hrow as <-. by right.
    + rewrite dict_get_set_ne in Hrow by done. by left.
Qed.

(** X27. A migration maps its records twice: the handler's
    [_transform_data] renames the fields, and [load_data] then applies
    the same mapping to the renamed records.  When no target field of the
    mapping is also one of its source fields, the second pass finds none
    of its source fields, and every row the load stores holds the two
    bookkeeping fields [_LOADED_AT] and [_BATCH_ID] and nothing of the
    record. *)
Theorem migrated_rows_hold_no_data (object_type : string)
    (data : list (list (string * pyval))) (mapping : list (string * string))
    (a : FakeSAPAdapter.t) :
  mapping <> [] ->
  (forall s t, (s, t) ∈ mapping -> dict_contains mapping t = false) ->
  let target_table :=
    default object_type (dict_get FakeSAPAdapter.table_map object_type) in
  let a' :=
    (FakeSAPAdapter.load_data random isoformat strftime object_type
       (_transform_data data mapping) mapping a).2 in
  forall key_str row,
    dict_get (default [] (dict_get (FakeSAPAdapter._tables a') target_table))
             key_str = Some row ->
    dict_get (default [] (dict_get (FakeSAPAdapter._tables a) target_table))
             key_str = Some row \/
    dict_keys row = ["_LOADED_AT"; "_BATCH_ID"].
Proof.
  intros Hmapping Hdisjoint. cbn zeta. intros key_str row.
  unfold FakeSAPAdapter.load_data. cbn zeta.
  cbn [snd FakeSAPAdapter._tables FakeSAPAdapter.set_migrations
       FakeSAPAdapter.set_clock].
  intros Hrow. apply load_records_rows in Hrow.
  - destruct Hrow as [Hrow | Hnew]; [| by right]. left.
    cbn [FakeSAPAdapter.ls_adapter] in Hrow.
    destruct (latency_keeps_rate a) as (_ & Ht & _).
    unfold dict_contains in Hrow. rewrite Ht in Hrow.
    destruct (dict_get (FakeSAPAdapter._tables a) _) as [rows|] eqn:Hget.
    + by rewrite Ht, Hget in Hrow.
    + cbn [FakeSAPAdapter._tables FakeSAPAdapter.set_tables] in Hrow.
      by rewrite dict_get_set_eq in Hrow.
  - unfold _transform_data. destruct mapping as [|field mapping]; [done |].
    apply Forall_forall. intros record (source & -> & _)%list_elem_of_fmap.
    by apply remapped_record_is_empty.
Qed.
End FakeSAPFacts.


Lemma set_table_then_get_table_witness :
  (let key := [("BUKRS", PStr "1000")] in
   let values := [("WAERS", PStr "EUR")] in
   let call :=
     FakeSAPAdapter.set_table_any sample_random sample_isoformat "T001"
       (PDict key) (PDict values) fresh_adapter in
   exists result,
     call.1 = Ret result /\
     tor_success result = true /\ tor_operation result = "insert" /\
     exists entry,
       (FakeSAPAdapter.get_table "T001" None None call.2).1 = [entry] /\
       dict_get entry "BUKRS" = Some (PStr "1000") /\
       dict_get entry "WAERS" = Some (PStr "EUR") /\
       dict_get entry "_MODIFIED_BY" = Some (PStr "SAP_FACTORY")) /\
  (let call :=
     FakeSAPAdapter.set_table_any sample_random sample_isoformat "T001"
       PNone PNone fresh_adapter in
   call.1 = Raise "'NoneType' object has no attribute 'get'" /\
   FakeSAPAdapter._operation_count call.2 = 1 /\
   dict_get (FakeSAPAdapter._tables call.2) "T001" = Some []) /\
  (let call :=
     FakeSAPAdapter.set_table_any sample_random sample_isoformat "ZTAB"
       (PDict [("KEY", PStr "1")]) PNone fresh_adapter in
   call.1 = Raise "'NoneType' object is not a mapping" /\
   FakeSAPAdapter._operation_count call.2 = 1 /\
   dict_get (FakeSAPAdapter._tables call.2) "ZTAB" = Some []).
Proof.
  cbn zeta. split; [| split].
  - destruct (set_table_then_get_table sample_random sample_isoformat
                (fun k => ltac:(discriminate)) "T001"
                (PDict [("BUKRS", PStr "1000")]) (PDict [("WAERS", PStr "EUR")])
                fresh_adapter ltac:(discriminate))
      as (Hdict & _ & _).
    destruct (Hdict [("BUKRS", PStr "1000")] [("WAERS", PStr "EUR")]
                eq_refl eq_refl (NoDup_singleton _) (NoDup_singleton _))
      as (_ & result & Hcall & Hsuccess & Hinsert & _ & entry & Hrows
          & Hfields & Hby).
    exists result. split; [exact Hcall |]. split; [exact Hsuccess |].
    split; [by apply Hinsert |].
    exists entry. split; [exact Hrows |].
    split; [by rewrite Hfields |]. split; [by rewrite Hfields | exact Hby].
  - destruct (set_table_then_get_table sample_random sample_isoformat
                (fun k => ltac:(discriminate)) "T001" PNone PNone
                fresh_adapter ltac:(discriminate))
      as (_ & Hkey & _).
    destruct (Hkey ltac:(discriminate)) as (Hraise & Hcount & Htable & _).
    split; [exact Hraise |]. split; [exact Hcount | exact Htable].
  - destruct (set_table_then_get_table sample_random sample_isoformat
                (fun k => ltac:(discriminate)) "ZTAB"
                (PDict [("KEY", PStr "1")]) PNone fresh_adapter
                ltac:(discriminate))
      as (_ & _ & Hvalues).
    destruct (Hvalues [("KEY", PStr "1")] eq_refl ltac:(discriminate))
      as (Hraise & Hcount & Htable & _).
    split; [exact Hraise |]. split; [exact Hcount | exact Htable].
Defined.

Lemma undefined_table_keys_collide_witness :
  let a1 :=
    (FakeSAPAdapter.set_table sample_random sample_isoformat "TPARA"
       [("PARAMID", PStr "LANGUAGE")] [("PARVAL", PStr "EN")]
       fresh_adapter).2 in
  let result2 :=
    (FakeSAPAdapter.set_table sample_random sample_isoformat "TPARA"
       [("PARAMID", PStr "CURRENCY")] [("PARVAL", PStr "EUR")] a1).1 in
  let a2 :=
    (FakeSAPAdapter.set_table sample_random sample_isoformat "TPARA"
       [("PARAMID", PStr "CURRENCY")] [("PARVAL", PStr "EUR")] a1).2 in
  tor_success result2 = true /\ tor_operation result2 = "update" /\
  length (FakeSAPAdapter.get_table "TPARA" None None a2).1
  = length (FakeSAPAdapter.get_table "TPARA" None None a1).1 /\
  (dict_get (FakeSAPAdapter._tables fresh_adapter) "TPARA" = None ->
   exists entry,
     (FakeSAPAdapter.get_table "TPARA" None None a2).1 = [entry] /\
     forall field, field <> "_MODIFIED_AT" -> field <> "_MODIFIED_BY" ->
       dict_get entry field
       = dict_get (dict_update (dict_update [] [("PARAMID", PStr "CURRENCY")])
                               [("PARVAL", PStr "EUR")]) field).
Proof.
  apply (undefined_table_keys_collide sample_random sample_isoformat
           (fun k => ltac:(discriminate)) "TPARA"
           [("PARAMID", PStr "LANGUAGE")] [("PARVAL", PStr "EN")]
           [("PARAMID", PStr "CURRENCY")] [("PARVAL", PStr "EUR")]
           fresh_adapter).
  - discriminate.
  - reflexivity.
  - reflexivity.
  - reflexivity.
Defined.

Lemma delete_table_after_set_table_witness :
  let key := [("BUKRS", PStr "1000")] in
  let a1 :=
    (FakeSAPAdapter.set_table sample_random sample_isoformat "T001" key
       [("WAERS", PStr "EUR")] fresh_adapter).2 in
  let key_str := FakeSAPAdapter._make_key "T001" key in
  let rows :=
    default [] (dict_get (FakeSAPAdapter._tables fresh_adapter) "T001") in
  (FakeSAPAdapter.delete_table "T001" key a1).1
  = {| tor_success := true; tor_operation := "delete";
       tor_message := "Entry deleted"; tor_affected_rows := 1 |} /\
  (exists rows',
     dict_get (FakeSAPAdapter._tables
                 (FakeSAPAdapter.delete_table "T001" key a1).2) "T001"
     = Some rows' /\
     dict_get rows' key_str = None /\
     forall other, other <> key_str ->
       dict_get rows' other = dict_get rows other) /\
  (FakeSAPAdapter.delete_table "T001" key
     (FakeSAPAdapter.delete_table "T001" key a1).2).1
  = {| tor_success := false; tor_operation := "delete";
       tor_message := "Entry not found"; tor_affected_rows := 0 |} /\
  (forall unseen,
     dict_get (FakeSAPAdapter._tables a1) unseen = None ->
     (FakeSAPAdapter.delete_table unseen key a1).1
     = {| tor_success := false; tor_operation := "delete";
          tor_message := "Table not found"; tor_affected_rows := 0 |}).
Proof.
  apply (delete_table_after_set_table sample_random sample_isoformat
           (fun k => ltac:(discriminate)) "T001" [("BUKRS", PStr "1000")]
           [("WAERS", PStr "EUR")] fresh_adapter).
  discriminate.
Defined.


Lemma default_rate_outcomes_witness :
  (FakeSAPAdapter.connect sample_random fresh_adapter).1 = true /\
  FakeSAPAdapter._connected
    (FakeSAPAdapter.connect sample_random fresh_adapter).2 = true /\
  (exists response,
     (FakeSAPAdapter.call_bapi_any sample_random
        (PStr "BAPI_TRANSACTION_COMMIT") (PDict []) fresh_adapter).1
     = Ret response /\
     dict_get response "RETURN"
     = Some (PDict [("TYPE", PStr "S");
                    ("MESSAGE", PStr "Transaction committed")])) /\
  (exists response,
     (FakeSAPAdapter.call_bapi_any sample_random PNone (PDict [])
        fresh_adapter).1 = Ret response /\
     dict_get response "RETURN"
     = Some (PDict [("TYPE", PStr "S");
                    ("MESSAGE", PStr "BAPI None executed")])) /\
  (FakeSAPAdapter.call_bapi_any sample_random
     (PStr "BAPI_TRANSACTION_COMMIT") PNone fresh_adapter).1
  = Raise "'NoneType' object has no attribute 'get'" /\
  (forall object_type data mapping,
     let result := (FakeSAPAdapter.load_data sample_random sample_isoformat
                      sample_strftime object_type data mapping
                      fresh_adapter).1 in
     dl_success result = true /\
     dl_records_loaded result = Z.of_nat (length data) /\
     dl_records_failed result = 0 /\ dl_errors result = [] /\
     dict_get (dl_reconciliation result) "reconciled" = Some (PBool true)).
Proof.
  destruct (default_rate_outcomes sample_random sample_isoformat
              sample_strftime (fun k => ltac:(discriminate)) fresh_adapter
              ltac:(discriminate))
    as (Hconnect & Hconnected & Hdict & _ & Hparams & _ & Hload).
  split; [exact Hconnect |]. split; [exact Hconnected |].
  split; [| split; [| split; [| exact Hload]]].
  - destruct (Hdict (PStr "BAPI_TRANSACTION_COMMIT") []
                ltac:(discriminate) ltac:(discriminate))
      as (response & message & Hcall & Hreturn).
    exists response. split; [exact Hcall |].
    vm_compute in Hcall. injection Hcall as <-. reflexivity.
  - destruct (Hdict PNone [] ltac:(discriminate) ltac:(discriminate))
      as (response & message & Hcall & Hreturn).
    exists response. split; [exact Hcall |].
    vm_compute in Hcall. injection Hcall as <-. reflexivity.
  - by rewrite (Hparams (PStr "BAPI_TRANSACTION_COMMIT") PNone
                  ltac:(discriminate)).
Defined.

Lemma migrated_rows_hold_no_data_witness :
  let mapping := [("id", "MATNR"); ("name", "MAKTX")] in
  let data := [[("id", PStr "M1"); ("name", PStr "Bolt")]] in
  let a' :=
    (FakeSAPAdapter.load_data sample_random sample_isoformat sample_strftime
       "MATERIAL" (_transform_data data mapping) mapping fresh_adapter).2 in
  dict_get (FakeSAPAdapter._tables a') "MARA"
  = Some [("AUTO_0", [("_LOADED_AT", PStr "2024-01-01T00:00:00");
                      ("_BATCH_ID", PStr "MATERIAL_20240101000000")])] /\
  (dict_get (default [] (dict_get (FakeSAPAdapter._tables fresh_adapter)
                                  "MARA")) "AUTO_0"
   = Some [("_LOADED_AT", PStr "2024-01-01T00:00:00");
           ("_BATCH_ID", PStr "MATERIAL_20240101000000")] \/
   dict_keys [("_LOADED_AT", PStr "2024-01-01T00:00:00");
              ("_BATCH_ID", PStr "MATERIAL_20240101000000")]
   = ["_LOADED_AT"; "_BATCH_ID"]).
Proof.
  split; [reflexivity |].
  apply (migrated_rows_hold_no_data sample_random sample_isoformat
           sample_strftime "MATERIAL"
           [[("id", PStr "M1"); ("name", PStr "Bolt")]]
           [("id", "MATNR"); ("name", "MAKTX")] fresh_adapter).
  - discriminate.
  - intros s t Hin.
    repeat (apply elem_of_cons in Hin as [[= -> ->] | Hin]; [reflexivity |]).
    by apply elem_of_nil in Hin.
  - reflexivity.
Defined.

(** ** The transformation of migration records *)

Lemma keep_unmapped_lookup (mapping : list (string * string))
    (record acc : list (string * pyval)) (k : string) :
  NoDup (dict_keys record) ->
  dict_get
    (fold_left (fun new_record (item : string * pyval) =>
                  if dict_contains mapping item.1 then new_record
                  else dict_set new_record item.1 item.2) record acc) k
  = if dict_contains mapping k then dict_get acc k
    else match dict_get record k with
         | Some value => Some value
         | None => dict_get acc k
         end.
Proof.
  unfold dict_keys. revert acc.
  induction record as [|[k0 v0] record IH]; intros acc Hnd; simpl.
  { by destruct (dict_contains mapping k). }
  simpl in Hnd. apply NoDup_cons in Hnd as [Hk0 Hnd].
  destruct (dict_contains mapping k0) eqn:Hmapped.
  - rewrite (IH _ Hnd). destruct (String.eqb_spec k0 k) as [<- | Hne]; [| done].
    by rewrite Hmapped.
  - rewrite (IH _ Hnd). destruct (String.eqb_spec k0 k) as [<- | Hne].
    + rewrite Hmapped.
      assert (dict_get record k0 = None) as -> by (by apply dict_get_None).
      apply dict_get_set_eq.
    + by rewrite dict_get_set_ne.
Qed.

Lemma fold_mapping_other (mapping : list (string * string))
    (record acc : list (string * pyval)) (k : string) :
  k ∉ map snd mapping ->
  dict_get
    (fold_left (fun mapped_record (field : string * string) =>
                  match dict_get record field.1 with
                  | Some value => dict_set mapped_record field.2 value
                  | None => mapped_record
                  end) mapping acc) k
  = dict_get acc k.
Proof.
  revert acc. induction mapping as [|[s t] mapping IH]; intros acc Hk; simpl.
  { done. }
  simpl in Hk. apply not_elem_of_cons in Hk as [Hne Hk]. rewrite (IH _ Hk).
  destruct (dict_get record s); [| done]. by apply dict_get_set_ne.
Qed.

Lemma fold_mapping_target (mapping : list (string * string))
    (record acc : list (string * pyval)) (s t : string) (value : pyval) :
  NoDup (map snd mapping) -> (s, t) ∈ mapping ->
  dict_get record s = Some value ->
  dict_get
    (fold_left (fun mapped_record (field : string * string) =>
                  match dict_get record field.1 with
                  | Some value => dict_set mapped_record field.2 value
                  | None => mapped_record
                  end) mapping acc) t
  = Some value.
Proof.
  revert acc. induction mapping as [|[s0 t0] mapping IH]; intros acc Hnd Hin Hs.
  { by apply elem_of_nil in Hin. }
  simpl in *. apply NoDup_cons in Hnd as [Ht0 Hnd].
  apply elem_of_cons in Hin as [[= <- <-] | Hin]; [| by apply IH].
  rewrite Hs, (fold_mapping_other _ _ _ _ Ht0). apply dict_get_set_eq.
Qed.

(** X28. What [_transform_data] makes of a record, for a mapping that
    gives no two source fields the same target: a field the mapping does
    not name keeps its name and value, also when a mapped field is sent
    to the same name, whose value is then lost; a source field arrives
    under its target name unless the record has such an unnamed field of
    that name; and no source field is left under its own name unless it
    is a target as well.  Without a mapping the records are returned as
    they are, and the number of records never changes. *)
Theorem transform_data_fields (mapping : list (string * string))
    (data : list (list (string * pyval))) (record : list (string * pyval)) :
  NoDup (dict_keys record) -> NoDup (map snd mapping) ->
  length (_transform_data data mapping) = length data /\
  _transform_data data [] = data /\
  (forall field value,
     dict_contains mapping field = false ->
     dict_get record field = Some value ->
     dict_get (transform_record mapping record) field = Some value) /\
  (forall source target value,
     (source, target) ∈ mapping ->
     dict_get record source = Some value ->
     dict_contains mapping target = true \/ dict_get record target = None ->
     dict_get (transform_record mapping record) target = Some value) /\
  (forall source,
     dict_contains mapping source = true -> source ∉ map snd mapping ->
     dict_get (transform_record mapping record) source = None).
Proof.
  intros Hrecord Htargets.
  split; [destruct mapping; [done | apply length_map] |]. split; [done |].
  unfold transform_record, FakeSAPAdapter.apply_mapping.
  split; [| split].
  - intros field value Hunmapped Hfield.
    by rewrite keep_unmapped_lookup, Hunmapped, Hfield.
  - intros source target value Hin Hsource Hfree.
    rewrite keep_unmapped_lookup by done.
    rewrite (fold_mapping_target _ _ _ source target value) by done.
    destruct (dict_contains mapping target) eqn:Hmapped; [done |].
    destruct Hfree as [? | ->]; done.
  - intros source Hmapped Hnot.
    rewrite keep_unmapped_lookup, Hmapped by done.
    by rewrite fold_mapping_other.
Qed.

Lemma transform_data_fields_witness :
  let mapping := [("id", "MATNR")] in
  let record := [("id", PStr "M1"); ("MATNR", PStr "OLD")] in
  transform_record mapping record = [("MATNR", PStr "OLD")] /\
  length (_transform_data [record] mapping) = 1%nat /\
  _transform_data [record] [] = [record] /\
  (forall field value,
     dict_contains mapping field = false ->
     dict_get record field = Some value ->
     dict_get (transform_record mapping record) field = Some value) /\
  (forall source target value,
     (source, target) ∈ mapping ->
     dict_get record source = Some value ->
     dict_contains mapping target = true \/ dict_get record target = None ->
     dict_get (transform_record mapping record) target = Some value) /\
  (forall source,
     dict_contains mapping source = true -> source ∉ map snd mapping ->
     dict_get (transform_record mapping record) source = None).
Proof.
  split; [reflexivity |].
  apply (transform_data_fields [("id", "MATNR")]
           [[("id", PStr "M1"); ("MATNR", PStr "OLD")]]
           [("id", PStr "M1"); ("MATNR", PStr "OLD")]).
  - apply NoDup_cons. split; [| apply NoDup_singleton].
    intros Hin%list_elem_of_singleton. discriminate Hin.
  - apply NoDup_singleton.
Defined.

(** ** The adapter factory *)

Section FactoryFacts.
Context {A : Type}.
Variable factory : list (string * (string -> string -> outcome A)).

(** X29. [AdapterFactory.register] and [AdapterFactory.create]: after a
    class has been registered for a type, [create] for that type calls
    the class with the system id and the client; a type registered
    before keeps its class; the type is listed once, in the place it
    had or at the end; and [create] for a type that is still unknown
    raises with the new list of types in its message. *)
Theorem register_then_create (adapter_type : string)
    (adapter_class : string -> string -> outcome A)
    (system_id client : string) :
  let factory' := AdapterFactory_register factory adapter_type adapter_class in
  AdapterFactory_create factory' adapter_type system_id client
    = adapter_class system_id client /\
  (forall other other_class,
     other <> adapter_type -> dict_get factory other = Some other_class ->
     AdapterFactory_create factory' other system_id client
     = other_class system_id client) /\
  available_adapters factory'
    = (if dict_contains factory adapter_type then available_adapters factory
       else available_adapters factory ++ [adapter_type]) /\
  (forall other,
     other <> adapter_type -> dict_get factory other = None ->
     AdapterFactory_create factory' other system_id client
     = Raise ("Unknown adapter type: " +:+ other +:+ ". Available: "
                +:+ py_repr (PList (map PStr (available_adapters factory'))))).
Proof.
  cbn zeta. unfold AdapterFactory_create, AdapterFactory_register,
    available_adapters.
  rewrite dict_get_set_eq. split; [done |]. split; [| split].
  - intros other other_class Hne Hother.
    by rewrite dict_get_set_ne, Hother.
  - apply dict_set_keys.
  - intros other Hne Hother. by rewrite dict_get_set_ne, Hother.
Qed.
End FactoryFacts.
